(** * go-raspi-temp-monitor: a shallow embedding of [cmd/main.go]

    The program polls the CPU temperature file of a Raspberry PI, compares
    the reading with a threshold and sends a mail through [/usr/bin/mail]
    when the threshold is exceeded.

    Layout of this development:
    - [Utf8], [GoStrings]   : the parts of Go's [unicode/utf8] and [strings]
                              packages that the program calls;
    - [Float64]             : IEEE 754 binary64 numbers ([float64]);
    - [GoErrors]            : error values, their [Error] method, [errors.Is];
    - [Strconv]             : [strconv.ParseFloat] and decimal digits;
    - [GoTime], [Fmt]       : durations, and the verbs of [fmt] in use;
    - the operating system, as an environment of oracles and a world;
    - the functions of [main.go], under the names they have there;
    - the notions used in the statements, and the properties. *)

From Stdlib Require Import ZArith List String Ascii Bool Lia.
From Stdlib Require Import Floats.SpecFloat.
Import ListNotations.

Open Scope string_scope.
Open Scope Z_scope.

(** ** Bytes and strings

    A Go [string] is a sequence of bytes; it is embedded as [string], whose
    characters are the bytes. *)

Definition byte_val (c : ascii) : Z := Z.of_N (N_of_ascii c).

Definition byte_of_Z (n : Z) : ascii := ascii_of_N (Z.to_N n).

Definition bytes := list ascii.

Definition to_bytes (s : string) : bytes := list_ascii_of_string s.
Definition of_bytes (l : bytes) : string := string_of_list_ascii l.

(** ** [unicode/utf8] and [unicode.IsSpace] *)

Module Utf8.

Definition RuneError : Z := 65533.
Definition RuneSelf : Z := 128.
Definition UTFMax : nat := 4.

(** [utf8.RuneStart]: the byte is not a continuation byte. *)
Definition RuneStart (c : ascii) : bool :=
  negb (Z.land (byte_val c) 192 =? 128).

Definition continuation (c : ascii) : bool :=
  (128 <=? byte_val c) && (byte_val c <=? 191).

(** The [first] table of the decoder: for a leading byte, the size of the
    sequence and the accepted range of the second byte. *)
Definition first (b0 : Z) : option (nat * Z * Z) :=
  if (194 <=? b0) && (b0 <=? 223) then Some (2%nat, 128, 191)
  else if b0 =? 224 then Some (3%nat, 160, 191)
  else if (225 <=? b0) && (b0 <=? 236) then Some (3%nat, 128, 191)
  else if b0 =? 237 then Some (3%nat, 128, 159)
  else if (238 <=? b0) && (b0 <=? 239) then Some (3%nat, 128, 191)
  else if b0 =? 240 then Some (4%nat, 144, 191)
  else if (241 <=? b0) && (b0 <=? 243) then Some (4%nat, 128, 191)
  else if b0 =? 244 then Some (4%nat, 128, 143)
  else None.

(** [utf8.DecodeRuneInString]: the rune at the head of [s] and its width. *)
Definition DecodeRune (s : bytes) : Z * nat :=
  match s with
  | [] => (RuneError, 0%nat)
  | c0 :: rest =>
      let b0 := byte_val c0 in
      if b0 <? RuneSelf then (b0, 1%nat)
      else
        match first b0 with
        | None => (RuneError, 1%nat)
        | Some (sz, lo, hi) =>
            if (List.length s <? sz)%nat then (RuneError, 1%nat)
            else
              match rest with
              | [] => (RuneError, 1%nat)
              | c1 :: rest1 =>
                  let b1 := byte_val c1 in
                  if (b1 <? lo) || (hi <? b1) then (RuneError, 1%nat)
                  else if (sz <=? 2)%nat then
                    (Z.lor (Z.shiftl (Z.land b0 31) 6) (Z.land b1 63), 2%nat)
                  else
                    match rest1 with
                    | [] => (RuneError, 1%nat)
                    | c2 :: rest2 =>
                        let b2 := byte_val c2 in
                        if negb (continuation c2) then (RuneError, 1%nat)
                        else if (sz <=? 3)%nat then
                          (Z.lor (Z.lor (Z.shiftl (Z.land b0 15) 12)
                                        (Z.shiftl (Z.land b1 63) 6))
                                 (Z.land b2 63), 3%nat)
                        else
                          match rest2 with
                          | [] => (RuneError, 1%nat)
                          | c3 :: _ =>
                              let b3 := byte_val c3 in
                              if negb (continuation c3) then (RuneError, 1%nat)
                              else
                                (Z.lor (Z.lor (Z.lor (Z.shiftl (Z.land b0 7) 18)
                                                     (Z.shiftl (Z.land b1 63) 12))
                                              (Z.shiftl (Z.land b2 63) 6))
                                       (Z.land b3 63), 4%nat)
                          end
                    end
              end
        end
  end.

(** The backwards scan of [utf8.DecodeLastRuneInString]: [rev_tail] holds
    the bytes before the last one, nearest first; the result is how many of
    them belong to the candidate rune (at most [UTFMax - 1]). *)
Fixpoint back_to_start (budget : nat) (rev_tail : bytes) : nat :=
  match budget, rev_tail with
  | S k, c :: r => if RuneStart c then 1%nat else S (back_to_start k r)
  | _, _ => 0%nat
  end.

(** [utf8.DecodeLastRuneInString], on the reversed string. *)
Definition DecodeLastRune (rev_s : bytes) : Z * nat :=
  match rev_s with
  | [] => (RuneError, 0%nat)
  | c :: r =>
      if byte_val c <? RuneSelf then (byte_val c, 1%nat)
      else
        let back := back_to_start (UTFMax - 1) r in
        let back := Nat.min back (List.length r) in
        let window := rev (firstn (S back) rev_s) in
        let '(rn, size) := DecodeRune window in
        if (size =? S back)%nat then (rn, size) else (RuneError, 1%nat)
  end.

(** [unicode.IsSpace]: the White_Space property. *)
Definition IsSpace (r : Z) : bool :=
  ((9 <=? r) && (r <=? 13)) || (r =? 32) || (r =? 133) || (r =? 160)
  || (r =? 5760) || ((8192 <=? r) && (r <=? 8202))
  || (r =? 8232) || (r =? 8233) || (r =? 8239) || (r =? 8287)
  || (r =? 12288).

End Utf8.

(** ** The [strings] package *)

Module GoStrings.

(** The [asciiSpace] table of [strings.TrimSpace]. *)
Definition asciiSpace (c : ascii) : bool :=
  let b := byte_val c in
  ((9 <=? b) && (b <=? 13)) || (b =? 32).

(** [strings.TrimLeftFunc s unicode.IsSpace]; the fuel is the length of the
    string, each step consumes at least one byte. *)
Fixpoint TrimLeftSpace (fuel : nat) (s : bytes) : bytes :=
  match fuel with
  | O => s
  | S k =>
      match s with
      | [] => []
      | _ :: _ =>
          let '(r, w) := Utf8.DecodeRune s in
          if Utf8.IsSpace r then TrimLeftSpace k (skipn w s) else s
      end
  end.

(** [strings.TrimRightFunc s unicode.IsSpace], on the reversed string. *)
Fixpoint TrimRightSpace (fuel : nat) (rev_s : bytes) : bytes :=
  match fuel with
  | O => rev_s
  | S k =>
      match rev_s with
      | [] => []
      | _ :: _ =>
          let '(r, w) := Utf8.DecodeLastRune rev_s in
          if Utf8.IsSpace r then TrimRightSpace k (skipn w rev_s) else rev_s
      end
  end.

(** Second loop of [TrimSpace]: from the end, skip ASCII spaces and fall
    back to the rune-aware trimming at the first non-ASCII byte. *)
Fixpoint trim_stop (rev_s : bytes) : bytes :=
  match rev_s with
  | [] => []
  | c :: r =>
      if Utf8.RuneSelf <=? byte_val c then TrimRightSpace (List.length rev_s) rev_s
      else if asciiSpace c then trim_stop r
      else rev_s
  end.

(** First loop of [TrimSpace]: from the start. *)
Fixpoint trim_start (s : bytes) : bytes :=
  match s with
  | [] => []
  | c :: r =>
      if Utf8.RuneSelf <=? byte_val c then
        rev (TrimRightSpace (List.length s) (rev (TrimLeftSpace (List.length s) s)))
      else if asciiSpace c then trim_start r
      else rev (trim_stop (rev s))
  end.

Definition TrimSpace (s : string) : string :=
  of_bytes (trim_start (to_bytes s)).

(** [strings.HasPrefix]. *)
Fixpoint HasPrefix (s prefix : string) : bool :=
  match prefix, s with
  | EmptyString, _ => true
  | String p ps, String c cs => Ascii.eqb p c && HasPrefix cs ps
  | String _ _, EmptyString => false
  end.

(** The copying loop of [strings.Replace] for a non-empty [old] and no
    limit: [skip] counts the bytes of a matched [old] still to drop. *)
Fixpoint replace_from (old new : string) (skip : nat) (s : string) : string :=
  match s with
  | EmptyString => EmptyString
  | String c rest =>
      match skip with
      | S k => replace_from old new k rest
      | O =>
          if HasPrefix s old
          then new ++ replace_from old new (String.length old - 1) rest
          else String c (replace_from old new 0 rest)
      end
  end.

(** [strings.ReplaceAll s old new], for a non-empty [old] (the program only
    calls it with [old = ";"]); with an empty [old] Go inserts [new] around
    every rune, which the program never asks for and which is left as the
    identity here. *)
Definition ReplaceAll (s old new : string) : string :=
  if String.eqb old new then s
  else match old with
       | EmptyString => s
       | String _ _ => replace_from old new 0 s
       end.

End GoStrings.

(** ** [float64]

    IEEE 754 binary64 numbers, with the operations of the standard library's
    executable specification of floating-point arithmetic. *)

Module Float64.

Definition prec : Z := 53.
Definition emax : Z := 1024.

Definition float64 : Type := spec_float.

(** [float64(m)] for an integer [m]: the nearest binary64 number, ties to
    even; an infinity when [m] is out of range. *)
Definition of_Z (m : Z) : float64 := binary_normalize prec emax m 0 false.

(** The nearest binary64 number to [(-1)^neg * m * 2^e]. *)
Definition of_binary (neg : bool) (m e : Z) : float64 :=
  binary_normalize prec emax (cond_Zopp neg m) e neg.

(** The nearest binary64 number to [(-1)^neg * m * 10^e]. *)
Definition of_decimal (neg : bool) (m e : Z) : float64 :=
  if 0 <=? e then binary_normalize prec emax (cond_Zopp neg (m * 10 ^ e)) 0 neg
  else
    match m with
    | Zpos _ =>
        let '(q, e', l) := SFdiv_core_binary prec emax m 0 (10 ^ (- e)) 0 in
        binary_round_aux prec emax neg q e' l
    | _ => S754_zero neg
    end.

Definition div (x y : float64) : float64 := SFdiv prec emax x y.

(** Go's [x > y], [x == y] on [float64]. *)
Definition gt (x y : float64) : bool := SFltb y x.
Definition eq (x y : float64) : bool := SFeqb x y.

Definition is_inf (x : float64) : bool :=
  match x with S754_infinity _ => true | _ => false end.

Definition is_finite (x : float64) : bool :=
  match x with S754_zero _ | S754_finite _ _ _ => true | _ => false end.

Definition zero : float64 := S754_zero false.
Definition NaN : float64 := S754_nan.
Definition Inf (neg : bool) : float64 := S754_infinity neg.

End Float64.

Definition float64 : Type := Float64.float64.

(** ** Error values

    The dynamic types of the [error] values that reach the program, the
    [Error] method of each, and [errors.Is]. *)

Module GoErrors.

Inductive error : Type :=
| ErrorString (id : positive) (text : string)
    (** [errors.New]: a pointer, compared by identity [id] *)
| DeadlineExceededError
    (** [context.DeadlineExceeded] *)
| Errno (code : Z) (text : string)
    (** [syscall.Errno], with the text the platform table gives it *)
| PathError (Op Path : string) (Err : error)
    (** [*fs.PathError] *)
| NumError (Func Num : string) (Err : error)
    (** [*strconv.NumError] *)
| ExitError (state : string)
    (** [*exec.ExitError], with the text of its [ProcessState] *)
| WrapError (msg : string) (err : error)
    (** [*fmt.wrapError], built by [fmt.Errorf] with one [%w] *)
| PlainError (msg : string).
    (** the error [fmt.Errorf] builds without [%w] *)

(** Sentinels of the Go libraries. *)
Definition ErrNotExist : error := ErrorString 1 "file does not exist".
Definition ErrPermission : error := ErrorString 2 "permission denied".
Definition ErrExist : error := ErrorString 3 "file already exists".
Definition ErrSyntax : error := ErrorString 4 "invalid syntax".
Definition ErrRange : error := ErrorString 5 "value out of range".
Definition DeadlineExceeded : error := DeadlineExceededError.

Definition ENOENT : Z := 2.
Definition EPERM : Z := 1.
Definition EACCES : Z := 13.
Definition EEXIST : Z := 17.
Definition ENOTEMPTY : Z := 39.

(** [err == target] on interface values: pointers to freshly built errors
    are never equal to a target. *)
Definition same (err target : error) : bool :=
  match err, target with
  | ErrorString i _, ErrorString j _ => Pos.eqb i j
  | DeadlineExceededError, DeadlineExceededError => true
  | Errno a _, Errno b _ => a =? b
  | _, _ => false
  end.

(** The [Is] method of [syscall.Errno]. *)
Definition Errno_Is (code : Z) (target : error) : bool :=
  if same target ErrPermission then (code =? EACCES) || (code =? EPERM)
  else if same target ErrExist then (code =? EEXIST) || (code =? ENOTEMPTY)
  else if same target ErrNotExist then code =? ENOENT
  else false.

(** [errors.Is]. *)
Fixpoint Is (err target : error) : bool :=
  same err target ||
  match err with
  | Errno code _ => Errno_Is code target
  | PathError _ _ e => Is e target
  | NumError _ _ e => Is e target
  | WrapError _ e => Is e target
  | _ => false
  end.

(** [errors.As] for [*strconv.NumError] and [*fs.PathError]. *)
Fixpoint AsNumError (err : error) : bool :=
  match err with
  | NumError _ _ _ => true
  | PathError _ _ e => AsNumError e
  | WrapError _ e => AsNumError e
  | _ => false
  end.

Fixpoint AsPathError (err : error) : bool :=
  match err with
  | PathError _ _ _ => true
  | NumError _ _ e => AsPathError e
  | WrapError _ e => AsPathError e
  | _ => false
  end.

(** The [Error] method.  [Quote] stands for [strconv.Quote], which decides
    with the Unicode tables of the Go runtime which runes of the rejected
    text are printed as they are. *)
Fixpoint Error (Quote : string -> string) (err : error) : string :=
  match err with
  | ErrorString _ text => text
  | DeadlineExceededError => "context deadline exceeded"
  | Errno _ text => text
  | PathError op path e => op ++ " " ++ path ++ ": " ++ Error Quote e
  | NumError fn num e =>
      "strconv." ++ fn ++ ": parsing " ++ Quote num ++ ": " ++ Error Quote e
  | ExitError state => state
  | WrapError msg _ => msg
  | PlainError msg => msg
  end.

End GoErrors.

Definition error : Type := GoErrors.error.

(** ** [strconv]: decimal digits and [ParseFloat] *)

Module Strconv.
Import GoErrors.

(** [lower(c)] of the package: [c | ('x' - 'X')]. *)
Definition lower (c : ascii) : ascii := byte_of_Z (Z.lor (byte_val c) 32).

Definition is_digit (c : ascii) : bool :=
  (48 <=? byte_val c) && (byte_val c <=? 57).

Definition digit_val (c : ascii) : Z := byte_val c - 48.

Definition is_hex_letter (c : ascii) : bool :=
  (97 <=? byte_val (lower c)) && (byte_val (lower c) <=? 102).

Definition hex_letter_val (c : ascii) : Z := byte_val (lower c) - 97 + 10.

Definition digit_char (d : Z) : ascii := byte_of_Z (48 + d).

(** The digit loop of [formatBits] in base 10: digits are produced from the
    least significant one. *)
Fixpoint utoa_loop (fuel : nat) (u : Z) (acc : string) : string :=
  match fuel with
  | O => acc
  | S k =>
      if u <? 10 then String (digit_char u) acc
      else utoa_loop k (u / 10) (String (digit_char (u mod 10)) acc)
  end.

(** Decimal digits of [u >= 0]; a number has no more decimal digits than
    binary ones. *)
Definition utoa (u : Z) : string :=
  utoa_loop (S (Z.to_nat (Z.log2 u))) u "".

(** [strconv.Itoa]. *)
Definition Itoa (i : Z) : string :=
  if i <? 0 then String "-" (utoa (- i)) else utoa i.

(** [commonPrefixLenIgnoreCase s prefix], [prefix] in lower case. *)
Fixpoint commonPrefixLenIgnoreCase (s prefix : string) : nat :=
  match s, prefix with
  | String c s', String p prefix' =>
      let c' := if (65 <=? byte_val c) && (byte_val c <=? 90)
                then byte_of_Z (byte_val c + 32) else c in
      if Ascii.eqb c' p then S (commonPrefixLenIgnoreCase s' prefix') else O
  | _, _ => O
  end.

(** The infinity case of [special], entered with the sign stripped. *)
Definition special_inf (neg : bool) (nsign : nat) (s : string)
  : option (float64 * nat) :=
  let n := commonPrefixLenIgnoreCase s "infinity" in
  let n := if (3 <? n)%nat && (n <? 8)%nat then 3%nat else n in
  if (n =? 3)%nat || (n =? 8)%nat
  then Some (Float64.Inf neg, (nsign + n)%nat)
  else None.

(** [special]: the strings for infinities and NaN; the value and the
    number of bytes consumed. *)
Definition special (s : string) : option (float64 * nat) :=
  match s with
  | EmptyString => None
  | String c rest =>
      if Ascii.eqb c "+" then special_inf false 1 rest
      else if Ascii.eqb c "-" then special_inf true 1 rest
      else if Ascii.eqb c "i" || Ascii.eqb c "I" then special_inf false 0 s
      else if Ascii.eqb c "n" || Ascii.eqb c "N" then
        if (commonPrefixLenIgnoreCase s "nan" =? 3)%nat
        then Some (Float64.NaN, 3%nat) else None
      else None
  end.

(** The variables of the digit loop of [readFloat].  The mantissa is kept
    whole: Go keeps its first 19 digits and a [trunc] flag and falls back
    to an exact decimal when they do not determine the rounding, so that
    the value it returns is the one the whole mantissa gives. *)
Record scan := mkScan {
  mantissa : Z;
  nd : Z;
  dp : Z;
  sawdot : bool;
  sawdigits : bool;
  underscores : bool }.

Definition scan0 : scan := mkScan 0 0 0 false false false.

(** The loop labelled [loop] in [readFloat]; returns the state and the
    unread rest. *)
Fixpoint read_mantissa (hex : bool) (st : scan) (s : string) : scan * string :=
  match s with
  | EmptyString => (st, s)
  | String c rest =>
      if Ascii.eqb c "_" then
        read_mantissa hex
          (mkScan (mantissa st) (nd st) (dp st) (sawdot st) (sawdigits st) true) rest
      else if Ascii.eqb c "." then
        if sawdot st then (st, s)
        else read_mantissa hex
               (mkScan (mantissa st) (nd st) (nd st) true (sawdigits st) (underscores st))
               rest
      else if is_digit c then
        if Ascii.eqb c "0" && (nd st =? 0) then
          read_mantissa hex
            (mkScan (mantissa st) (nd st) (dp st - 1) (sawdot st) true (underscores st))
            rest
        else
          read_mantissa hex
            (mkScan (mantissa st * (if hex then 16 else 10) + digit_val c)
                    (nd st + 1) (dp st) (sawdot st) true (underscores st))
            rest
      else if hex && is_hex_letter c then
        read_mantissa hex
          (mkScan (mantissa st * 16 + hex_letter_val c)
                  (nd st + 1) (dp st) (sawdot st) true (underscores st))
          rest
      else (st, s)
  end.

(** The loop over the digits of the exponent; [e] stops growing at 10000. *)
Fixpoint read_exponent (e : Z) (us : bool) (s : string) : Z * bool * string :=
  match s with
  | EmptyString => (e, us, s)
  | String c rest =>
      if Ascii.eqb c "_" then read_exponent e true rest
      else if is_digit c then
        read_exponent (if e <? 10000 then e * 10 + digit_val c else e) us rest
      else (e, us, s)
  end.

(** [underscoreOK]: underscores only between digits, or after a base
    prefix.  [saw] is ["^"], ["0"], ["_"] or ["!"]. *)
Fixpoint underscore_scan (hex : bool) (saw : ascii) (s : string) : bool :=
  match s with
  | EmptyString => negb (Ascii.eqb saw "_")
  | String c rest =>
      if is_digit c || (hex && is_hex_letter c) then underscore_scan hex "0" rest
      else if Ascii.eqb c "_" then
        if negb (Ascii.eqb saw "0") then false
        else underscore_scan hex "_" rest
      else if Ascii.eqb saw "_" then false
      else underscore_scan hex "!" rest
  end.

Definition underscoreOK (s : string) : bool :=
  let s := match s with
           | String c rest =>
               if Ascii.eqb c "-" || Ascii.eqb c "+" then rest else s
           | EmptyString => s
           end in
  match s with
  | String c0 (String c1 rest) =>
      if Ascii.eqb c0 "0"
         && (Ascii.eqb (lower c1) "b" || Ascii.eqb (lower c1) "o"
             || Ascii.eqb (lower c1) "x")
      then underscore_scan (Ascii.eqb (lower c1) "x") "0" rest
      else underscore_scan false "^" s
  | _ => underscore_scan false "^" s
  end.

(** What [readFloat] returns when [ok]. *)
Record parts := mkParts {
  p_mantissa : Z;
  p_exp : Z;
  p_neg : bool;
  p_hex : bool;
  p_rest : string }.

(** The optional sign at the head of [readFloat]. *)
Definition read_sign (s : string) : bool * string :=
  match s with
  | String c rest =>
      if Ascii.eqb c "+" then (false, rest)
      else if Ascii.eqb c "-" then (true, rest)
      else (false, s)
  | EmptyString => (false, s)
  end.

(** The base prefix: [0x] or [0X] followed by at least one more byte. *)
Definition read_base_prefix (s : string) : bool * string :=
  match s with
  | String a (String b ((String _ _) as r)) =>
      if Ascii.eqb a "0" && Ascii.eqb (lower b) "x" then (true, r)
      else (false, s)
  | _ => (false, s)
  end.

(** The optional exponent, which moves the decimal point [dp]; a
    hexadecimal mantissa must have one.  Returns the new [dp], whether an
    underscore was seen, and the unread rest. *)
Definition read_exponent_part (hex : bool) (us : bool) (dp : Z) (s : string)
  : option (Z * bool * string) :=
  match s with
  | String c s4 =>
      if Ascii.eqb (lower c) (if hex then "p" else "e")%char then
        match s4 with
        | EmptyString => None
        | String d s5 =>
            let '(esign, s6) :=
              if Ascii.eqb d "+" then (1, s5)
              else if Ascii.eqb d "-" then (-1, s5)
              else (1, s4) in
            match s6 with
            | EmptyString => None
            | String d0 _ =>
                if negb (is_digit d0) then None
                else
                  let '(e, us, rest) := read_exponent 0 us s6 in
                  Some (dp + e * esign, us, rest)
            end
        end
      else if hex then None
      else Some (dp, us, s)
  | EmptyString => if hex then None else Some (dp, us, s)
  end.

(** [readFloat].  [whole] is the string being read; the check of the
    underscores is made on all of it, which is the prefix read whenever
    [ParseFloat] goes on to accept the string. *)
Definition readFloat (whole : string) : option parts :=
  match whole with
  | EmptyString => None
  | String _ _ =>
      let '(neg, s1) := read_sign whole in
      let '(hex, s2) := read_base_prefix s1 in
      let '(st, s3) := read_mantissa hex scan0 s2 in
      if negb (sawdigits st) then None
      else
        let dp := if sawdot st then dp st else nd st in
        let dp := if hex then dp * 4 else dp in
        let ndMant := if hex then nd st * 4 else nd st in
        match read_exponent_part hex (underscores st) dp s3 with
        | None => None
        | Some (dp, us, rest) =>
            let exp := if mantissa st =? 0 then 0 else dp - ndMant in
            if us && negb (underscoreOK whole) then None
            else Some (mkParts (mantissa st) exp neg hex rest)
        end
  end.

Definition syntaxError (fn str : string) : error := NumError fn str ErrSyntax.
Definition rangeError (fn str : string) : error := NumError fn str ErrRange.

(** [strconv.ParseFloat s 64]: the nearest [float64] to the number that
    [s] denotes; a syntax error when [s] is not a floating-point literal,
    a range error (with an infinity) when the number is too large. *)
Definition ParseFloat (s : string) : float64 * option error :=
  match special s with
  | Some (val, n) =>
      if (n =? String.length s)%nat then (val, None)
      else (Float64.zero, Some (syntaxError "ParseFloat" s))
  | None =>
      match readFloat s with
      | None => (Float64.zero, Some (syntaxError "ParseFloat" s))
      | Some p =>
          match p_rest p with
          | String _ _ => (Float64.zero, Some (syntaxError "ParseFloat" s))
          | EmptyString =>
              let f := if p_hex p
                       then Float64.of_binary (p_neg p) (p_mantissa p) (p_exp p)
                       else Float64.of_decimal (p_neg p) (p_mantissa p) (p_exp p) in
              if Float64.is_inf f then (f, Some (rangeError "ParseFloat" s))
              else (f, None)
          end
      end
  end.

End Strconv.

(** ** [time.Duration] and [os.Signal] values *)

Module GoTime.
Import Strconv.

Definition Duration : Type := Z.

Definition Nanosecond : Duration := 1.
Definition Microsecond : Duration := 1000 * Nanosecond.
Definition Millisecond : Duration := 1000 * Microsecond.
Definition Second : Duration := 1000 * Millisecond.
Definition Minute : Duration := 60 * Second.

(** [fmtFrac]: the fraction of [v / 10^prec] in front of [acc], without
    trailing zeros; and [v / 10^prec]. *)
Fixpoint fmtFrac (prec : nat) (v : Z) (print : bool) (acc : string) : string * Z :=
  match prec with
  | O => (if print then String "." acc else acc, v)
  | S k =>
      let digit := v mod 10 in
      let print := print || negb (digit =? 0) in
      fmtFrac k (v / 10) print (if print then String (digit_char digit) acc else acc)
  end.

Definition fmtInt (v : Z) (acc : string) : string := utoa v ++ acc.

(** The [String] method of [time.Duration]. *)
Definition Duration_String (d : Duration) : string :=
  let u := Z.abs d in
  let body :=
    if u <? Second then
      if u =? 0 then "0s"
      else if u <? Microsecond then
        let '(acc, u) := fmtFrac 0 u false "ns" in fmtInt u acc
      else if u <? Millisecond then
        let '(acc, u) :=
          fmtFrac 3 u false (String (byte_of_Z 194) (String (byte_of_Z 181) "s")) in
        fmtInt u acc
      else
        let '(acc, u) := fmtFrac 6 u false "ms" in fmtInt u acc
    else
      let '(acc, u) := fmtFrac 9 u false "s" in
      let acc := fmtInt (u mod 60) acc in
      let u := u / 60 in
      if 0 <? u then
        let acc := fmtInt (u mod 60) (String "m" acc) in
        let u := u / 60 in
        if 0 <? u then fmtInt u (String "h" acc) else acc
      else acc in
  if d <? 0 then String "-" body else body.

End GoTime.

(** The two signals the program asks to be notified of. *)
Inductive Signal : Type := SIGINT | SIGTERM.

Definition Signal_String (sig : Signal) : string :=
  match sig with
  | SIGINT => "interrupt"
  | SIGTERM => "terminated"
  end.

(** ** [fmt]: the verbs the program uses *)

Module Fmt.
Import GoErrors Strconv.

(** The operands of a formatting call, with their dynamic types. *)
Inductive value : Type :=
| VString (s : string)
| VFloat (f : float64)
| VDuration (d : GoTime.Duration)
| VSignal (sig : Signal)
| VError (e : error).

(** [n / d] rounded to the nearest integer, ties to even ([0 < d]). *)
Definition round_half_even (n d : Z) : Z :=
  let q := n / d in
  match 2 * (n mod d) ?= d with
  | Lt => q
  | Gt => q + 1
  | Eq => if Z.even q then q else q + 1
  end.

(** [%.2f]: the exact value rounded to two decimals, ties to even. *)
Definition format_f2 (x : float64) : string :=
  match x with
  | S754_nan => "NaN"
  | S754_infinity s => if s then "-Inf" else "+Inf"
  | S754_zero s => (if s then "-" else "") ++ "0.00"
  | S754_finite s m e =>
      let q := if 0 <=? e then Zpos m * 2 ^ e * 100
               else round_half_even (Zpos m * 100) (2 ^ (- e)) in
      (if s then "-" else "") ++ utoa (q / 100) ++ "."
      ++ String (digit_char ((q mod 100) / 10))
           (String (digit_char ((q mod 100) mod 10)) "")
  end.

(** An operand under [%s], [%v] or [%w]: strings as they are, the others
    through their [String] or [Error] method.  A [float64] is only ever
    printed with [%.2f] by the program. *)
Definition display (Quote : string -> string) (v : value) : string :=
  match v with
  | VString s => s
  | VFloat f => format_f2 f
  | VDuration d => GoTime.Duration_String d
  | VSignal sig => Signal_String sig
  | VError e => Error Quote e
  end.

(** The formatting loop, for the verbs [%s], [%v], [%w], [%.2f] and [%%]:
    the text, and the operand of [%w] if there is one.  A verb without
    operand prints Go's [%!v(MISSING)] mark; the program uses no other verb,
    and any other is copied as it is. *)
Fixpoint doPrintf (Quote : string -> string) (format : string) (args : list value)
  : string * option error :=
  let operand (verb : ascii) (rest : string) : string * option error :=
    match args with
    | [] =>
        let '(t, w) := doPrintf Quote rest [] in
        ("%!" ++ String verb "(MISSING)" ++ t, w)
    | a :: args' =>
        let '(t, w) := doPrintf Quote rest args' in
        (display Quote a ++ t,
         match a with
         | VError e => if Ascii.eqb verb "w" then Some e else w
         | _ => w
         end)
    end in
  match format with
  | EmptyString => (EmptyString, None)
  | String c rest =>
      if Ascii.eqb c "%" then
        match rest with
        | String v rest1 =>
            if Ascii.eqb v "s" || Ascii.eqb v "v" || Ascii.eqb v "w" then operand v rest1
            else if Ascii.eqb v "%" then
              let '(t, w) := doPrintf Quote rest1 args in (String "%" t, w)
            else
              match rest1 with
              | String p (String f rest3) =>
                  if Ascii.eqb v "." && Ascii.eqb p "2" && Ascii.eqb f "f"
                  then operand f rest3
                  else let '(t, w) := doPrintf Quote rest args in (String c t, w)
              | _ => let '(t, w) := doPrintf Quote rest args in (String c t, w)
              end
        | EmptyString => ("%!(NOVERB)", None)
        end
      else
        let '(t, w) := doPrintf Quote rest args in (String c t, w)
  end.

Definition Sprintf (Quote : string -> string) (format : string) (args : list value)
  : string :=
  fst (doPrintf Quote format args).

(** [fmt.Errorf]: with a [%w] operand the error wraps it. *)
Definition Errorf (Quote : string -> string) (format : string) (args : list value)
  : error :=
  match doPrintf Quote format args with
  | (msg, Some e) => WrapError msg e
  | (msg, None) => PlainError msg
  end.

(** [fmt.Sprintln] without the final newline: operands separated by
    spaces. *)
Fixpoint Sprintln (Quote : string -> string) (args : list value) : string :=
  match args with
  | [] => EmptyString
  | [a] => display Quote a
  | a :: rest => display Quote a ++ " " ++ Sprintln Quote rest
  end.

End Fmt.

(** ** The operating system

    What the program observes of the machine it runs on is an environment
    [Env] of oracles; what it does to it is recorded in a [World]. *)

(** [fs.FileInfo], reduced to its [Mode]: permission bits and type bits. *)
Record FileInfo : Type := mkFileInfo { Mode : Z }.

Definition ModeDir : Z := Z.shiftl 1 31.

Definition IsDir (info : FileInfo) : bool :=
  negb (Z.land (Mode info) ModeDir =? 0).

(** [fs.ModeType] and [IsRegular]: none of the type bits is set. *)
Definition ModeType : Z :=
  Z.shiftl 1 31 + Z.shiftl 1 27 + Z.shiftl 1 26 + Z.shiftl 1 25
  + Z.shiftl 1 24 + Z.shiftl 1 21 + Z.shiftl 1 19.

Definition IsRegular (info : FileInfo) : bool :=
  Z.land (Mode info) ModeType =? 0.

(** The octal constant [0111]: the three executable permission bits. *)
Definition perm_exec : Z := 64 + 8 + 1.

(** The [exec.Cmd] that [cmd.Run] starts: path, arguments (the first one is
    the command itself), standard input, and the timeout of its context. *)
Record Cmd : Type := mkCmd {
  Path : string;
  Args : list string;
  Stdin : string;
  Timeout : GoTime.Duration }.

(** How a started command behaves, left to itself. *)
Record Process : Type := mkProcess {
  start_error : option (Z * string);
                                (** the fork or exec fails, with this errno *)
  run_time : GoTime.Duration;   (** time it takes to exit *)
  exit_state : option string;   (** [None]: exit status 0; or the failed state *)
  stderr_text : string }.       (** what it writes to standard error *)

Record Env : Type := mkEnv {
  ReadFile : nat -> string -> string + error;
    (** [os.ReadFile] at an instant: the content, or a [*PathError] *)
  Stat : string -> FileInfo + error;
    (** [os.Stat], at startup *)
  os_Hostname : string + error;
    (** [os.Hostname] *)
  Now_RFC1123 : nat -> string;
    (** [time.Now().Format(time.RFC1123)] at an instant *)
  Start : nat -> Cmd -> Process;
    (** the process that a command becomes when started at an instant *)
  Quote : string -> string
    (** [strconv.Quote] *) }.

(** What is written by the program. *)
Inductive Output : Type :=
| Log (line : string)      (** a line of the standard logger *)
| Stdout (text : string).  (** [fmt.Print] *)

Record World : Type := mkWorld {
  instant : nat;            (** advances at every observation *)
  output : list Output;     (** oldest first *)
  started : list Cmd }.     (** the commands run, oldest first *)

(** How a computation ends: it returns, or the process exits
    ([os.Exit]), or it panics, or it is blocked in the [select] of the loop
    with no event left to receive. *)
Inductive Outcome (A : Type) : Type :=
| Done (a : A) (w : World)
| Exited (code : Z) (w : World)
| Panicked (reason : string) (w : World)
| Waiting (w : World).

Arguments Done {A} a w.
Arguments Exited {A} code w.
Arguments Panicked {A} reason w.
Arguments Waiting {A} w.

Definition M (A : Type) : Type := World -> Outcome A.

Definition ret {A} (a : A) : M A := fun w => Done a w.

Definition bind {A B} (m : M A) (k : A -> M B) : M B :=
  fun w =>
    match m w with
    | Done a w' => k a w'
    | Exited code w' => Exited code w'
    | Panicked reason w' => Panicked reason w'
    | Waiting w' => Waiting w'
    end.

Declare Scope go_scope.
Delimit Scope go_scope with go.
Notation "x <- m ;; k" := (bind m (fun x => k))
  (at level 61, m at next level, right associativity) : go_scope.
Notation "' pat <- m ;; k" := (bind m (fun x => match x with pat => k end))
  (at level 61, pat pattern, m at next level, right associativity) : go_scope.
Notation "m ;; k" := (bind m (fun _ => k))
  (at level 61, right associativity) : go_scope.
Open Scope go_scope.

Definition final_world {A} (o : Outcome A) : World :=
  match o with
  | Done _ w => w
  | Exited _ w => w
  | Panicked _ w => w
  | Waiting w => w
  end.

(** The process has ended, by [os.Exit] or by a panic. *)
Definition terminated {A} (o : Outcome A) : bool :=
  match o with
  | Exited _ _ | Panicked _ _ => true
  | Done _ _ | Waiting _ => false
  end.

Definition emit (o : Output) : M unit :=
  fun w => Done tt (mkWorld (instant w) (output w ++ [o]) (started w)).

(** An observation of the environment at the current instant. *)
Definition observe {A} (f : nat -> A) : M A :=
  fun w => Done (f (instant w)) (mkWorld (S (instant w)) (output w) (started w)).

Definition os_Exit {A} (code : Z) : M A := fun w => Exited code w.

Definition panic {A} (reason : string) : M A := fun w => Panicked reason w.

(** [time.NewTicker], which panics on a non-positive duration. *)
Definition NewTicker (d : GoTime.Duration) : M unit :=
  if d <=? 0 then panic "non-positive interval for NewTicker" else ret tt.

(** [exec.Cmd.Run] under a context with a timeout, for a command that
    becomes process [p]: the error of [Run], the captured standard error, and
    [ctx.Err()] afterwards.  A process that outlives the timeout is killed at
    the deadline. *)
Definition run_result (cmd : Cmd) (p : Process)
  : option error * string * option error :=
  match start_error p with
  | Some (code, text) =>
      (Some (GoErrors.PathError "fork/exec" (Path cmd) (GoErrors.Errno code text)),
       EmptyString, None)
  | None =>
      if Timeout cmd <? run_time p then
        (Some (GoErrors.ExitError "signal: killed"), stderr_text p,
         Some GoErrors.DeadlineExceeded)
      else
        match exit_state p with
        | None => (None, stderr_text p, None)
        | Some st => (Some (GoErrors.ExitError st), stderr_text p, None)
        end
  end.

Definition Run (E : Env) (cmd : Cmd) : M (option error * string * option error) :=
  fun w =>
    Done (run_result cmd (Start E (instant w) cmd))
         (mkWorld (S (instant w)) (output w) (started w ++ [cmd])).

(** ** The program: [cmd/main.go] *)

Definition LF : string := String "010" EmptyString.
Definition CR : string := String "013" EmptyString.

(** Application constants *)
Definition appPrefix : string := "-----".
Definition appName : string := "Go-Raspi-Temp-Monitor".
Definition appVersion : string := "0.7.0".
Definition noEmailRecipient : string := "<none>".

Definition cpuTempFilePath : string := "/sys/class/thermal/thermal_zone0/temp".
Definition mailCommand : string := "/usr/bin/mail".

(** Application errors *)
Definition errIsDirectory : error :=
  GoErrors.ErrorString 11 "'mail' command points to a directory".
Definition errNotExecutable : error :=
  GoErrors.ErrorString 12 "'mail' command is not executable".
Definition errTestEmailRequiresRecipient : error :=
  GoErrors.ErrorString 13 "'-test-email' flag requires '-recipient' flag to be set".

(** Application configuration flags *)
Record config : Type := mkConfig {
  EmailRecipient : string;
  TempThreshold : float64;
  CheckInterval : GoTime.Duration;
  TestEmailFlag : bool;
  Hostname : string }.

(** The flags given on the command line, as [flag.Parse] has read them. *)
Record CommandLine : Type := mkCommandLine {
  flag_recipient : option string;
  flag_threshold : option float64;
  flag_interval : option GoTime.Duration;
  flag_test_email : option bool }.

(** What the [select] of the loop receives. *)
Inductive Event : Type :=
| Tick                  (** [<-ticker.C] *)
| Sig (sig : Signal).   (** [<-sigChan] *)

Section Program.

Variable E : Env.

Import GoErrors Fmt.

Definition log_Printf (format : string) (args : list value) : M unit :=
  emit (Log (Sprintf (Quote E) format args)).

Definition log_Println (args : list value) : M unit :=
  emit (Log (Sprintln (Quote E) args)).

Definition log_Print (text : string) : M unit :=
  emit (Log text).

(** [errors.Is] on a possibly nil error. *)
Definition errors_Is (err : option error) (target : error) : bool :=
  match err with
  | Some e => Is e target
  | None => false
  end.

(** hello outputs a welcome message *)
Definition hello : M unit :=
  log_Println [VString appPrefix; VString "Starting"; VString appName; VString appVersion].

(** goodbye outputs a goodbye message and exits the program *)
Definition goodbye {A} : M A :=
  log_Println [VString appPrefix; VString "Exiting"; VString appName; VString appVersion] ;;
  os_Exit 0.

(** getHostname returns the hostname of the system *)
Definition getHostname : M string :=
  ret (match os_Hostname E with
       | inl hostname => hostname
       | inr _ => "<unknown-host>"
       end).

(** parseFlags parses command line flags *)
Definition parseFlags (args : CommandLine) : config :=
  mkConfig
    (match flag_recipient args with Some r => r | None => EmptyString end)
    (match flag_threshold args with Some t => t | None => Float64.of_Z 60 end)
    (match flag_interval args with Some i => i | None => 5 * GoTime.Minute end)
    (match flag_test_email args with Some b => b | None => false end)
    EmptyString.

(** validateMailCommand checks if the mail command is valid *)
Definition validateMailCommand (mailCommand : string) : M (option error) :=
  match Stat E mailCommand with
  | inr err =>
      if Is err ErrNotExist then
        ret (Some (Errorf (Quote E) "Error: '%s' %w"
                     [VString mailCommand; VError ErrNotExist]))
      else
        ret (Some (Errorf (Quote E) "Error: %w" [VError err]))
  | inl info =>
      if IsDir info then
        ret (Some (Errorf (Quote E) "Error: %w '%s'"
                     [VError errIsDirectory; VString mailCommand]))
      else if Z.land (Mode info) perm_exec =? 0 then
        ret (Some (Errorf (Quote E) "%w (%s)"
                     [VError errNotExecutable; VString mailCommand]))
      else ret None
  end.

(** showConfiguration displays the current configuration.  It takes a
    pointer to the configuration and writes through it: the result is the
    configuration the pointer refers to when the function returns. *)
Definition showConfiguration (cfg : config) : M config :=
  log_Printf ("|" ++ LF) [] ;;
  log_Printf ("| Application version: %s" ++ LF) [VString appVersion] ;;
  log_Printf ("| Temperature threshold ('-threshold'): %.2f°C" ++ LF)
    [VFloat (TempThreshold cfg)] ;;
  log_Printf ("| Check interval ('-interval'): %s" ++ LF)
    [VDuration (CheckInterval cfg)] ;;
  let cfg :=
    if String.eqb (EmailRecipient cfg) EmptyString
    then mkConfig noEmailRecipient (TempThreshold cfg) (CheckInterval cfg)
           (TestEmailFlag cfg) (Hostname cfg)
    else cfg in
  log_Printf ("| Email recipient ('-recipient'): %s" ++ LF)
    [VString (EmailRecipient cfg)] ;;
  log_Printf ("| Mail command: %s" ++ LF) [VString mailCommand] ;;
  log_Printf ("| Device hostname: %s" ++ LF) [VString (Hostname cfg)] ;;
  log_Printf ("|" ++ LF) [] ;;
  ret cfg.

(** sendEmail sends an email using the configured mail command *)
Definition sendEmail (cfg : config) (subject body : string) : M (option error) :=
  if String.eqb (EmailRecipient cfg) noEmailRecipient then
    log_Println [VString "Email recipient not set: no email will be sent."] ;;
    ret None
  else
    let sanitizedSubject := GoStrings.ReplaceAll subject ";" "" in
    let sanitizedRecipient := GoStrings.ReplaceAll (EmailRecipient cfg) ";" "" in
    let cmd := mkCmd mailCommand
                 [mailCommand; "-s"; sanitizedSubject; sanitizedRecipient]
                 body (15 * GoTime.Second) in
    log_Printf "Attempting to send email to %s" [VString (EmailRecipient cfg)] ;;
    ' (err, stderr, ctxErr) <- Run E cmd ;;
    match err with
    | Some err =>
        let errMsg := Sprintf (Quote E) "failed to send email: %v" [VError err] in
        let errMsg :=
          if (0 <? String.length stderr)%nat
          then errMsg ++ Sprintf (Quote E) ". Stderr: %s" [VString stderr]
          else errMsg in
        if errors_Is ctxErr DeadlineExceeded then
          log_Printf "%s (timed out)" [VString errMsg] ;;
          ret (Some (Errorf (Quote E) "%s (timed out): %w"
                       [VString errMsg; VError DeadlineExceeded]))
        else
          log_Print errMsg ;;
          ret (Some (Errorf (Quote E) "%s: %w" [VString errMsg; VError err]))
    | None =>
        log_Printf "Email sent successfully to %s" [VString (EmailRecipient cfg)] ;;
        ret None
    end.

(** getCPUTemperature returns the current CPU temperature in Celsius *)
Definition getCPUTemperature : M (float64 * option error) :=
  data <- observe (fun t => ReadFile E t cpuTempFilePath) ;;
  match data with
  | inr err =>
      ret (Float64.zero,
           Some (Errorf (Quote E) "failed to read temperature file %s: %w"
                   [VString cpuTempFilePath; VError err]))
  | inl data =>
      let tempStr := GoStrings.TrimSpace data in
      let '(tempVal, err) := Strconv.ParseFloat tempStr in
      match err with
      | Some err =>
          ret (Float64.zero,
               Some (Errorf (Quote E) "failed to parse temperature value '%s': %w"
                       [VString tempStr; VError err]))
      | None => ret (Float64.div tempVal (Float64.of_Z 1000), None)
      end
  end.

(** sendTestEmail sends a test email using the configured mail command *)
Definition sendTestEmail (cfg : config) : M (option error) :=
  if String.eqb (EmailRecipient cfg) noEmailRecipient then
    ret (Some errTestEmailRequiresRecipient)
  else
    ' (currentTemp, err) <- getCPUTemperature ;;
    match err with
    | Some err => ret (Some err)
    | None =>
        let subject :=
          Sprintf (Quote E) "%s: Test Alert (%s)"
            [VString appName; VString (Hostname cfg)] in
        now <- observe (Now_RFC1123 E) ;;
        let body :=
          Sprintf (Quote E)
            ("Warning: this is a test email" ++ LF ++ "Hostname: %s" ++ LF
             ++ "Current CPU temperature: %.2f°C" ++ LF ++ "Timestamp: %s")
            [VString (Hostname cfg); VFloat currentTemp; VString now] in
        err <- sendEmail cfg subject body ;;
        match err with
        | Some err => ret (Some (Errorf (Quote E) "%w" [VError err]))
        | None => ret None
        end
    end.

(** compareTemperatures checks the current temperature against the
    threshold and sends alerts if necessary *)
Definition compareTemperatures (cfg : config) : M unit :=
  ' (currentTemp, err) <- getCPUTemperature ;;
  match err with
  | Some err => log_Printf "Error reading CPU temperature: %v" [VError err]
  | None =>
      log_Printf "Current CPU temperature: %.2f°C" [VFloat currentTemp] ;;
      if Float64.gt currentTemp (TempThreshold cfg) then
        log_Printf "ALERT: Temperature %.2f°C exceeds threshold of %.2f°C"
          [VFloat currentTemp; VFloat (TempThreshold cfg)] ;;
        if String.eqb (EmailRecipient cfg) noEmailRecipient then
          log_Println [VString "No recipient configured: no email notification sent"]
        else
          log_Println [VString "Sending email notification"] ;;
          let subject :=
            Sprintf (Quote E) "%s: CPU Temp Alert (%s): %.2f°C"
              [VString appName; VString (Hostname cfg); VFloat currentTemp] in
          now <- observe (Now_RFC1123 E) ;;
          let body :=
            Sprintf (Quote E)
              ("Warning: CPU temperature on %s has exceeded threshold" ++ LF
               ++ "Threshold temp: %.2f°C" ++ LF ++ "Current temp: %.2f°C" ++ LF
               ++ "Timestamp: %s")
              [VString (Hostname cfg); VFloat (TempThreshold cfg);
               VFloat currentTemp; VString now] in
          err <- sendEmail cfg subject body ;;
          match err with
          | Some err => log_Printf "Error sending alert email: %v" [VError err]
          | None => ret tt
          end
      else ret tt
  end.

(** The [for] loop of tempCheckLoop around its [select]; [events] is what
    the [select] receives, in order. *)
Fixpoint tempCheckLoop_for (cfg : config) (events : list Event) : M unit :=
  match events with
  | [] => fun w => Waiting w
  | Tick :: rest =>
      compareTemperatures cfg ;;
      tempCheckLoop_for cfg rest
  | Sig sig :: _ =>
      emit (Stdout CR) ;;
      log_Printf "Received signal %s: shutting down" [VSignal sig] ;;
      goodbye
  end.

(** tempCheckLoop runs the main loop to check temperature and send alerts *)
Definition tempCheckLoop (cfg : config) (events : list Event) : M unit :=
  NewTicker (CheckInterval cfg) ;;
  tempCheckLoop_for cfg events.

Definition main (args : CommandLine) (events : list Event) : M unit :=
  hello ;;
  let cfg := parseFlags args in
  hostname <- getHostname ;;
  let cfg := mkConfig (EmailRecipient cfg) (TempThreshold cfg) (CheckInterval cfg)
               (TestEmailFlag cfg) hostname in
  err <- validateMailCommand mailCommand ;;
  match err with
  | Some err => log_Printf "%v" [VError err] ;; goodbye
  | None => ret tt
  end ;;
  log_Println [VString appPrefix; VString "Configuration"] ;;
  cfg <- showConfiguration cfg ;;
  (if TestEmailFlag cfg then
     err <- sendTestEmail cfg ;;
     match err with
     | Some err => log_Printf "Error sending test email: %v" [VError err]
     | None => ret tt
     end ;;
     goodbye
   else ret tt) ;;
  log_Println [VString appPrefix; VString "Monitoring"] ;;
  compareTemperatures cfg ;;
  tempCheckLoop cfg events.

End Program.

(** ** Notions used in the statements *)

(** The spec's wording of the sanitization: the string with every [;]
    deleted. *)
Fixpoint delete_semicolons (s : string) : string :=
  match s with
  | EmptyString => EmptyString
  | String c rest =>
      if Ascii.eqb c ";" then delete_semicolons rest
      else String c (delete_semicolons rest)
  end.

Fixpoint has_semicolon (s : string) : bool :=
  match s with
  | EmptyString => false
  | String c rest => Ascii.eqb c ";" || has_semicolon rest
  end.

(** [strings.Contains], as a proposition. *)
Definition Contains (s sub : string) : Prop :=
  exists before after, s = before ++ sub ++ after.

(** The command line of the mail program for a subject, a recipient and a
    body, under the 15 s timeout. *)
Definition mail_cmd (subject recipient body : string) : Cmd :=
  mkCmd mailCommand [mailCommand; "-s"; subject; recipient] body (15 * GoTime.Second).

(** The mail command that [sendEmail] builds. *)
Definition alert_cmd (cfg : config) (subject body : string) : Cmd :=
  mail_cmd (delete_semicolons subject) (delete_semicolons (EmailRecipient cfg)) body.

(** The error that [sendEmail] returns, from what [cmd.Run] gave. *)
Definition send_error (Q : string -> string)
  (r : option error * string * option error) : option error :=
  let '(err, stderr, ctxErr) := r in
  match err with
  | None => None
  | Some err =>
      let errMsg := Fmt.Sprintf Q "failed to send email: %v" [Fmt.VError err] in
      let errMsg := if (0 <? String.length stderr)%nat
                    then errMsg ++ Fmt.Sprintf Q ". Stderr: %s" [Fmt.VString stderr]
                    else errMsg in
      if errors_Is ctxErr GoErrors.DeadlineExceeded
      then Some (GoErrors.WrapError
                   (errMsg ++ " (timed out): context deadline exceeded")
                   GoErrors.DeadlineExceeded)
      else Some (GoErrors.WrapError (errMsg ++ ": " ++ GoErrors.Error Q err) err)
  end.

(** The world after one observation of the environment. *)
Definition observed (w : World) : World :=
  mkWorld (S (instant w)) (output w) (started w).

(** *** Example environments, for the concrete instances *)

Definition example_env (sensor : string + error) (mail : FileInfo + error)
  (p : Process) : Env :=
  mkEnv (fun _ _ => sensor) (fun _ => mail) (inl "raspberrypi")
        (fun _ => "Mon, 02 Jan 2006 15:04:05 MST") (fun _ _ => p)
        (fun s => String "034" (s ++ String "034" EmptyString)).

Definition mail_ok : FileInfo + error := inl (mkFileInfo 493).

Definition process_ok : Process := mkProcess None GoTime.Second None EmptyString.
Definition process_slow : Process :=
  mkProcess None (20 * GoTime.Second) None EmptyString.
Definition process_failing : Process :=
  mkProcess None GoTime.Second (Some "exit status 1") "mail: cannot send message".

Definition world0 : World := mkWorld 0 [] [].

Definition example_config (recipient : string) : config :=
  mkConfig recipient (Float64.of_Z 60) (5 * GoTime.Minute) false "raspberrypi".

(** The decision of an evaluation cycle, read off what the cycle logs: the
    cycle decides [Alert] when it logs the [ALERT] line. *)
Inductive Decision : Type := NoAction | Alert.

Definition alert_logged (o : Output) : bool :=
  match o with
  | Log line => GoStrings.HasPrefix line "ALERT: "
  | Stdout _ => false
  end.

Definition cycle_decision (before after : World) : Decision :=
  if existsb alert_logged (skipn (List.length (output before)) (output after))
  then Alert else NoAction.

Definition config_pi : config := example_config "pi@example.org".

(** A sensor at the default threshold, a cool one, and a missing one. *)
Definition env_at_threshold : Env :=
  example_env (inl ("60000" ++ LF)) mail_ok process_ok.
Definition env_cool : Env :=
  example_env (inl ("42000" ++ LF)) mail_ok process_ok.
Definition env_no_sensor : Env :=
  example_env
    (inr (GoErrors.PathError "open" cpuTempFilePath
            (GoErrors.Errno GoErrors.ENOENT "no such file or directory")))
    mail_ok process_ok.

Definition reading_60 : float64 := Float64.div (Float64.of_Z 60000) (Float64.of_Z 1000).
Definition reading_42 : float64 := Float64.div (Float64.of_Z 42000) (Float64.of_Z 1000).

(** Whether a signal is among the events that the loop receives. *)
Definition has_signal (events : list Event) : bool :=
  existsb (fun e => match e with Sig _ => true | Tick => false end) events.

(** The mail command fails the validation at startup. *)
Definition mail_command_invalid (E : Env) : Prop :=
  exists e, validateMailCommand E mailCommand world0 = Done (Some e) world0.

(** The configuration as [main] builds it: the flags, then the hostname. *)
Definition built_config (E : Env) (args : CommandLine) : config :=
  mkConfig (EmailRecipient (parseFlags args)) (TempThreshold (parseFlags args))
    (CheckInterval (parseFlags args)) (TestEmailFlag (parseFlags args))
    (match os_Hostname E with inl h => h | inr _ => "<unknown-host>" end).

(** The only change made to a configuration after it is built: an empty
    recipient becomes the sentinel. *)
Definition with_sentinel (cfg : config) : config :=
  mkConfig
    (if String.eqb (EmailRecipient cfg) EmptyString
     then noEmailRecipient else EmailRecipient cfg)
    (TempThreshold cfg) (CheckInterval cfg) (TestEmailFlag cfg) (Hostname cfg).

(** Command lines: monitoring without a recipient, and with one. *)
Definition args_plain : CommandLine := mkCommandLine None None None None.
Definition args_pi : CommandLine :=
  mkCommandLine (Some "pi@example.org") None None None.

(** *** Integers, in the spec's words

    The spec has the sensor reader "parse the content as an integer"; the
    integers of Go are those [strconv.Atoi] accepts: an optional sign,
    decimal digits, and a value that fits in 64 bits. *)

Fixpoint digits_value (acc : Z) (s : string) : option Z :=
  match s with
  | EmptyString => Some acc
  | String c rest =>
      if Strconv.is_digit c
      then digits_value (acc * 10 + Strconv.digit_val c) rest
      else None
  end.

(** The sign and the magnitude that the text of an integer denotes. *)
Definition integer_syntax (s : string) : option (bool * Z) :=
  let '(neg, ds) := Strconv.read_sign s in
  match ds with
  | EmptyString => None
  | String _ _ =>
      match digits_value 0 ds with
      | Some v => Some (neg, v)
      | None => None
      end
  end.

Definition parse_integer (s : string) : option Z :=
  match integer_syntax s with
  | Some (neg, v) =>
      let m := if neg then - v else v in
      if (- 2 ^ 63 <=? m) && (m <? 2 ^ 63) then Some m else None
  | None => None
  end.

Definition valid_integer (s : string) : bool :=
  match parse_integer s with Some _ => true | None => false end.

(** The sensor reader fails with a parse error: the error it returns has a
    [*strconv.NumError] in its chain. *)
Definition fails_with_ParseError (o : Outcome (float64 * option error)) : bool :=
  match o with
  | Done (_, Some e) _ => GoErrors.AsNumError e
  | _ => false
  end.

(** A sensor file with a fractional number. *)
Definition env_fractional : Env :=
  example_env (inl ("42000.5" ++ LF)) mail_ok process_ok.

(** A sensor above the default threshold; a mail command that hangs, and one
    that fails. *)
Definition env_hot : Env := example_env (inl ("65500" ++ LF)) mail_ok process_ok.
Definition env_hot_slow_mail : Env :=
  example_env (inl ("65500" ++ LF)) mail_ok process_slow.
Definition env_hot_failing_mail : Env :=
  example_env (inl ("65500" ++ LF)) mail_ok process_failing.

(** *** Notions for the further properties *)

(** The subject and the body of the alert mail of a cycle. *)
Definition alert_subject (E : Env) (cfg : config) (reading : float64) : string :=
  Fmt.Sprintf (Quote E) "%s: CPU Temp Alert (%s): %.2f°C"
    [Fmt.VString appName; Fmt.VString (Hostname cfg); Fmt.VFloat reading].

Definition alert_body (E : Env) (cfg : config) (reading : float64) (now : string)
  : string :=
  Fmt.Sprintf (Quote E)
    ("Warning: CPU temperature on %s has exceeded threshold" ++ LF
     ++ "Threshold temp: %.2f°C" ++ LF ++ "Current temp: %.2f°C" ++ LF
     ++ "Timestamp: %s")
    [Fmt.VString (Hostname cfg); Fmt.VFloat (TempThreshold cfg);
     Fmt.VFloat reading; Fmt.VString now].

(** A command is a mail of the program for configuration [cfg]. *)
Definition sent_by (cfg : config) (cmd : Cmd) : Prop :=
  exists subject body, cmd = alert_cmd cfg subject body.

(** The ticks that the loop handles: those before the first signal. *)
Fixpoint ticks_handled (events : list Event) : nat :=
  match events with
  | Tick :: rest => S (ticks_handled rest)
  | _ => O
  end.

Definition reading_65 : float64 := Float64.div (Float64.of_Z 65500) (Float64.of_Z 1000).

(** What [showConfiguration] logs for a configuration. *)
Definition config_lines (E : Env) (cfg : config) : list Output :=
  [Log ("|" ++ LF);
   Log ("| Application version: " ++ appVersion ++ LF);
   Log ("| Temperature threshold ('-threshold'): "
        ++ Fmt.format_f2 (TempThreshold cfg) ++ "°C" ++ LF);
   Log ("| Check interval ('-interval'): "
        ++ GoTime.Duration_String (CheckInterval cfg) ++ LF);
   Log ("| Email recipient ('-recipient'): "
        ++ EmailRecipient (with_sentinel cfg) ++ LF);
   Log ("| Mail command: " ++ mailCommand ++ LF);
   Log ("| Device hostname: " ++ Hostname cfg ++ LF);
   Log ("|" ++ LF)].

(** The verdict of the validation of the mail command at startup. *)
Definition mail_command_check (E : Env) : option error :=
  match validateMailCommand E mailCommand world0 with
  | Done r _ => r
  | _ => None
  end.

(** The lines that open and close every run. *)
Definition hello_line : Output := Log "----- Starting Go-Raspi-Temp-Monitor 0.7.0".
Definition goodbye_line : Output := Log "----- Exiting Go-Raspi-Temp-Monitor 0.7.0".

(** The world when [main] has shown the configuration. *)
Definition configured (E : Env) (args : CommandLine) (w : World) : World :=
  mkWorld (instant w)
    (output w ++ hello_line :: Log "----- Configuration"
     :: config_lines E (built_config E args))
    (started w).

(** A command line of the mail program for recipient [recipient]: nothing
    else is ever run. *)
Definition is_mail_for (recipient : string) (cmd : Cmd) : Prop :=
  Path cmd = mailCommand
  /\ Timeout cmd = 15 * GoTime.Second
  /\ exists subject,
       Args cmd = [mailCommand; "-s"; subject; delete_semicolons recipient]
       /\ has_semicolon subject = false.


(** Test mode, without and with a recipient. *)
Definition args_test : CommandLine := mkCommandLine None None None (Some true).

(** A string of ASCII white space: tabs, line feeds, vertical tabs, form
    feeds, carriage returns and spaces. *)
Fixpoint blank (s : string) : bool :=
  match s with
  | EmptyString => true
  | String c rest => GoStrings.asciiSpace c && blank rest
  end.

(** An ASCII byte that is not white space. *)
Definition graphic (c : ascii) : bool :=
  (byte_val c <? Utf8.RuneSelf) && negb (GoStrings.asciiSpace c).

(** A non-empty string whose first and last bytes are ASCII and not white
    space. *)
Definition solid_ends (s : string) : bool :=
  match to_bytes s with
  | [] => false
  | c :: rest => graphic c && graphic (last rest c)
  end.

(** The mail command sits in a directory that may not be searched. *)
Definition stat_permission_denied : error :=
  GoErrors.PathError "stat" mailCommand (GoErrors.Errno GoErrors.EACCES "permission denied").

Definition env_mail_no_access : Env :=
  example_env (inl ("65500" ++ LF)) (inr stat_permission_denied) process_ok.

(** Monitoring with [-interval=0s] and a recipient. *)
Definition args_zero_interval : CommandLine :=
  mkCommandLine (Some "pi@example.org") None (Some 0) None.

(** * Properties *)

Import GoErrors Fmt.

Ltac run_step :=
  unfold log_Printf, log_Println, log_Print, bind, ret, emit, observe, os_Exit;
  cbn [final_world started output instant].

(** *** The notifier *)

Lemma HasPrefix_empty (s : string) : GoStrings.HasPrefix s "" = true.
Proof. destruct s; reflexivity. Qed.

Lemma replace_from_semicolon (s : string) :
  GoStrings.replace_from ";" "" 0 s = delete_semicolons s.
Proof.
  induction s as [| c rest IH]; [reflexivity |].
  cbn [GoStrings.replace_from GoStrings.HasPrefix delete_semicolons String.length Nat.sub].
  rewrite HasPrefix_empty, Ascii.eqb_sym.
  destruct (Ascii.eqb c ";"); cbn; rewrite IH; reflexivity.
Qed.

Lemma ReplaceAll_semicolon (s : string) :
  GoStrings.ReplaceAll s ";" "" = delete_semicolons s.
Proof. unfold GoStrings.ReplaceAll. cbn. apply replace_from_semicolon. Qed.

Lemma delete_semicolons_clean (s : string) :
  has_semicolon (delete_semicolons s) = false.
Proof.
  induction s as [| c rest IH]; [reflexivity |].
  cbn. destruct (Ascii.eqb c ";") eqn:Hc; [exact IH |].
  cbn. rewrite Hc, IH. reflexivity.
Qed.

Lemma sendEmail_no_recipient E cfg subject body w :
  EmailRecipient cfg = noEmailRecipient ->
  sendEmail E cfg subject body w =
  Done None (mkWorld (instant w)
               (output w ++ [Log "Email recipient not set: no email will be sent."])%list
               (started w)).
Proof.
  intros H. unfold sendEmail. rewrite H. cbn [String.eqb]. 
  reflexivity.
Qed.

Lemma sendEmail_started E cfg subject body w :
  EmailRecipient cfg <> noEmailRecipient ->
  started (final_world (sendEmail E cfg subject body w)) =
  (started w ++ [mail_cmd (delete_semicolons subject)
                          (delete_semicolons (EmailRecipient cfg)) body])%list.
Proof.
  intros H. apply String.eqb_neq in H.
  unfold sendEmail. rewrite H. rewrite !ReplaceAll_semicolon.
  fold (mail_cmd (delete_semicolons subject) (delete_semicolons (EmailRecipient cfg)) body).
  run_step. unfold Run. cbn [instant output started].
  destruct (run_result _ _) as [[[err |] stderr] ctxErr]; [| reflexivity].
  destruct (errors_Is _ _); reflexivity.
Qed.

Lemma append_empty_r (s : string) : s ++ "" = s.
Proof. induction s as [| c s IH]; cbn; [| rewrite IH]; reflexivity. Qed.

Lemma Errorf_timed_out Q msg :
  Errorf Q "%s (timed out): %w" [VString msg; VError DeadlineExceeded]
  = WrapError (msg ++ " (timed out): context deadline exceeded") DeadlineExceeded.
Proof. reflexivity. Qed.

Lemma Errorf_send_failed Q msg err :
  Errorf Q "%s: %w" [VString msg; VError err]
  = WrapError (msg ++ ": " ++ Error Q err) err.
Proof. unfold Errorf. cbn. rewrite append_empty_r. reflexivity. Qed.

Lemma sendEmail_returns E cfg subject body w :
  EmailRecipient cfg <> noEmailRecipient ->
  exists w',
    sendEmail E cfg subject body w =
    Done (send_error (Quote E)
            (run_result (alert_cmd cfg subject body)
               (Start E (instant w) (alert_cmd cfg subject body)))) w'
    /\ started w' = (started w ++ [alert_cmd cfg subject body])%list
    /\ instant w' = S (instant w)
    /\ exists lines, output w' = (output w ++ map Log lines)%list.
Proof.
  intros H. apply String.eqb_neq in H.
  unfold sendEmail. rewrite H. rewrite !ReplaceAll_semicolon.
  fold (mail_cmd (delete_semicolons subject) (delete_semicolons (EmailRecipient cfg)) body).
  fold (alert_cmd cfg subject body).
  run_step. unfold Run. cbn [instant output started].
  unfold send_error.
  destruct (run_result _ _) as [[[err |] stderr] ctxErr].
  - destruct (errors_Is ctxErr DeadlineExceeded).
    + eexists. rewrite Errorf_timed_out. split; [reflexivity |].
      cbn [instant output started]. repeat split.
      eexists [_; _]. rewrite <- app_assoc. reflexivity.
    + eexists. rewrite Errorf_send_failed. split; [reflexivity |].
      cbn [instant output started]. repeat split.
      eexists [_; _]. rewrite <- app_assoc. reflexivity.
  - eexists. split; [reflexivity |].
    cbn [instant output started]. repeat split.
    eexists [_; _]. rewrite <- app_assoc. reflexivity.
Qed.

(** C5: with the sentinel recipient, [sendEmail] returns nil and starts no
    command, whatever the subject and the body. *)
Theorem sendEmail_without_recipient (E : Env) (cfg : config) (subject body : string)
  (w : World) :
  EmailRecipient cfg = noEmailRecipient ->
  exists w',
    sendEmail E cfg subject body w = Done None w'
    /\ started w' = started w
    /\ instant w' = instant w.
Proof.
  intros H. rewrite (sendEmail_no_recipient E cfg subject body w H).
  eexists. repeat split.
Qed.

Lemma sendEmail_without_recipient_witness :
  EmailRecipient (example_config noEmailRecipient) = noEmailRecipient
  /\ exists w',
      sendEmail env_hot (example_config noEmailRecipient) "subject;" "body" world0
      = Done None w'
      /\ started w' = started world0
      /\ instant w' = instant world0.
Proof.
  split; [reflexivity |].
  apply (sendEmail_without_recipient env_hot (example_config noEmailRecipient)
           "subject;" "body" world0).
  reflexivity.
Defined.

(** C6: the subject and the recipient that [sendEmail] passes to the mail
    command are the given ones with every [;] deleted. *)
Theorem sendEmail_strips_semicolons (E : Env) (cfg : config) (subject body : string)
  (w : World) :
  EmailRecipient cfg <> noEmailRecipient ->
  exists cmd,
    started (final_world (sendEmail E cfg subject body w)) = (started w ++ [cmd])%list
    /\ Path cmd = mailCommand
    /\ Args cmd = [mailCommand; "-s"; delete_semicolons subject;
                   delete_semicolons (EmailRecipient cfg)]
    /\ has_semicolon (delete_semicolons subject) = false
    /\ has_semicolon (delete_semicolons (EmailRecipient cfg)) = false.
Proof.
  intros H. exists (alert_cmd cfg subject body).
  split; [apply sendEmail_started; exact H |].
  repeat split; apply delete_semicolons_clean.
Qed.

Lemma sendEmail_strips_semicolons_witness :
  EmailRecipient (example_config "pi;@example.org") <> noEmailRecipient
  /\ exists cmd,
      started (final_world
                 (sendEmail env_hot (example_config "pi;@example.org")
                    "Alert; rm -rf /" "body" world0))
      = (started world0 ++ [cmd])%list
      /\ Path cmd = mailCommand
      /\ Args cmd = [mailCommand; "-s"; delete_semicolons "Alert; rm -rf /";
                     delete_semicolons (EmailRecipient (example_config "pi;@example.org"))]
      /\ has_semicolon (delete_semicolons "Alert; rm -rf /") = false
      /\ has_semicolon
           (delete_semicolons (EmailRecipient (example_config "pi;@example.org")))
         = false.
Proof.
  split; [discriminate |].
  apply (sendEmail_strips_semicolons env_hot (example_config "pi;@example.org")
           "Alert; rm -rf /" "body" world0).
  discriminate.
Defined.

Lemma Sprintf_failed_prefix Q err :
  Sprintf Q "failed to send email: %v" [VError err]
  = "failed to send email: " ++ Error Q err.
Proof. unfold Sprintf. cbn. rewrite append_empty_r. reflexivity. Qed.

Lemma HasPrefix_append (p s : string) : GoStrings.HasPrefix (p ++ s) p = true.
Proof.
  induction p as [| c p IH]; cbn; [apply HasPrefix_empty |].
  rewrite Ascii.eqb_refl. exact IH.
Qed.

Lemma append_assoc (a b c : string) : (a ++ b) ++ c = a ++ (b ++ c).
Proof. induction a as [| x a IH]; cbn; [| rewrite IH]; reflexivity. Qed.

(** C8: a mail command that outlives the 15 s timeout makes [sendEmail]
    return an error wrapping [context.DeadlineExceeded]; a command that fails
    otherwise (non-zero exit in time, or failure to start) makes it return an
    error that does not.  Both are send errors. *)
Theorem sendEmail_timeout_distinguished (E : Env) (cfg : config)
  (subject body : string) (w : World) :
  EmailRecipient cfg <> noEmailRecipient ->
  let p := Start E (instant w) (alert_cmd cfg subject body) in
  (start_error p = None -> 15 * GoTime.Second < run_time p ->
   exists e w',
     sendEmail E cfg subject body w = Done (Some e) w'
     /\ Is e DeadlineExceeded = true
     /\ GoStrings.HasPrefix (Error (Quote E) e) "failed to send email: " = true)
  /\
  ((start_error p <> None
    \/ (run_time p <= 15 * GoTime.Second /\ exit_state p <> None)) ->
   exists e w',
     sendEmail E cfg subject body w = Done (Some e) w'
     /\ Is e DeadlineExceeded = false
     /\ GoStrings.HasPrefix (Error (Quote E) e) "failed to send email: " = true).
Proof.
  intros H p.
  destruct (sendEmail_returns E cfg subject body w H) as (w' & Hrun & _).
  fold p in Hrun.
  assert (Hpre : forall err stderr tail,
             GoStrings.HasPrefix
               ((if (0 <? String.length stderr)%nat
                 then Sprintf (Quote E) "failed to send email: %v" [VError err]
                      ++ Sprintf (Quote E) ". Stderr: %s" [VString stderr]
                 else Sprintf (Quote E) "failed to send email: %v" [VError err])
                ++ tail) "failed to send email: " = true).
  { intros err stderr tail. rewrite Sprintf_failed_prefix.
    destruct (0 <? String.length stderr)%nat;
      rewrite ?append_assoc; apply HasPrefix_append. }
  split.
  - intros Hs Ht. rewrite Hrun. unfold run_result. rewrite Hs.
    change (Timeout (alert_cmd cfg subject body)) with (15 * GoTime.Second).
    apply Z.ltb_lt in Ht. rewrite Ht.
    cbn [send_error errors_Is Is same orb].
    eexists. eexists. split; [reflexivity |]. split; [reflexivity |].
    cbn [Error]. apply Hpre.
  - intros Hf. rewrite Hrun. unfold run_result.
    destruct (start_error p) as [[code text] |] eqn:Hs.
    + cbn [send_error errors_Is]. eexists. eexists.
      split; [reflexivity |]. split; [reflexivity |].
      cbn [Error]. apply Hpre.
    + destruct Hf as [Hf | [Ht Hx]]; [congruence |].
      change (Timeout (alert_cmd cfg subject body)) with (15 * GoTime.Second).
      apply Z.ltb_ge in Ht. rewrite Ht.
      destruct (exit_state p) as [st |]; [| congruence].
      cbn [send_error errors_Is]. eexists. eexists.
      split; [reflexivity |]. split; [reflexivity |].
      cbn [Error]. apply Hpre.
Qed.

Lemma sendEmail_timeout_distinguished_witness :
  EmailRecipient config_pi <> noEmailRecipient
  /\ 15 * GoTime.Second < run_time process_slow
  /\ (exists e w',
        sendEmail env_hot_slow_mail config_pi "subject" "body" world0 = Done (Some e) w'
        /\ Is e DeadlineExceeded = true)
  /\ run_time process_failing <= 15 * GoTime.Second
  /\ exit_state process_failing <> None
  /\ (exists e w',
        sendEmail env_hot_failing_mail config_pi "subject" "body" world0
        = Done (Some e) w'
        /\ Is e DeadlineExceeded = false).
Proof.
  split; [discriminate |].
  split; [reflexivity |].
  split.
  - destruct (sendEmail_timeout_distinguished env_hot_slow_mail config_pi
                "subject" "body" world0) as [Hslow _]; [discriminate |].
    destruct Hslow as (e & w' & Hrun & His & _); [reflexivity | reflexivity |].
    exists e, w'. split; assumption.
  - split; [discriminate |].
    split; [discriminate |].
    destruct (sendEmail_timeout_distinguished env_hot_failing_mail config_pi
                "subject" "body" world0) as [_ Hfail]; [discriminate |].
    destruct Hfail as (e & w' & Hrun & His & _).
    + right. split; discriminate.
    + exists e, w'. split; assumption.
Defined.

(** *** The validation of the mail command *)

Lemma IsRegular_not_dir (info : FileInfo) : IsRegular info = true -> IsDir info = false.
Proof.
  unfold IsRegular, IsDir. intros H. apply Z.eqb_eq in H.
  assert (Hd : Z.land (Mode info) ModeDir = 0).
  { replace ModeDir with (Z.land ModeType ModeDir) by reflexivity.
    rewrite Z.land_assoc, H. reflexivity. }
  rewrite Hd. reflexivity.
Qed.

Lemma Errorf_not_exist Q path :
  Is (Errorf Q "Error: '%s' %w" [VString path; VError ErrNotExist]) ErrNotExist = true.
Proof. reflexivity. Qed.

(** C7: [validateMailCommand] returns an error for a path that does not
    exist, for a directory, and for a file without any executable bit; it
    returns nil for an existing regular file with an executable bit. *)
Theorem validateMailCommand_spec (E : Env) (path : string) (w : World) :
  (forall err, Stat E path = inr err -> Is err ErrNotExist = true ->
     exists e, validateMailCommand E path w = Done (Some e) w
               /\ Is e ErrNotExist = true)
  /\
  (forall info, Stat E path = inl info -> IsDir info = true ->
     exists e, validateMailCommand E path w = Done (Some e) w
               /\ Is e errIsDirectory = true)
  /\
  (forall info, Stat E path = inl info -> IsDir info = false ->
     Z.land (Mode info) perm_exec = 0 ->
     exists e, validateMailCommand E path w = Done (Some e) w
               /\ Is e errNotExecutable = true)
  /\
  (forall info, Stat E path = inl info -> IsRegular info = true ->
     Z.land (Mode info) perm_exec <> 0 ->
     validateMailCommand E path w = Done None w).
Proof.
  unfold validateMailCommand. repeat split.
  - intros err Hs He. rewrite Hs, He. eexists. split; [reflexivity |].
    apply Errorf_not_exist.
  - intros info Hs Hd. rewrite Hs, Hd. eexists. split; reflexivity.
  - intros info Hs Hd Hx. rewrite Hs, Hd, Hx. eexists. split; reflexivity.
  - intros info Hs Hr Hx. rewrite Hs, (IsRegular_not_dir info Hr).
    apply Z.eqb_neq in Hx. rewrite Hx. reflexivity.
Qed.

Lemma validateMailCommand_spec_witness :
  (exists e,
     validateMailCommand
       (example_env (inl "65500")
          (inr (PathError "stat" mailCommand (Errno ENOENT "no such file or directory")))
          process_ok) mailCommand world0 = Done (Some e) world0
     /\ Is e ErrNotExist = true)
  /\
  (exists e,
     validateMailCommand
       (example_env (inl "65500") (inl (mkFileInfo (ModeDir + 493))) process_ok)
       mailCommand world0 = Done (Some e) world0
     /\ Is e errIsDirectory = true)
  /\
  (exists e,
     validateMailCommand
       (example_env (inl "65500") (inl (mkFileInfo 420)) process_ok)
       mailCommand world0 = Done (Some e) world0
     /\ Is e errNotExecutable = true)
  /\
  validateMailCommand (example_env (inl "65500") mail_ok process_ok)
    mailCommand world0 = Done None world0.
Proof.
  split; [| split; [| split]].
  - apply (proj1 (validateMailCommand_spec
                    (example_env (inl "65500")
                       (inr (PathError "stat" mailCommand
                               (Errno ENOENT "no such file or directory")))
                       process_ok) mailCommand world0)
             (PathError "stat" mailCommand (Errno ENOENT "no such file or directory")));
      reflexivity.
  - apply (proj1 (proj2 (validateMailCommand_spec
                    (example_env (inl "65500") (inl (mkFileInfo (ModeDir + 493)))
                       process_ok) mailCommand world0))
             (mkFileInfo (ModeDir + 493))); reflexivity.
  - apply (proj1 (proj2 (proj2 (validateMailCommand_spec
                    (example_env (inl "65500") (inl (mkFileInfo 420)) process_ok)
                    mailCommand world0)))
             (mkFileInfo 420)); reflexivity.
  - apply (proj2 (proj2 (proj2 (validateMailCommand_spec
                    (example_env (inl "65500") mail_ok process_ok)
                    mailCommand world0)))
             (mkFileInfo 493)); [reflexivity | reflexivity | discriminate].
Defined.

(** *** The sensor reader *)

(** What [getCPUTemperature] returns, from what [os.ReadFile] gave. *)
Lemma getCPUTemperature_world (E : Env) (w : World) :
  exists r, getCPUTemperature E w = Done r (observed w).
Proof.
  unfold getCPUTemperature. run_step.
  destruct (ReadFile E (instant w) cpuTempFilePath) as [data | err].
  - destruct (Strconv.ParseFloat (GoStrings.TrimSpace data)) as [tempVal [err |]];
      eexists; reflexivity.
  - eexists; reflexivity.
Qed.

Lemma getCPUTemperature_inv (E : Env) (w w1 : World) r :
  getCPUTemperature E w = Done r w1 -> w1 = observed w.
Proof.
  intros H. destruct (getCPUTemperature_world E w) as (r' & Hr).
  rewrite Hr in H. congruence.
Qed.

Lemma Sprintf_test_body Q host temp now :
  Sprintf Q
    ("Warning: this is a test email" ++ LF ++ "Hostname: %s" ++ LF
     ++ "Current CPU temperature: %.2f°C" ++ LF ++ "Timestamp: %s")
    [VString host; VFloat temp; VString now]
  = ("Warning: this is a test email" ++ LF ++ "Hostname: ") ++ host
    ++ (LF ++ "Current CPU temperature: ") ++ format_f2 temp
    ++ ("°C" ++ LF ++ "Timestamp: ") ++ now.
Proof.
  unfold Sprintf. cbn -[format_f2]. rewrite append_empty_r. reflexivity.
Qed.

(** The body of the test mail. *)
Lemma test_body_contains Q host temp now :
  let body :=
    Sprintf Q
      ("Warning: this is a test email" ++ LF ++ "Hostname: %s" ++ LF
       ++ "Current CPU temperature: %.2f°C" ++ LF ++ "Timestamp: %s")
      [VString host; VFloat temp; VString now] in
  Contains body host /\ Contains body (format_f2 temp) /\ Contains body now.
Proof.
  cbv zeta. rewrite Sprintf_test_body. repeat split.
  - eexists _, _. reflexivity.
  - exists (("Warning: this is a test email" ++ LF ++ "Hostname: ") ++ host
            ++ (LF ++ "Current CPU temperature: ")),
           (("°C" ++ LF ++ "Timestamp: ") ++ now).
    rewrite !append_assoc. reflexivity.
  - exists (("Warning: this is a test email" ++ LF ++ "Hostname: ") ++ host
            ++ (LF ++ "Current CPU temperature: ") ++ format_f2 temp
            ++ ("°C" ++ LF ++ "Timestamp: ")), "".
    rewrite !append_assoc, append_empty_r. reflexivity.
Qed.

(** C10: with a recipient, [sendTestEmail] reads the sensor first.  When the
    reading fails it returns the error of the reading and starts no command;
    when it succeeds, the body given to the mail command contains the
    reading, the hostname and the timestamp. *)
Theorem sendTestEmail_reads_sensor_first (E : Env) (cfg : config) (w w1 : World)
  (reading : float64) (read_err : option error) :
  EmailRecipient cfg <> noEmailRecipient ->
  getCPUTemperature E w = Done (reading, read_err) w1 ->
  match read_err with
  | Some err =>
      sendTestEmail E cfg w = Done (Some err) w1
      /\ started w1 = started w
  | None =>
      exists subject body,
        started (final_world (sendTestEmail E cfg w))
        = (started w ++ [alert_cmd cfg subject body])%list
        /\ Stdin (alert_cmd cfg subject body) = body
        /\ Contains body (format_f2 reading)
        /\ Contains body (Hostname cfg)
        /\ Contains body (Now_RFC1123 E (instant w1))
  end.
Proof.
  intros Hr Hread.
  pose proof (getCPUTemperature_inv E w w1 _ Hread) as Hw1.
  pose proof Hr as Hr'. apply String.eqb_neq in Hr'.
  destruct read_err as [err |]; unfold sendTestEmail; rewrite Hr';
    unfold bind at 1; rewrite Hread.
  - split; [reflexivity | subst w1; reflexivity].
  - unfold bind at 1. unfold observe at 1.
    match goal with
    | |- context [sendEmail E cfg ?s ?b] =>
        exists s, b; destruct (sendEmail_returns E cfg s b (observed w1) Hr)
          as (w' & Hsend & Hst & _)
    end.
    unfold bind. fold (observed w1). rewrite Hsend.
    split.
    + destruct (send_error _ _); cbn [final_world ret]; rewrite Hst;
        subst w1; reflexivity.
    + split; [reflexivity |].
      pose proof (test_body_contains (Quote E) (Hostname cfg) reading
                    (Now_RFC1123 E (instant w1))) as (Hh & Hf & Hn).
      repeat split; assumption.
Qed.

Lemma sendTestEmail_reads_sensor_first_witness :
  (exists err,
     getCPUTemperature env_no_sensor world0
     = Done (Float64.zero, Some err) (observed world0)
     /\ sendTestEmail env_no_sensor config_pi world0 = Done (Some err) (observed world0)
     /\ started (observed world0) = started world0)
  /\
  (getCPUTemperature env_cool world0 = Done (reading_42, None) (observed world0)
   /\ exists subject body,
       started (final_world (sendTestEmail env_cool config_pi world0))
       = (started world0 ++ [alert_cmd config_pi subject body])%list
       /\ Stdin (alert_cmd config_pi subject body) = body
       /\ Contains body (format_f2 reading_42)
       /\ Contains body (Hostname config_pi)
       /\ Contains body (Now_RFC1123 env_cool (instant (observed world0)))).
Proof.
  split.
  - eexists.
    assert (H : getCPUTemperature env_no_sensor world0
                = Done (Float64.zero, Some _) (observed world0))
      by (vm_compute; reflexivity).
    split; [exact H |].
    apply (sendTestEmail_reads_sensor_first env_no_sensor config_pi world0
             (observed world0) Float64.zero (Some _)); [discriminate | exact H].
  - assert (H : getCPUTemperature env_cool world0
                = Done (reading_42, None) (observed world0))
      by (vm_compute; reflexivity).
    split; [exact H |].
    apply (sendTestEmail_reads_sensor_first env_cool config_pi world0
             (observed world0) reading_42 None); [discriminate | exact H].
Defined.

(** *** The threshold evaluation *)

Ltac run_step_in H :=
  unfold log_Printf, log_Println, log_Print, bind, ret, emit, observe, os_Exit in H;
  cbn [final_world started output instant] in H.

Lemma skipn_length_app {A} (l l' : list A) : skipn (List.length l) (l ++ l') = l'.
Proof. induction l as [| a l IH]; [reflexivity | exact IH]. Qed.

Lemma compare_cont_Eq_eq (p q : positive) :
  Pos.compare_cont Eq p q = Eq -> p = q.
Proof. intros H. apply Pos.compare_eq. exact H. Qed.

Lemma SFcompare_Eq_sym (x y : spec_float) :
  SFcompare x y = Some Eq -> SFcompare y x = Some Eq.
Proof.
  destruct x as [sx | sx | | sx mx ex], y as [sy | sy | | sy my ey]; cbn;
    try discriminate; try reflexivity;
    try (destruct sx; discriminate); try (destruct sy; discriminate).
  - destruct sx, sy; try discriminate; reflexivity.
  - destruct sx, sy; try discriminate;
      (destruct (Z.compare ex ey) eqn:He; try discriminate;
       apply Z.compare_eq in He; subst ey; rewrite Z.compare_refl;
       intros H; injection H as H;
       destruct (Pos.compare_cont Eq mx my) eqn:Hm; try discriminate;
       apply compare_cont_Eq_eq in Hm; subst my;
       rewrite Pos.compare_cont_refl; reflexivity).
Qed.

(** Go's [==] excludes [>] on [float64]. *)
Lemma float64_eq_not_gt (x y : float64) :
  Float64.eq x y = true -> Float64.gt x y = false.
Proof.
  unfold Float64.eq, Float64.gt, SFeqb, SFltb. intros H.
  destruct (SFcompare x y) as [[| |] |] eqn:Hc; try discriminate.
  rewrite (SFcompare_Eq_sym x y Hc). reflexivity.
Qed.

Lemma current_line_not_alert Q reading :
  GoStrings.HasPrefix (Sprintf Q "Current CPU temperature: %.2f°C" [VFloat reading])
    "ALERT: " = false.
Proof. reflexivity. Qed.

Lemma alert_line_is_alert Q reading threshold :
  GoStrings.HasPrefix
    (Sprintf Q "ALERT: Temperature %.2f°C exceeds threshold of %.2f°C"
       [VFloat reading; VFloat threshold]) "ALERT: " = true.
Proof. reflexivity. Qed.

(** C1: in a cycle whose reading [r] succeeded, the decision is [Alert]
    exactly when [r > threshold]; when [r == threshold] the decision is
    [NoAction]; and with [NoAction] no command is started. *)
Theorem compareTemperatures_alert_iff (E : Env) (cfg : config) (w w1 : World)
  (reading : float64) :
  getCPUTemperature E w = Done (reading, None) w1 ->
  let w' := final_world (compareTemperatures E cfg w) in
  (cycle_decision w w' = Alert <-> Float64.gt reading (TempThreshold cfg) = true)
  /\ (Float64.eq reading (TempThreshold cfg) = true -> cycle_decision w w' = NoAction)
  /\ (cycle_decision w w' = NoAction ->
      started w' = started w
      /\ output w'
         = (output w
            ++ [Log (Sprintf (Quote E) "Current CPU temperature: %.2f°C"
                       [VFloat reading])])%list).
Proof.
  intros Hread w'.
  pose proof (getCPUTemperature_inv E w w1 _ Hread) as Hw1.
  assert (Hcases :
    (Float64.gt reading (TempThreshold cfg) = false
     /\ cycle_decision w w' = NoAction
     /\ started w' = started w
     /\ output w'
        = (output w
           ++ [Log (Sprintf (Quote E) "Current CPU temperature: %.2f°C"
                      [VFloat reading])])%list)
    \/ (Float64.gt reading (TempThreshold cfg) = true
        /\ cycle_decision w w' = Alert)).
  { subst w'. unfold cycle_decision.
    remember (compareTemperatures E cfg w) as out eqn:Hout.
    unfold compareTemperatures in Hout. unfold bind at 1 in Hout.
    rewrite Hread in Hout. subst w1.
    destruct (Float64.gt reading (TempThreshold cfg)) eqn:Hgt.
    - right. split; [reflexivity |].
      destruct (String.eqb (EmailRecipient cfg) noEmailRecipient) eqn:Hr.
      + run_step_in Hout. subst out. cbn [final_world observed output].
        rewrite <- !app_assoc, skipn_length_app. cbn [app existsb alert_logged].
        rewrite current_line_not_alert, alert_line_is_alert. reflexivity.
      + apply String.eqb_neq in Hr.
        unfold bind at 1 in Hout. unfold log_Printf at 1 in Hout.
        unfold emit at 1 in Hout.
        unfold bind at 1 in Hout. unfold log_Printf at 1 in Hout.
        unfold emit at 1 in Hout.
        unfold bind at 1 in Hout. unfold log_Println at 1 in Hout.
        unfold emit at 1 in Hout.
        unfold bind at 1 in Hout. unfold observe at 1 in Hout.
        cbn [instant output started observed] in Hout.
        unfold bind in Hout.
        match type of Hout with
        | context [sendEmail E cfg ?s ?b ?w0] =>
            destruct (sendEmail_returns E cfg s b w0 Hr)
              as (w2 & Hsend & _ & _ & lines & Hlines)
        end.
        rewrite Hsend in Hout.
        cbn [output] in Hlines.
        destruct (send_error _ _); run_step_in Hout; subst out;
          cbn [final_world output]; rewrite Hlines;
          rewrite <- !app_assoc, skipn_length_app; cbn [app existsb alert_logged];
          rewrite current_line_not_alert, alert_line_is_alert; reflexivity.
    - left. split; [reflexivity |].
      run_step_in Hout. subst out. cbn [final_world observed output started].
      rewrite skipn_length_app. cbn [existsb alert_logged].
      rewrite current_line_not_alert. repeat split. }
  split; [| split].
  - destruct Hcases as [(Hgt & Hd & _) | (Hgt & Hd)]; rewrite Hgt, Hd;
      split; intros; congruence.
  - intros Heq. apply float64_eq_not_gt in Heq.
    destruct Hcases as [(_ & Hd & _) | (Hgt & _)]; [exact Hd | congruence].
  - intros Hd.
    destruct Hcases as [(_ & _ & Hs & Ho) | (_ & Hd')]; [split; assumption | congruence].
Qed.

Lemma compareTemperatures_alert_iff_witness :
  getCPUTemperature env_at_threshold world0
  = Done (reading_60, None) (observed world0)
  /\ (cycle_decision world0
        (final_world (compareTemperatures env_at_threshold config_pi world0)) = Alert
      <-> Float64.gt reading_60 (TempThreshold config_pi) = true)
  /\ (Float64.eq reading_60 (TempThreshold config_pi) = true ->
      cycle_decision world0
        (final_world (compareTemperatures env_at_threshold config_pi world0)) = NoAction)
  /\ (cycle_decision world0
        (final_world (compareTemperatures env_at_threshold config_pi world0)) = NoAction ->
      started (final_world (compareTemperatures env_at_threshold config_pi world0))
      = started world0
      /\ output (final_world (compareTemperatures env_at_threshold config_pi world0))
         = (output world0
            ++ [Log (Sprintf (Quote env_at_threshold) "Current CPU temperature: %.2f°C"
                       [VFloat reading_60])])%list).
Proof.
  assert (H : getCPUTemperature env_at_threshold world0
              = Done (reading_60, None) (observed world0))
    by (vm_compute; reflexivity).
  split; [exact H |].
  exact (compareTemperatures_alert_iff env_at_threshold config_pi world0
           (observed world0) reading_60 H).
Defined.

(** *** The cycle and the loop *)

Lemma compareTemperatures_returns (E : Env) (cfg : config) (w : World) :
  exists w', compareTemperatures E cfg w = Done tt w'.
Proof.
  destruct (getCPUTemperature_world E w) as ([reading [err |]] & Hread);
    unfold compareTemperatures; unfold bind at 1; rewrite Hread.
  - eexists. reflexivity.
  - destruct (Float64.gt reading (TempThreshold cfg)).
    + destruct (String.eqb (EmailRecipient cfg) noEmailRecipient) eqn:Hr.
      * eexists. reflexivity.
      * apply String.eqb_neq in Hr.
        unfold bind at 1. unfold log_Printf at 1. unfold emit at 1.
        unfold bind at 1. unfold log_Printf at 1. unfold emit at 1.
        unfold bind at 1. unfold log_Println at 1. unfold emit at 1.
        unfold bind at 1. unfold observe at 1.
        unfold bind.
        match goal with
        | |- context [sendEmail E cfg ?s ?b ?w0] =>
            destruct (sendEmail_returns E cfg s b w0 Hr) as (w2 & Hsend & _)
        end.
        rewrite Hsend. destruct (send_error _ _); eexists; reflexivity.
    + eexists. reflexivity.
Qed.

Lemma tempCheckLoop_for_outcome (E : Env) (cfg : config) (events : list Event) :
  forall w,
    if has_signal events
    then exists w', tempCheckLoop_for E cfg events w = Exited 0 w'
    else exists w', tempCheckLoop_for E cfg events w = Waiting w'.
Proof.
  induction events as [| [| sig] rest IH]; intros w.
  - eexists. reflexivity.
  - cbn [has_signal existsb orb tempCheckLoop_for]. fold (has_signal rest).
    destruct (compareTemperatures_returns E cfg w) as (w1 & Hc).
    unfold bind. rewrite Hc. apply IH.
  - cbn [has_signal existsb orb tempCheckLoop_for]. eexists. reflexivity.
Qed.

(** The loop, by its interval and the events it receives. *)
Lemma tempCheckLoop_outcome (E : Env) (cfg : config) (events : list Event) (w : World) :
  if CheckInterval cfg <=? 0
  then exists reason, tempCheckLoop E cfg events w = Panicked reason w
  else if has_signal events
       then exists w', tempCheckLoop E cfg events w = Exited 0 w'
       else exists w', tempCheckLoop E cfg events w = Waiting w'.
Proof.
  unfold tempCheckLoop, NewTicker.
  destruct (CheckInterval cfg <=? 0).
  - eexists. reflexivity.
  - unfold bind, ret. apply tempCheckLoop_for_outcome.
Qed.

Lemma validateMailCommand_pure (E : Env) (path : string) :
  exists r, forall w, validateMailCommand E path w = Done r w.
Proof.
  unfold validateMailCommand.
  destruct (Stat E path) as [info | err].
  - destruct (IsDir info); [eexists; intros; reflexivity |].
    destruct (Z.land (Mode info) perm_exec =? 0); eexists; intros; reflexivity.
  - destruct (Is err ErrNotExist); eexists; intros; reflexivity.
Qed.

Lemma showConfiguration_effect (E : Env) (cfg : config) (w : World) :
  exists w', showConfiguration E cfg w = Done (with_sentinel cfg) w'.
Proof.
  unfold showConfiguration, with_sentinel. run_step.
  destruct cfg as [recipient threshold interval test host]. cbn.
  destruct (String.eqb recipient ""); eexists; reflexivity.
Qed.

Lemma sendTestEmail_returns (E : Env) (cfg : config) (w : World) :
  exists r w', sendTestEmail E cfg w = Done r w'.
Proof.
  unfold sendTestEmail.
  destruct (String.eqb (EmailRecipient cfg) noEmailRecipient) eqn:Hr.
  - eexists _, _. reflexivity.
  - apply String.eqb_neq in Hr.
    destruct (getCPUTemperature_world E w) as ([reading [err |]] & Hread);
      unfold bind at 1; rewrite Hread.
    + eexists _, _. reflexivity.
    + unfold bind at 1. unfold observe at 1. unfold bind.
      match goal with
      | |- context [sendEmail E cfg ?s ?b ?w0] =>
          destruct (sendEmail_returns E cfg s b w0 Hr) as (w2 & Hsend & _)
      end.
      rewrite Hsend. destruct (send_error _ _); eexists _, _; reflexivity.
Qed.

(** The three ways [main] goes after startup. *)
Lemma main_run (E : Env) (args : CommandLine) (events : list Event) (w : World) :
  let cfg := with_sentinel (built_config E args) in
  (mail_command_invalid E -> exists w', main E args events w = Exited 0 w')
  /\ (~ mail_command_invalid E -> TestEmailFlag (parseFlags args) = true ->
      exists w', main E args events w = Exited 0 w')
  /\ (~ mail_command_invalid E -> TestEmailFlag (parseFlags args) = false ->
      exists w1,
        main E args events w
        = (compareTemperatures E cfg ;; tempCheckLoop E cfg events) w1).
Proof.
  intros cfg.
  destruct (validateMailCommand_pure E mailCommand) as (r & Hv).
  assert (Hinv : mail_command_invalid E <-> r <> None).
  { unfold mail_command_invalid. rewrite Hv. split.
    - intros (e & He). congruence.
    - destruct r as [e |]; [intros _; exists e; reflexivity | congruence]. }
  remember (main E args events w) as out eqn:Hout.
  unfold main in Hout.
  unfold bind at 1 in Hout. unfold hello, log_Println at 1 in Hout.
  unfold emit at 1 in Hout.
  unfold bind at 1 in Hout. unfold getHostname, ret at 1 in Hout.
  fold (built_config E args) in Hout.
  unfold bind at 1 in Hout. rewrite Hv in Hout.
  destruct r as [e |].
  - split; [| split].
    + intros _. subst out. eexists. reflexivity.
    + intros Hn. exfalso. apply Hn, Hinv. discriminate.
    + intros Hn. exfalso. apply Hn, Hinv. discriminate.
  - unfold bind at 1 in Hout. unfold ret at 1 in Hout.
    unfold bind at 1 in Hout. unfold log_Println at 1 in Hout.
    unfold emit at 1 in Hout.
    unfold bind at 1 in Hout.
    match type of Hout with
    | context [showConfiguration E ?c ?w0] =>
        destruct (showConfiguration_effect E c w0) as (w1 & Hshow)
    end.
    rewrite Hshow in Hout. fold cfg in Hout.
    assert (Hflag : TestEmailFlag cfg = TestEmailFlag (parseFlags args))
      by reflexivity.
    split; [| split].
    + intros Hi. apply Hinv in Hi. congruence.
    + intros _ Ht. rewrite <- Hflag in Ht. rewrite Ht in Hout.
      unfold bind at 1 in Hout. unfold bind at 1 in Hout. unfold bind at 1 in Hout.
      destruct (sendTestEmail_returns E cfg w1) as (r & w2 & Hsend).
      rewrite Hsend in Hout.
      destruct r as [e |]; subst out; eexists; reflexivity.
    + intros _ Ht. rewrite <- Hflag in Ht. rewrite Ht in Hout.
      unfold bind at 1 in Hout. unfold ret at 1 in Hout.
      unfold bind at 1 in Hout. unfold log_Println at 1 in Hout.
      unfold emit at 1 in Hout.
      subst out. eexists. reflexivity.
Qed.

(** C9: an evaluation cycle always returns normally, whatever the sensor
    file and the mail command do; the loop, started with a positive interval,
    ends only on a signal, with exit status 0; and a monitoring run of [main]
    ends only on a configuration error at startup (an invalid mail command,
    a non-positive interval) or on a signal. *)
Theorem cycle_errors_are_swallowed (E : Env) (cfg : config) :
  (forall w, exists w', compareTemperatures E cfg w = Done tt w')
  /\ (forall events w,
        0 < CheckInterval cfg ->
        (terminated (tempCheckLoop E cfg events w) = true
         <-> has_signal events = true))
  /\ (forall events w code w',
        tempCheckLoop E cfg events w = Exited code w' -> code = 0)
  /\ (forall args events w,
        TestEmailFlag (parseFlags args) = false ->
        (terminated (main E args events w) = true
         <-> (mail_command_invalid E
              \/ CheckInterval (parseFlags args) <= 0
              \/ has_signal events = true))).
Proof.
  assert (Hloop : forall c events w,
             terminated (tempCheckLoop E c events w) = true
             <-> (CheckInterval c <= 0 \/ has_signal events = true)).
  { intros c events w. pose proof (tempCheckLoop_outcome E c events w) as H.
    destruct (CheckInterval c <=? 0) eqn:Hi.
    - apply Z.leb_le in Hi. destruct H as (reason & H). rewrite H.
      split; [intros _; left; exact Hi | reflexivity].
    - apply Z.leb_gt in Hi. destruct (has_signal events).
      + destruct H as (w' & H). rewrite H.
        split; [intros _; right; reflexivity | reflexivity].
      + destruct H as (w' & H). rewrite H. cbn [terminated].
        split; [discriminate |]. intros [Hc | Hc]; [lia | discriminate Hc]. }
  split; [apply compareTemperatures_returns |].
  split.
  { intros events w Hpos. rewrite Hloop.
    split; [intros [Hc | Hc]; [lia | exact Hc] | intros Hc; right; exact Hc]. }
  split.
  - intros events w code w' H.
    pose proof (tempCheckLoop_outcome E cfg events w) as Ho.
    destruct (CheckInterval cfg <=? 0).
    + destruct Ho as (reason & Ho). rewrite Ho in H. discriminate H.
    + destruct (has_signal events); destruct Ho as (w'' & Ho);
        rewrite Ho in H; [injection H as Hc _; symmetry; exact Hc | discriminate H].
  - intros args events w Hflag.
    destruct (main_run E args events w) as (Hinv & _ & Hmon).
    destruct (validateMailCommand_pure E mailCommand) as ([e |] & Hv).
    + assert (Hi : mail_command_invalid E) by (exists e; apply Hv).
      split; [intros _; left; exact Hi |].
      intros _. destruct (Hinv Hi) as (w' & Hm). rewrite Hm. reflexivity.
    + assert (Hn : ~ mail_command_invalid E).
      { intros (e & He). rewrite Hv in He. discriminate He. }
      destruct (Hmon Hn Hflag) as (w1 & Hm). rewrite Hm.
      destruct (compareTemperatures_returns E
                  (with_sentinel (built_config E args)) w1) as (w2 & Hc).
      unfold bind. rewrite Hc.
      rewrite (Hloop (with_sentinel (built_config E args)) events w2).
      change (CheckInterval (with_sentinel (built_config E args)))
        with (CheckInterval (parseFlags args)).
      split; [intros H; right; exact H |].
      intros [Hi | Hs]; [contradiction | exact Hs].
Qed.

Lemma cycle_errors_are_swallowed_witness :
  TestEmailFlag (parseFlags args_pi) = false
  /\ (terminated (main env_no_sensor args_pi [Tick; Tick; Sig SIGTERM] world0) = true
      <-> (mail_command_invalid env_no_sensor
           \/ CheckInterval (parseFlags args_pi) <= 0
           \/ has_signal [Tick; Tick; Sig SIGTERM] = true)).
Proof.
  split; [reflexivity |].
  apply (proj2 (proj2 (proj2 (cycle_errors_are_swallowed env_no_sensor config_pi)))
           args_pi [Tick; Tick; Sig SIGTERM] world0).
  reflexivity.
Defined.

(** *** The configuration *)

(** C4, as stated, fails: [showConfiguration] writes the sentinel into an
    empty recipient field. *)
Lemma showConfiguration_rewrites_recipient :
  exists cfg' w',
    showConfiguration env_cool (built_config env_cool args_plain) world0 = Done cfg' w'
    /\ EmailRecipient cfg' <> EmailRecipient (built_config env_cool args_plain).
Proof.
  eexists _, _. split; [vm_compute; reflexivity |]. discriminate.
Qed.

(** C4, amended: after the configuration is built, [showConfiguration]
    replaces an empty recipient by the sentinel and changes nothing else;
    a non-empty recipient is left as it is; and a monitoring run of [main]
    gives this one configuration to the first cycle and to the loop, which
    gives it to every cycle. *)
Theorem config_changed_only_by_sentinel (E : Env) (cfg : config) :
  (forall w, exists w', showConfiguration E cfg w = Done (with_sentinel cfg) w')
  /\ TempThreshold (with_sentinel cfg) = TempThreshold cfg
  /\ CheckInterval (with_sentinel cfg) = CheckInterval cfg
  /\ TestEmailFlag (with_sentinel cfg) = TestEmailFlag cfg
  /\ Hostname (with_sentinel cfg) = Hostname cfg
  /\ (EmailRecipient cfg = EmptyString ->
      EmailRecipient (with_sentinel cfg) = noEmailRecipient)
  /\ (EmailRecipient cfg <> EmptyString -> with_sentinel cfg = cfg)
  /\ (forall args events w,
        cfg = built_config E args ->
        ~ mail_command_invalid E ->
        TestEmailFlag (parseFlags args) = false ->
        exists w1,
          main E args events w
          = (compareTemperatures E (with_sentinel cfg) ;;
             tempCheckLoop E (with_sentinel cfg) events) w1)
  /\ (forall events,
        tempCheckLoop_for E (with_sentinel cfg) (Tick :: events)
        = (compareTemperatures E (with_sentinel cfg) ;;
           tempCheckLoop_for E (with_sentinel cfg) events)).
Proof.
  split; [intros w; apply showConfiguration_effect |].
  repeat (split; [reflexivity |]).
  split.
  { intros H. unfold with_sentinel. rewrite H. reflexivity. }
  split.
  { intros H. apply String.eqb_neq in H. unfold with_sentinel. rewrite H.
    destruct cfg; reflexivity. }
  split; [| reflexivity].
  intros args events w Hcfg Hn Hflag. subst cfg.
  destruct (main_run E args events w) as (_ & _ & Hmon).
  exact (Hmon Hn Hflag).
Qed.

Lemma config_changed_only_by_sentinel_witness :
  EmailRecipient (built_config env_cool args_plain) = EmptyString
  /\ EmailRecipient (with_sentinel (built_config env_cool args_plain)) = noEmailRecipient
  /\ EmailRecipient (built_config env_cool args_pi) <> EmptyString
  /\ with_sentinel (built_config env_cool args_pi) = built_config env_cool args_pi.
Proof.
  split; [reflexivity |].
  split.
  - apply (proj1 (proj2 (proj2 (proj2 (proj2 (proj2
             (config_changed_only_by_sentinel env_cool
                (built_config env_cool args_plain)))))))).
    reflexivity.
  - split; [discriminate |].
    apply (proj1 (proj2 (proj2 (proj2 (proj2 (proj2 (proj2
             (config_changed_only_by_sentinel env_cool
                (built_config env_cool args_pi))))))))).
    discriminate.
Defined.

(** *** Conversion of integers to [float64] *)

Lemma digits2_pos_size (p : positive) : digits2_pos p = Pos.size p.
Proof. induction p as [p IH | p IH |]; cbn; [rewrite IH .. |]; reflexivity. Qed.

Lemma Zdigits2_pos_log2 (p : positive) : Zdigits2 (Zpos p) = Z.log2 (Zpos p) + 1.
Proof.
  cbn [Zdigits2]. rewrite digits2_pos_size.
  destruct p as [p | p |]; cbn; rewrite ?Pos.add_1_r; reflexivity.
Qed.

Lemma Zdigits2_nonneg (x : Z) : 0 <= Zdigits2 x.
Proof. destruct x; cbn; lia. Qed.

Lemma Zdigits2_bound (x k : Z) : 0 <= x < 2 ^ k -> 0 <= k -> Zdigits2 x <= k.
Proof.
  intros [Hx Hlt] Hk. destruct x as [| p | p]; [cbn; lia | | lia].
  rewrite Zdigits2_pos_log2.
  assert (Z.log2 (Zpos p) < k) by (apply Z.log2_lt_pow2; lia). lia.
Qed.

Lemma Zdigits2_lt_pow2 (x : Z) : 0 <= x -> x < 2 ^ Zdigits2 x.
Proof.
  intros Hx. destruct x as [| p | p]; [cbn; lia | | lia].
  rewrite Zdigits2_pos_log2.
  apply Z.log2_spec. lia.
Qed.

Lemma shr_1_bounds (mrs : shr_record) :
  0 <= shr_m mrs -> 0 <= shr_m (shr_1 mrs) <= shr_m mrs.
Proof.
  destruct mrs as [m r s]. cbn [shr_m].
  destruct m as [| [p | p |] | p]; cbn; lia.
Qed.

Lemma iter_shr_1_bounds (n : positive) (mrs : shr_record) :
  0 <= shr_m mrs -> 0 <= shr_m (iter_pos shr_1 n mrs) <= shr_m mrs.
Proof.
  revert mrs. induction n as [n IH | n IH |]; intros mrs H; cbn [iter_pos].
  - pose proof (shr_1_bounds mrs H) as H1.
    pose proof (IH (shr_1 mrs) (proj1 H1)) as H2.
    pose proof (IH _ (proj1 H2)) as H3. lia.
  - pose proof (IH mrs H) as H2.
    pose proof (IH _ (proj1 H2)) as H3. lia.
  - apply shr_1_bounds, H.
Qed.

Lemma shr_record_of_loc_m (m : Z) (l : location) : shr_m (shr_record_of_loc m l) = m.
Proof. destruct l as [| []]; reflexivity. Qed.

Section Rounding64.

Let prec := Float64.prec.
Let emax := Float64.emax.

(** The mantissa and exponent after [shr_fexp]. *)
Lemma shr_fexp_bounds (m e : Z) (l : location) :
  0 <= m ->
  let '(mrs, e') := shr_fexp prec emax m e l in
  0 <= shr_m mrs <= m /\ e' = Z.max e (fexp prec emax (Zdigits2 m + e)).
Proof.
  intros Hm. unfold shr_fexp, shr.
  destruct (fexp prec emax (Zdigits2 m + e) - e) as [| n | n] eqn:Hn.
  - rewrite shr_record_of_loc_m. lia.
  - pose proof (iter_shr_1_bounds n (shr_record_of_loc m l)) as H.
    rewrite shr_record_of_loc_m in H. split; [apply H, Hm | lia].
  - rewrite shr_record_of_loc_m. lia.
Qed.

Lemma round_nearest_even_bounds (m : Z) (l : location) :
  m <= round_nearest_even m l <= m + 1.
Proof. destruct l as [| []]; cbn; try destruct (Z.even m); lia. Qed.

(** Rounding a mantissa of at most 120 bits at a non-positive exponent above
    [-100] never overflows. *)
Lemma binary_round_aux_finite (s : bool) (m e : Z) (l : location) :
  0 <= m -> Zdigits2 m <= 120 -> -100 <= e <= 0 ->
  Float64.is_inf (binary_round_aux prec emax s m e l) = false.
Proof.
  intros Hm Hd He. unfold binary_round_aux.
  pose proof (shr_fexp_bounds m e l Hm) as H1.
  destruct (shr_fexp prec emax m e l) as [mrs' e'].
  destruct H1 as [Hm' He'].
  pose proof (round_nearest_even_bounds (shr_m mrs') (loc_of_shr_record mrs')) as Hr.
  set (m2 := round_nearest_even (shr_m mrs') (loc_of_shr_record mrs')) in *.
  assert (Hm2 : 0 <= m2) by lia.
  pose proof (shr_fexp_bounds m2 e' loc_Exact Hm2) as H2.
  destruct (shr_fexp prec emax m2 e' loc_Exact) as [mrs'' e''].
  destruct H2 as [_ He''].
  assert (Hd2 : Zdigits2 m2 <= 121).
  { apply Zdigits2_bound; [| lia]. split; [exact Hm2 |].
    pose proof (Zdigits2_lt_pow2 m Hm) as Hp.
    assert (2 ^ Zdigits2 m <= 2 ^ 120)
      by (apply Z.pow_le_mono_r; [lia | exact Hd]).
    assert (2 ^ 121 = 2 * 2 ^ 120) by reflexivity.
    assert (0 < 2 ^ 120) by (apply Z.pow_pos_nonneg; lia). lia. }
  pose proof (Zdigits2_nonneg m) as Hdn.
  pose proof (Zdigits2_nonneg m2) as Hd2n.
  assert (Hle : e'' <= emax - prec).
  { subst e'' e'. unfold fexp, emin, emax, prec, Float64.emax, Float64.prec. lia. }
  destruct (shr_m mrs'') as [| q | q]; [reflexivity | | reflexivity].
  apply Z.leb_le in Hle. rewrite Hle. reflexivity.
Qed.

Lemma digits2_pos_iter_xO (p d : positive) :
  Zpos (digits2_pos (Pos.iter xO p d)) = Zpos (digits2_pos p) + Zpos d.
Proof.
  induction d as [| d IH] using Pos.peano_ind.
  - cbn. lia.
  - rewrite Pos.iter_succ. cbn [digits2_pos]. lia.
Qed.

(** An integer below [2^64] in magnitude converts to a finite [float64]. *)
Lemma binary_normalize_int_finite (m : Z) (szero : bool) :
  Z.abs m < 2 ^ 64 ->
  Float64.is_inf (binary_normalize prec emax m 0 szero) = false.
Proof.
  intros Hm.
  assert (Hp : forall (s : bool) (p : positive),
             Zpos p < 2 ^ 64 ->
             Float64.is_inf (binary_round prec emax s p 0) = false).
  { intros s p Hlt. unfold binary_round, shl_align.
    assert (Hd : 1 <= Zpos (digits2_pos p) <= 64).
    { split; [lia |]. apply (Zdigits2_bound (Zpos p) 64); lia. }
    destruct (fexp prec emax (Zpos (digits2_pos p) + 0) - 0) as [| n | n] eqn:Hf.
    - apply binary_round_aux_finite; [lia | cbn [Zdigits2]; lia | lia].
    - apply binary_round_aux_finite; [lia | cbn [Zdigits2]; lia | lia].
    - assert (Hn : Zpos n <= 52).
      { revert Hf. unfold fexp, emin, emax, prec, Float64.emax, Float64.prec. lia. }
      apply binary_round_aux_finite; [lia | |].
      + cbn [Zdigits2]. rewrite digits2_pos_iter_xO. lia.
      + revert Hf. unfold fexp, emin, emax, prec, Float64.emax, Float64.prec. lia. }
  destruct m as [| p | p]; [reflexivity | |]; apply Hp; lia.
Qed.

End Rounding64.

Lemma of_Z_int64_finite (m : Z) :
  - 2 ^ 63 <= m < 2 ^ 63 -> Float64.is_inf (Float64.of_Z m) = false.
Proof.
  intros H. apply binary_normalize_int_finite.
  assert (2 ^ 64 = 2 * 2 ^ 63) by reflexivity. lia.
Qed.

(** *** Parsing the text of an integer *)

Import Strconv.

Lemma digit_char_facts (c : ascii) :
  is_digit c = true ->
  Ascii.eqb c "_" = false /\ Ascii.eqb c "." = false
  /\ Ascii.eqb c "+" = false /\ Ascii.eqb c "-" = false
  /\ Ascii.eqb (lower c) "x" = false
  /\ Ascii.eqb c "i" = false /\ Ascii.eqb c "I" = false
  /\ Ascii.eqb c "n" = false /\ Ascii.eqb c "N" = false
  /\ ((65 <=? byte_val c) && (byte_val c <=? 90)) = false
  /\ 0 <= digit_val c <= 9
  /\ (Ascii.eqb c "0" = true -> digit_val c = 0).
Proof.
  destruct c as [[] [] [] [] [] [] [] []]; intros H;
    try discriminate H; vm_compute; repeat split; congruence.
Qed.

Lemma read_mantissa_digits (s : string) :
  forall (st : scan) (v : Z),
    digits_value (mantissa st) s = Some v ->
    sawdot st = false -> 0 <= nd st -> (nd st = 0 -> mantissa st = 0) ->
    exists nd' dp',
      read_mantissa false st s
      = (mkScan v nd' dp' false
           (sawdigits st || match s with EmptyString => false | _ => true end)
           (underscores st), EmptyString)
      /\ 0 <= nd' /\ (nd' = 0 -> v = 0).
Proof.
  induction s as [| c rest IH]; intros st v Hv Hdot Hnd Hz.
  - cbn in Hv. injection Hv as Hv. subst v.
    exists (nd st), (dp st). cbn. rewrite orb_false_r.
    destruct st; cbn in *; subst; repeat split; assumption.
  - cbn [digits_value] in Hv.
    destruct (is_digit c) eqn:Hc; [| discriminate Hv].
    destruct (digit_char_facts c Hc)
      as (Hu & Hp & _ & _ & _ & _ & _ & _ & _ & _ & Hrange & Hzero).
    cbn [read_mantissa]. rewrite Hu, Hp, Hc, orb_true_r.
    destruct (Ascii.eqb c "0" && (nd st =? 0)) eqn:Hlead.
    + apply andb_prop in Hlead. destruct Hlead as [Hc0 Hn0].
      apply Z.eqb_eq in Hn0. rewrite (Hzero Hc0), (Hz Hn0) in Hv.
      destruct (IH (mkScan (mantissa st) (nd st) (dp st - 1) (sawdot st) true
                      (underscores st)) v) as (nd' & dp' & Hrun & Hnd' & Hz');
        cbn [mantissa nd sawdot]; try assumption.
      { rewrite (Hz Hn0). exact Hv. }
      exists nd', dp'. rewrite Hrun. cbn [sawdigits underscores orb].
      repeat split; assumption.
    + destruct (IH (mkScan (mantissa st * 10 + digit_val c) (nd st + 1) (dp st)
                      (sawdot st) true (underscores st)) v)
        as (nd' & dp' & Hrun & Hnd' & Hz');
        cbn [mantissa nd sawdot]; try assumption; try lia.
      exists nd', dp'. rewrite Hrun. cbn [sawdigits underscores orb].
      repeat split; assumption.
Qed.

Lemma digits_value_head (c : ascii) (rest : string) (acc v : Z) :
  digits_value acc (String c rest) = Some v -> is_digit c = true.
Proof. cbn. destruct (is_digit c); [reflexivity | discriminate]. Qed.

Lemma digits_value_second (c b : ascii) (rest : string) (acc v : Z) :
  digits_value acc (String c (String b rest)) = Some v -> is_digit b = true.
Proof.
  cbn. destruct (is_digit c); [| discriminate].
  destruct (is_digit b); [reflexivity | discriminate].
Qed.

Lemma read_base_prefix_digits (ds : string) (v : Z) :
  digits_value 0 ds = Some v -> read_base_prefix ds = (false, ds).
Proof.
  intros Hv. destruct ds as [| a [| b [| c rest]]]; try reflexivity.
  cbn [read_base_prefix].
  apply digits_value_second in Hv.
  destruct (digit_char_facts b Hv) as (_ & _ & _ & _ & Hx & _).
  rewrite Hx, andb_false_r. reflexivity.
Qed.

Lemma special_inf_digits (neg : bool) (n : nat) (ds : string) (v : Z) :
  digits_value 0 ds = Some v -> special_inf neg n ds = None.
Proof.
  intros Hv. unfold special_inf.
  destruct ds as [| c rest]; [reflexivity |].
  apply digits_value_head in Hv.
  destruct (digit_char_facts c Hv) as (_ & _ & _ & _ & _ & Hi & _ & _ & _ & Hup & _).
  cbn [commonPrefixLenIgnoreCase]. rewrite Hup, Hi. reflexivity.
Qed.

(** The text of an integer is read by [readFloat] as that integer, and is
    none of the special values. *)
Lemma integer_syntax_readFloat (s : string) (neg : bool) (v : Z) :
  integer_syntax s = Some (neg, v) ->
  special s = None /\ readFloat s = Some (mkParts v 0 neg false EmptyString).
Proof.
  unfold integer_syntax. intros H.
  destruct (read_sign s) as [neg' ds] eqn:Hsign.
  destruct ds as [| d ds']; [discriminate H |].
  destruct (digits_value 0 (String d ds')) as [v' |] eqn:Hv; [| discriminate H].
  injection H as Hn Hvv. subst neg' v'.
  pose proof (digits_value_head _ _ _ _ Hv) as Hd.
  split.
  - destruct s as [| c rest]; [discriminate Hsign |].
    unfold read_sign in Hsign. unfold special.
    destruct (Ascii.eqb c "+") eqn:Hplus.
    { injection Hsign as _ Hr. subst rest.
      apply (special_inf_digits false 1 _ v Hv). }
    destruct (Ascii.eqb c "-") eqn:Hminus.
    { injection Hsign as _ Hr. subst rest.
      apply (special_inf_digits true 1 _ v Hv). }
    injection Hsign as _ Hc Hr. subst c rest.
    destruct (digit_char_facts d Hd) as (_ & _ & _ & _ & _ & Hi & HI & Hn & HN & _).
    rewrite Hi, HI, Hn, HN. reflexivity.
  - unfold readFloat.
    destruct s as [| c rest]; [discriminate Hsign |].
    rewrite Hsign, (read_base_prefix_digits _ v Hv).
    destruct (read_mantissa_digits (String d ds') scan0 v Hv
                (eq_refl : sawdot scan0 = false) (Z.le_refl 0) (fun _ => eq_refl))
      as (nd' & dp' & Hrun & Hnd' & Hz').
    rewrite Hrun. cbn.
    destruct (v =? 0); [reflexivity |].
    replace (nd' - nd') with 0 by lia. reflexivity.
Qed.

(** [ParseFloat] on the text of an integer: the nearest [float64], and a
    range error only when that is an infinity. *)
Lemma ParseFloat_integer (s : string) (neg : bool) (v : Z) :
  integer_syntax s = Some (neg, v) ->
  let f := binary_normalize Float64.prec Float64.emax (cond_Zopp neg v) 0 neg in
  ParseFloat s
  = (f, if Float64.is_inf f then Some (rangeError "ParseFloat" s) else None).
Proof.
  intros H f. destruct (integer_syntax_readFloat s neg v H) as [Hsp Hrf].
  unfold ParseFloat. rewrite Hsp, Hrf. cbn [p_rest p_hex p_neg p_mantissa p_exp].
  unfold Float64.of_decimal. cbn [Z.leb Z.compare].
  change (10 ^ 0) with 1. rewrite Z.mul_1_r. fold f.
  destruct (Float64.is_inf f); reflexivity.
Qed.

(** *** The decimal representation of an integer *)

Lemma digit_char_digit (d : Z) :
  0 <= d <= 9 -> is_digit (digit_char d) = true /\ digit_val (digit_char d) = d.
Proof.
  intros H.
  assert (Hd : d = 0 \/ d = 1 \/ d = 2 \/ d = 3 \/ d = 4 \/ d = 5 \/ d = 6
               \/ d = 7 \/ d = 8 \/ d = 9) by lia.
  repeat (destruct Hd as [Hd | Hd]; [subst d; split; reflexivity |]).
  subst d; split; reflexivity.
Qed.

Lemma utoa_loop_value (fuel : nat) :
  forall (u : Z) (acc : string),
    0 <= u < 10 ^ Z.of_nat fuel ->
    exists k, 0 <= k /\
      forall a, digits_value a (utoa_loop fuel u acc)
                = digits_value (a * 10 ^ k + u) acc.
Proof.
  induction fuel as [| fuel IH]; intros u acc Hu.
  - exists 0. split; [lia |]. intros a. cbn [utoa_loop].
    change (10 ^ Z.of_nat 0) with 1 in Hu. f_equal. lia.
  - cbn [utoa_loop]. destruct (u <? 10) eqn:Hlt.
    + apply Z.ltb_lt in Hlt. exists 1. split; [lia |]. intros a.
      destruct (digit_char_digit u) as [Hd Hv]; [lia |].
      cbn [digits_value]. rewrite Hd, Hv. f_equal.
    + apply Z.ltb_ge in Hlt.
      assert (Hq : 0 <= u / 10 < 10 ^ Z.of_nat fuel).
      { split; [apply Z.div_pos; lia |].
        apply Z.div_lt_upper_bound; [lia |].
        rewrite Nat2Z.inj_succ, Z.pow_succ_r in Hu; lia. }
      destruct (IH (u / 10) (String (digit_char (u mod 10)) acc) Hq)
        as (k & Hk & Hval).
      exists (k + 1). split; [lia |]. intros a. rewrite Hval.
      destruct (digit_char_digit (u mod 10)) as [Hd Hv].
      { pose proof (Z.mod_pos_bound u 10). lia. }
      cbn [digits_value]. rewrite Hd, Hv. f_equal.
      rewrite Z.pow_add_r by lia. change (10 ^ 1) with 10.
      pose proof (Z.div_mod u 10). lia.
Qed.

Lemma utoa_loop_nonempty (fuel : nat) :
  forall (u : Z) (acc : string),
    (fuel <> O \/ acc <> EmptyString) -> utoa_loop fuel u acc <> EmptyString.
Proof.
  induction fuel as [| fuel IH]; intros u acc H.
  - cbn. destruct H as [H | H]; [congruence | exact H].
  - cbn [utoa_loop]. destruct (u <? 10); [discriminate |].
    apply IH. right. discriminate.
Qed.

Lemma utoa_value (u : Z) :
  0 <= u ->
  exists c rest, utoa u = String c rest
                 /\ is_digit c = true
                 /\ digits_value 0 (utoa u) = Some u.
Proof.
  intros Hu. unfold utoa.
  set (fuel := S (Z.to_nat (Z.log2 u))).
  assert (Hb : 0 <= u < 10 ^ Z.of_nat fuel).
  { split; [exact Hu |]. subst fuel.
    rewrite Nat2Z.inj_succ, Z2Nat.id by apply Z.log2_nonneg.
    destruct (Z.eq_dec u 0) as [-> | Hne].
    - cbn. lia.
    - pose proof (Z.log2_spec u ltac:(lia)) as [_ Hlt].
      assert (2 ^ Z.succ (Z.log2 u) <= 10 ^ Z.succ (Z.log2 u)).
      { apply Z.pow_le_mono_l. lia. }
      lia. }
  destruct (utoa_loop_value fuel u EmptyString Hb) as (k & Hk & Hval).
  assert (Hv : digits_value 0 (utoa_loop fuel u EmptyString) = Some u).
  { rewrite Hval. cbn [digits_value]. f_equal. }
  assert (Hf : fuel <> O) by (subst fuel; discriminate).
  pose proof (utoa_loop_nonempty fuel u EmptyString (or_introl Hf)) as Hne.
  destruct (utoa_loop fuel u EmptyString) as [| c rest] eqn:Hs; [congruence |].
  exists c, rest. split; [reflexivity |]. split; [| exact Hv].
  eapply digits_value_head. exact Hv.
Qed.

Lemma integer_syntax_Itoa (m : Z) :
  integer_syntax (Itoa m) = Some (m <? 0, Z.abs m).
Proof.
  unfold Itoa, integer_syntax.
  destruct (m <? 0) eqn:Hneg.
  - apply Z.ltb_lt in Hneg.
    destruct (utoa_value (- m)) as (c & rest & Hs & _ & Hv); [lia |].
    rewrite Hs in *. cbn [read_sign Ascii.eqb Bool.eqb]. rewrite Hv.
    replace (Z.abs m) with (- m) by lia. reflexivity.
  - apply Z.ltb_ge in Hneg.
    destruct (utoa_value m Hneg) as (c & rest & Hs & Hd & Hv).
    rewrite Hs in *.
    destruct (digit_char_facts c Hd) as (_ & _ & Hplus & Hminus & _).
    cbn [read_sign]. rewrite Hplus, Hminus, Hv.
    replace (Z.abs m) with m by lia. reflexivity.
Qed.

Lemma binary_normalize_signed (m : Z) :
  binary_normalize Float64.prec Float64.emax (cond_Zopp (m <? 0) (Z.abs m)) 0 (m <? 0)
  = Float64.of_Z m.
Proof. destruct m; reflexivity. Qed.

(** *** The sensor reader on integers *)

Lemma getCPUTemperature_readable (E : Env) (w : World) (content : string) :
  ReadFile E (instant w) cpuTempFilePath = inl content ->
  getCPUTemperature E w
  = Done (match ParseFloat (GoStrings.TrimSpace content) with
          | (_, Some err) =>
              (Float64.zero,
               Some (Errorf (Quote E) "failed to parse temperature value '%s': %w"
                       [VString (GoStrings.TrimSpace content); VError err]))
          | (tempVal, None) => (Float64.div tempVal (Float64.of_Z 1000), None)
          end) (observed w).
Proof.
  intros H. unfold getCPUTemperature. run_step. rewrite H.
  destruct (ParseFloat (GoStrings.TrimSpace content)) as [tempVal [err |]];
    reflexivity.
Qed.

Lemma Errorf_parse_wraps Q text err :
  Errorf Q "failed to parse temperature value '%s': %w" [VString text; VError err]
  = WrapError ("failed to parse temperature value '" ++ text ++ "': " ++ Error Q err)
      err.
Proof.
  unfold Errorf. cbn. rewrite append_empty_r. reflexivity.
Qed.

(** The errors of [ParseFloat] are [*strconv.NumError]s. *)
Lemma ParseFloat_error_is_NumError (s : string) (f : float64) (err : error) :
  ParseFloat s = (f, Some err) -> AsNumError err = true.
Proof.
  unfold ParseFloat. intros H.
  destruct (special s) as [[val n] |].
  - destruct (n =? String.length s)%nat; injection H as _ H; [discriminate H |].
    subst err. reflexivity.
  - destruct (readFloat s) as [p |].
    + destruct (p_rest p).
      * destruct (Float64.is_inf _); injection H as _ H; [| discriminate H].
        subst err. reflexivity.
      * injection H as _ H. subst err. reflexivity.
    + injection H as _ H. subst err. reflexivity.
Qed.

(** The reading on the decimal representation of any integer: a range error
    when the integer is too large for a [float64]. *)
Lemma getCPUTemperature_integer_any (E : Env) (w : World) (content : string) (m : Z) :
  ReadFile E (instant w) cpuTempFilePath = inl content ->
  GoStrings.TrimSpace content = Itoa m ->
  getCPUTemperature E w
  = Done (if Float64.is_inf (Float64.of_Z m)
          then (Float64.zero,
                Some (Errorf (Quote E) "failed to parse temperature value '%s': %w"
                        [VString (Itoa m); VError (rangeError "ParseFloat" (Itoa m))]))
          else (Float64.div (Float64.of_Z m) (Float64.of_Z 1000), None))
      (observed w).
Proof.
  intros Hread Htrim.
  rewrite (getCPUTemperature_readable E w content Hread), Htrim.
  rewrite (ParseFloat_integer (Itoa m) (m <? 0) (Z.abs m) (integer_syntax_Itoa m)).
  cbv zeta. rewrite binary_normalize_signed.
  destruct (Float64.is_inf (Float64.of_Z m)); reflexivity.
Qed.

(** C2: when the trimmed content of the sensor file is the decimal
    representation of a 64-bit integer [m], the reading succeeds with
    [float64(m) / 1000.0]: the nearest [float64] to [m], divided by 1000 in
    [float64] arithmetic. *)
Theorem getCPUTemperature_integer (E : Env) (w : World) (content : string) (m : Z) :
  ReadFile E (instant w) cpuTempFilePath = inl content ->
  GoStrings.TrimSpace content = Itoa m ->
  - 2 ^ 63 <= m < 2 ^ 63 ->
  getCPUTemperature E w
  = Done (Float64.div (Float64.of_Z m) (Float64.of_Z 1000), None) (observed w).
Proof.
  intros Hread Htrim Hm.
  rewrite (getCPUTemperature_integer_any E w content m Hread Htrim).
  rewrite (of_Z_int64_finite m Hm). reflexivity.
Qed.

Lemma getCPUTemperature_integer_witness :
  ReadFile env_cool (instant world0) cpuTempFilePath = inl ("42000" ++ LF)
  /\ GoStrings.TrimSpace ("42000" ++ LF) = Itoa 42000
  /\ - 2 ^ 63 <= 42000 < 2 ^ 63
  /\ getCPUTemperature env_cool world0
     = Done (Float64.div (Float64.of_Z 42000) (Float64.of_Z 1000), None)
         (observed world0).
Proof.
  split; [reflexivity |].
  split; [reflexivity |].
  split; [lia |].
  apply (getCPUTemperature_integer env_cool world0 ("42000" ++ LF) 42000);
    [reflexivity | reflexivity | lia].
Defined.

(** C3, as stated, fails: the content ["42000.5"] is not a valid integer,
    and the reading does not fail with a parse error. *)
Lemma fractional_reading_is_parsed :
  ReadFile env_fractional (instant world0) cpuTempFilePath = inl ("42000.5" ++ LF)
  /\ valid_integer (GoStrings.TrimSpace ("42000.5" ++ LF)) = false
  /\ fails_with_ParseError (getCPUTemperature env_fractional world0) = false
  /\ getCPUTemperature env_fractional world0
     = Done (Float64.div (Float64.of_decimal false 420005 (-1)) (Float64.of_Z 1000), None)
         (observed world0).
Proof. repeat split; vm_compute; reflexivity. Qed.

(** C3, amended: on a readable sensor file the reading fails with a parse
    error exactly when [strconv.ParseFloat] rejects the trimmed content; it
    never does on a valid integer, so that a parse error implies that the
    content is not a valid integer, but not the other way round. *)
Theorem getCPUTemperature_parse_error (E : Env) (w : World) (content : string) :
  ReadFile E (instant w) cpuTempFilePath = inl content ->
  (fails_with_ParseError (getCPUTemperature E w) = true
   <-> snd (ParseFloat (GoStrings.TrimSpace content)) <> None)
  /\ (fails_with_ParseError (getCPUTemperature E w) = true ->
      valid_integer (GoStrings.TrimSpace content) = false).
Proof.
  intros Hread.
  rewrite (getCPUTemperature_readable E w content Hread).
  set (text := GoStrings.TrimSpace content).
  assert (Hiff : fails_with_ParseError
                   (Done (match ParseFloat text with
                          | (_, Some err) =>
                              (Float64.zero,
                               Some (Errorf (Quote E)
                                       "failed to parse temperature value '%s': %w"
                                       [VString text; VError err]))
                          | (tempVal, None) =>
                              (Float64.div tempVal (Float64.of_Z 1000), None)
                          end) (observed w)) = true
                 <-> snd (ParseFloat text) <> None).
  { destruct (ParseFloat text) as [f [err |]] eqn:Hp; cbn [snd fails_with_ParseError].
    - rewrite Errorf_parse_wraps. cbn [AsNumError].
      rewrite (ParseFloat_error_is_NumError text f err Hp).
      split; [discriminate | reflexivity].
    - split; [discriminate | congruence]. }
  split; [exact Hiff |].
  intros Hfail. apply Hiff in Hfail.
  unfold valid_integer, parse_integer.
  destruct (integer_syntax text) as [[neg v] |] eqn:Hsyn; [| reflexivity].
  destruct ((- 2 ^ 63 <=? (if neg then - v else v))
            && ((if neg then - v else v) <? 2 ^ 63)) eqn:Hrange; [| reflexivity].
  exfalso. apply Hfail.
  rewrite (ParseFloat_integer text neg v Hsyn). cbv zeta.
  apply andb_prop in Hrange. destruct Hrange as [Hlo Hhi].
  apply Z.leb_le in Hlo. apply Z.ltb_lt in Hhi.
  assert (Habs : Z.abs (cond_Zopp neg v) < 2 ^ 64).
  { assert (2 ^ 64 = 2 * 2 ^ 63) by reflexivity.
    unfold cond_Zopp. destruct neg; lia. }
  rewrite (binary_normalize_int_finite (cond_Zopp neg v) neg Habs). reflexivity.
Qed.

Lemma getCPUTemperature_parse_error_witness :
  ReadFile env_fractional (instant world0) cpuTempFilePath = inl ("42000.5" ++ LF)
  /\ (fails_with_ParseError (getCPUTemperature env_fractional world0) = true
      <-> snd (ParseFloat (GoStrings.TrimSpace ("42000.5" ++ LF))) <> None)
  /\ (fails_with_ParseError (getCPUTemperature env_fractional world0) = true ->
      valid_integer (GoStrings.TrimSpace ("42000.5" ++ LF)) = false).
Proof.
  split; [reflexivity |].
  apply (getCPUTemperature_parse_error env_fractional world0 ("42000.5" ++ LF)).
  reflexivity.
Defined.

(** *** The scenarios of the specification, run on the model *)

(** Sensor content ["42000"], threshold 60: no alert, no mail. *)
Example scenario_cool :
  cycle_decision world0 (final_world (compareTemperatures env_cool config_pi world0))
  = NoAction
  /\ started (final_world (compareTemperatures env_cool config_pi world0)) = [].
Proof. split; vm_compute; reflexivity. Qed.

(** Sensor content ["65500"], threshold 60, a recipient: an alert, and a mail
    whose subject carries the reading and the hostname. *)
Example scenario_hot :
  cycle_decision world0 (final_world (compareTemperatures env_hot config_pi world0))
  = Alert
  /\ map Args (started (final_world (compareTemperatures env_hot config_pi world0)))
     = [[mailCommand; "-s";
         "Go-Raspi-Temp-Monitor: CPU Temp Alert (raspberrypi): 65.50°C";
         "pi@example.org"]].
Proof. split; vm_compute; reflexivity. Qed.

(** Test mode without a recipient: the error, and the sensor is not read. *)
Example scenario_test_without_recipient :
  sendTestEmail env_hot (with_sentinel (built_config env_hot args_plain)) world0
  = Done (Some errTestEmailRequiresRecipient) world0.
Proof. reflexivity. Qed.

(** The mail command hangs: the cycle logs the failure and the loop goes on
    waiting for the next tick. *)
Example scenario_mail_timeout :
  terminated (main env_hot_slow_mail args_pi [Tick; Tick] world0) = false
  /\ List.length (started (final_world (main env_hot_slow_mail args_pi [Tick; Tick] world0)))
     = 3%nat.
Proof. split; vm_compute; reflexivity. Qed.

(** A missing sensor file is an I/O error, not a parse error. *)
Example scenario_no_sensor :
  exists err,
    getCPUTemperature env_no_sensor world0 = Done (Float64.zero, Some err) (observed world0)
    /\ AsPathError err = true /\ AsNumError err = false.
Proof. eexists. split; [vm_compute; reflexivity |]. split; reflexivity. Qed.

(** [1000.0] is an integer of [float64]: [1000 = 8796093022208000 * 2^-43]. *)
Example thousand_exact :
  Float64.of_Z 1000 = S754_finite false 8796093022208000 (-43)
  /\ 8796093022208000 = 1000 * 2 ^ 43.
Proof. split; reflexivity. Qed.

(** What [ParseFloat] accepts beyond integers, and what it rejects. *)
Example ParseFloat_accepts :
  map (fun s => match snd (ParseFloat s) with None => true | Some _ => false end)
    ["42000"; "-7"; "+5"; "007"; "42000.5"; "4.2e4"; "1_000"; "0x1p-2"; "inf"; "NaN";
     ""; "-"; "abc"; "42000 5"; "1e400"; "0x1"; "1__0"]
  = [true; true; true; true; true; true; true; true; true; true;
     false; false; false; false; false; false; false].
Proof. vm_compute. reflexivity. Qed.

(** ** Further properties of the program *)

(** *** One evaluation cycle, case by case *)

Lemma compareTemperatures_read_failed (E : Env) (cfg : config) (w w1 : World)
  (t : float64) (err : error) :
  getCPUTemperature E w = Done (t, Some err) w1 ->
  compareTemperatures E cfg w
  = Done tt (mkWorld (instant w1)
               (output w1 ++ [Log (Sprintf (Quote E) "Error reading CPU temperature: %v"
                                     [VError err])])
               (started w1)).
Proof.
  intros H. unfold compareTemperatures. unfold bind at 1. rewrite H. reflexivity.
Qed.

Lemma compareTemperatures_below (E : Env) (cfg : config) (w w1 : World)
  (reading : float64) :
  getCPUTemperature E w = Done (reading, None) w1 ->
  Float64.gt reading (TempThreshold cfg) = false ->
  compareTemperatures E cfg w
  = Done tt (mkWorld (instant w1)
               (output w1 ++ [Log (Sprintf (Quote E) "Current CPU temperature: %.2f°C"
                                     [VFloat reading])])
               (started w1)).
Proof.
  intros H Hgt. unfold compareTemperatures. unfold bind at 1. rewrite H.
  rewrite Hgt. reflexivity.
Qed.

Lemma compareTemperatures_alert_unsent (E : Env) (cfg : config) (w w1 : World)
  (reading : float64) :
  getCPUTemperature E w = Done (reading, None) w1 ->
  Float64.gt reading (TempThreshold cfg) = true ->
  EmailRecipient cfg = noEmailRecipient ->
  compareTemperatures E cfg w
  = Done tt
      (mkWorld (instant w1)
         (output w1
          ++ [Log (Sprintf (Quote E) "Current CPU temperature: %.2f°C" [VFloat reading]);
              Log (Sprintf (Quote E)
                     "ALERT: Temperature %.2f°C exceeds threshold of %.2f°C"
                     [VFloat reading; VFloat (TempThreshold cfg)]);
              Log "No recipient configured: no email notification sent"])
         (started w1)).
Proof.
  intros H Hgt Hr. unfold compareTemperatures. unfold bind at 1. rewrite H.
  rewrite Hgt, Hr, String.eqb_refl. run_step.
  rewrite <- !app_assoc. reflexivity.
Qed.

Lemma compareTemperatures_alert_sent (E : Env) (cfg : config) (w w1 : World)
  (reading : float64) :
  getCPUTemperature E w = Done (reading, None) w1 ->
  Float64.gt reading (TempThreshold cfg) = true ->
  EmailRecipient cfg <> noEmailRecipient ->
  exists w',
    compareTemperatures E cfg w = Done tt w'
    /\ started w'
       = (started w1
          ++ [alert_cmd cfg (alert_subject E cfg reading)
                (alert_body E cfg reading (Now_RFC1123 E (instant w1)))])%list
    /\ instant w' = S (S (instant w1))
    /\ exists lines,
         output w'
         = (output w1
            ++ Log (Sprintf (Quote E) "Current CPU temperature: %.2f°C"
                      [VFloat reading])
            :: Log (Sprintf (Quote E)
                      "ALERT: Temperature %.2f°C exceeds threshold of %.2f°C"
                      [VFloat reading; VFloat (TempThreshold cfg)])
            :: Log "Sending email notification"
            :: Log (Sprintf (Quote E) "Attempting to send email to %s"
                      [VString (EmailRecipient cfg)])
            :: map Log lines)%list.
Proof.
  intros H Hgt Hr.
  remember (compareTemperatures E cfg w) as out eqn:Hout.
  unfold compareTemperatures in Hout. unfold bind at 1 in Hout.
  rewrite H, Hgt in Hout.
  pose proof Hr as Hr'. apply String.eqb_neq in Hr'. rewrite Hr' in Hout.
  fold (alert_subject E cfg reading) in Hout.
  unfold bind at 1 in Hout. unfold log_Printf at 1 in Hout. unfold emit at 1 in Hout.
  unfold bind at 1 in Hout. unfold log_Printf at 1 in Hout. unfold emit at 1 in Hout.
  unfold bind at 1 in Hout. unfold log_Println at 1 in Hout. unfold emit at 1 in Hout.
  unfold bind at 1 in Hout. unfold observe at 1 in Hout.
  cbn [instant output started] in Hout.
  fold (alert_body E cfg reading (Now_RFC1123 E (instant w1))) in Hout.
  unfold bind in Hout.
  unfold sendEmail in Hout. rewrite Hr' in Hout.
  rewrite !ReplaceAll_semicolon in Hout.
  fold (mail_cmd (delete_semicolons (alert_subject E cfg reading))
          (delete_semicolons (EmailRecipient cfg))
          (alert_body E cfg reading (Now_RFC1123 E (instant w1)))) in Hout.
  fold (alert_cmd cfg (alert_subject E cfg reading)
          (alert_body E cfg reading (Now_RFC1123 E (instant w1)))) in Hout.
  run_step_in Hout. unfold Run in Hout. cbn [instant output started] in Hout.
  destruct (run_result _ _) as [[[err |] stderr] ctxErr].
  - destruct (errors_Is ctxErr DeadlineExceeded); run_step_in Hout;
      subst out; eexists; (split; [reflexivity |]); cbn [started instant output];
      (split; [reflexivity |]); (split; [reflexivity |]);
      eexists [_; _]; rewrite <- !app_assoc; reflexivity.
  - run_step_in Hout. subst out. eexists. split; [reflexivity |].
    cbn [started instant output]. split; [reflexivity |]. split; [reflexivity |].
    eexists [_]. rewrite <- !app_assoc. reflexivity.
Qed.

(** *** Sanitization *)

Lemma delete_semicolons_app (a b : string) :
  delete_semicolons (a ++ b) = delete_semicolons a ++ delete_semicolons b.
Proof.
  induction a as [| c a IH]; [reflexivity |].
  cbn. destruct (Ascii.eqb c ";"); cbn; rewrite IH; reflexivity.
Qed.

Lemma has_semicolon_app (a b : string) :
  has_semicolon (a ++ b) = has_semicolon a || has_semicolon b.
Proof.
  induction a as [| c a IH]; [reflexivity |].
  cbn. rewrite IH. apply orb_assoc.
Qed.

Lemma delete_semicolons_id (s : string) :
  has_semicolon s = false -> delete_semicolons s = s.
Proof.
  induction s as [| c s IH]; [reflexivity |].
  cbn. destruct (Ascii.eqb c ";"); [discriminate |].
  cbn. intros H. rewrite (IH H). reflexivity.
Qed.

Lemma delete_semicolons_length (s : string) :
  (String.length (delete_semicolons s) <= String.length s)%nat.
Proof.
  induction s as [| c s IH]; [apply Nat.le_refl |].
  cbn. destruct (Ascii.eqb c ";"); cbn; lia.
Qed.

Lemma digits_no_semicolon (s : string) (acc v : Z) :
  digits_value acc s = Some v -> has_semicolon s = false.
Proof.
  revert acc. induction s as [| c s IH]; intros acc H; [reflexivity |].
  cbn in H. destruct (Strconv.is_digit c) eqn:Hc; [| discriminate H].
  cbn. rewrite (IH _ H), orb_false_r.
  destruct c as [[] [] [] [] [] [] [] []]; try discriminate Hc; reflexivity.
Qed.

Lemma utoa_no_semicolon (u : Z) : 0 <= u -> has_semicolon (Strconv.utoa u) = false.
Proof.
  intros Hu. destruct (utoa_value u Hu) as (c & rest & _ & _ & Hv).
  exact (digits_no_semicolon _ _ _ Hv).
Qed.

Lemma digit_char_no_semicolon (d : Z) :
  0 <= d <= 9 -> Ascii.eqb (Strconv.digit_char d) ";" = false.
Proof.
  intros H.
  assert (Hd : d = 0 \/ d = 1 \/ d = 2 \/ d = 3 \/ d = 4 \/ d = 5 \/ d = 6
               \/ d = 7 \/ d = 8 \/ d = 9) by lia.
  repeat (destruct Hd as [Hd | Hd]; [subst d; reflexivity |]).
  subst d; reflexivity.
Qed.

Lemma round_half_even_nonneg (n d : Z) : 0 <= n -> 0 < d -> 0 <= round_half_even n d.
Proof.
  intros Hn Hd. unfold round_half_even.
  assert (0 <= n / d) by (apply Z.div_pos; lia).
  destruct (2 * (n mod d) ?= d); [destruct (Z.even (n / d)) | |]; lia.
Qed.

(** A reading printed with [%.2f] has no [;]. *)
Lemma format_f2_no_semicolon (x : float64) : has_semicolon (format_f2 x) = false.
Proof.
  destruct x as [s | s | | s m e]; try (destruct s; reflexivity); [reflexivity |].
  unfold format_f2.
  set (q := if 0 <=? e then Z.pos m * 2 ^ e * 100
            else round_half_even (Z.pos m * 100) (2 ^ (- e))).
  assert (Hq : 0 <= q).
  { subst q. destruct (0 <=? e) eqn:He.
    - apply Z.leb_le in He.
      assert (0 < 2 ^ e) by (apply Z.pow_pos_nonneg; lia). lia.
    - apply Z.leb_gt in He. apply round_half_even_nonneg; [lia |].
      apply Z.pow_pos_nonneg; lia. }
  assert (Hh : 0 <= q / 100) by (apply Z.div_pos; lia).
  pose proof (Z.mod_pos_bound q 100 ltac:(lia)) as Hm.
  assert (Hd1 : 0 <= q mod 100 / 10 <= 9).
  { split; [apply Z.div_pos; lia |].
    assert (q mod 100 / 10 < 10) by (apply Z.div_lt_upper_bound; lia). lia. }
  pose proof (Z.mod_pos_bound (q mod 100) 10 ltac:(lia)) as Hd2.
  rewrite !has_semicolon_app. cbn [has_semicolon].
  rewrite (utoa_no_semicolon _ Hh).
  rewrite (digit_char_no_semicolon _ Hd1).
  rewrite (digit_char_no_semicolon (q mod 100 mod 10)) by lia.
  destruct s; reflexivity.
Qed.

Lemma alert_subject_text (E : Env) (cfg : config) (reading : float64) :
  alert_subject E cfg reading
  = "Go-Raspi-Temp-Monitor: CPU Temp Alert (" ++ Hostname cfg ++ "): "
    ++ format_f2 reading ++ "°C".
Proof.
  reflexivity.
Qed.

(** The subject that reaches the mail command: only the hostname can lose
    characters. *)
Lemma alert_subject_sanitized (E : Env) (cfg : config) (reading : float64) :
  delete_semicolons (alert_subject E cfg reading)
  = "Go-Raspi-Temp-Monitor: CPU Temp Alert (" ++ delete_semicolons (Hostname cfg)
    ++ "): " ++ format_f2 reading ++ "°C".
Proof.
  rewrite alert_subject_text.
  change ("Go-Raspi-Temp-Monitor: CPU Temp Alert (" ++ Hostname cfg ++ "): "
          ++ format_f2 reading ++ "°C")
    with ("Go-Raspi-Temp-Monitor: CPU Temp Alert ("
          ++ (Hostname cfg ++ ("): " ++ (format_f2 reading ++ "°C")))).
  rewrite !delete_semicolons_app.
  rewrite (delete_semicolons_id (format_f2 reading) (format_f2_no_semicolon reading)).
  reflexivity.
Qed.

(** *** What a cycle does in each case *)

Lemma Sprintf_read_error Q err :
  Sprintf Q "Error reading CPU temperature: %v" [VError err]
  = "Error reading CPU temperature: " ++ Error Q err.
Proof. unfold Sprintf. cbn. rewrite append_empty_r. reflexivity. Qed.

(** X1: when the reading fails, the cycle is skipped: whatever the threshold
    and the recipient, it logs the error of the reading and nothing else,
    decides no alert and starts no command. *)
Theorem cycle_skipped_when_reading_fails (E : Env) (cfg : config) (w w1 : World)
  (t : float64) (err : error) :
  getCPUTemperature E w = Done (t, Some err) w1 ->
  exists w',
    compareTemperatures E cfg w = Done tt w'
    /\ output w'
       = (output w
          ++ [Log ("Error reading CPU temperature: " ++ Error (Quote E) err)])%list
    /\ started w' = started w
    /\ cycle_decision w w' = NoAction.
Proof.
  intros H. pose proof (getCPUTemperature_inv E w w1 _ H) as Hw1. subst w1.
  rewrite (compareTemperatures_read_failed E cfg w _ t err H).
  eexists. split; [reflexivity |].
  cbn [output started observed]. rewrite Sprintf_read_error.
  split; [reflexivity |]. split; [reflexivity |].
  unfold cycle_decision. cbn [output].
  rewrite skipn_length_app. reflexivity.
Qed.

Lemma cycle_skipped_when_reading_fails_witness :
  exists err,
    getCPUTemperature env_no_sensor world0
    = Done (Float64.zero, Some err) (observed world0)
    /\ exists w',
        compareTemperatures env_no_sensor config_pi world0 = Done tt w'
        /\ output w'
           = (output world0
              ++ [Log ("Error reading CPU temperature: "
                       ++ Error (Quote env_no_sensor) err)])%list
        /\ started w' = started world0
        /\ cycle_decision world0 w' = NoAction.
Proof.
  eexists.
  assert (H : getCPUTemperature env_no_sensor world0
              = Done (Float64.zero, Some _) (observed world0))
    by (vm_compute; reflexivity).
  split; [exact H |].
  exact (cycle_skipped_when_reading_fails env_no_sensor config_pi world0
           (observed world0) Float64.zero _ H).
Defined.

(** X2: an alert without a recipient is logged and not sent: the cycle
    decides [Alert], logs that no recipient is configured and starts no
    command. *)
Theorem alert_without_recipient_not_sent (E : Env) (cfg : config) (w w1 : World)
  (reading : float64) :
  getCPUTemperature E w = Done (reading, None) w1 ->
  Float64.gt reading (TempThreshold cfg) = true ->
  EmailRecipient cfg = noEmailRecipient ->
  exists w',
    compareTemperatures E cfg w = Done tt w'
    /\ cycle_decision w w' = Alert
    /\ started w' = started w
    /\ In (Log "No recipient configured: no email notification sent") (output w').
Proof.
  intros H Hgt Hr. pose proof (getCPUTemperature_inv E w w1 _ H) as Hw1. subst w1.
  rewrite (compareTemperatures_alert_unsent E cfg w _ reading H Hgt Hr).
  eexists. split; [reflexivity |].
  cbn [output started observed]. split; [| split; [reflexivity |]].
  - unfold cycle_decision. cbn [output]. rewrite skipn_length_app.
    cbn [existsb alert_logged]. rewrite current_line_not_alert, alert_line_is_alert.
    reflexivity.
  - apply in_or_app. right. right. right. left. reflexivity.
Qed.

Lemma alert_without_recipient_not_sent_witness :
  getCPUTemperature env_hot world0 = Done (reading_65, None) (observed world0)
  /\ Float64.gt reading_65 (TempThreshold (example_config noEmailRecipient)) = true
  /\ EmailRecipient (example_config noEmailRecipient) = noEmailRecipient
  /\ exists w',
      compareTemperatures env_hot (example_config noEmailRecipient) world0 = Done tt w'
      /\ cycle_decision world0 w' = Alert
      /\ started w' = started world0
      /\ In (Log "No recipient configured: no email notification sent") (output w').
Proof.
  assert (H : getCPUTemperature env_hot world0
              = Done (reading_65, None) (observed world0))
    by (vm_compute; reflexivity).
  split; [exact H |]. split; [reflexivity |]. split; [reflexivity |].
  apply (alert_without_recipient_not_sent env_hot (example_config noEmailRecipient)
           world0 (observed world0) reading_65 H); reflexivity.
Defined.

Lemma alert_body_text (E : Env) (cfg : config) (reading : float64) (now : string) :
  alert_body E cfg reading now
  = ("Warning: CPU temperature on " ++ Hostname cfg)
    ++ (" has exceeded threshold" ++ LF ++ "Threshold temp: ")
    ++ format_f2 (TempThreshold cfg)
    ++ ("°C" ++ LF ++ "Current temp: ") ++ format_f2 reading
    ++ ("°C" ++ LF ++ "Timestamp: ") ++ now.
Proof.
  unfold alert_body, Sprintf. cbn -[format_f2]. rewrite append_empty_r.
  reflexivity.
Qed.

(** X3: an alert with a recipient starts exactly one command, whatever
    becomes of it: the mail program with [-s], the subject (application name,
    hostname without [;], reading with two decimals), and the recipient
    without [;], under the 15 s timeout; the body on its standard input
    carries the threshold, the reading and the timestamp. *)
Theorem alert_with_recipient_sends_one_mail (E : Env) (cfg : config) (w w1 : World)
  (reading : float64) :
  getCPUTemperature E w = Done (reading, None) w1 ->
  Float64.gt reading (TempThreshold cfg) = true ->
  EmailRecipient cfg <> noEmailRecipient ->
  exists w' cmd,
    compareTemperatures E cfg w = Done tt w'
    /\ cycle_decision w w' = Alert
    /\ started w' = (started w ++ [cmd])%list
    /\ Path cmd = mailCommand
    /\ Args cmd
       = [mailCommand; "-s";
          "Go-Raspi-Temp-Monitor: CPU Temp Alert (" ++ delete_semicolons (Hostname cfg)
          ++ "): " ++ format_f2 reading ++ "°C";
          delete_semicolons (EmailRecipient cfg)]
    /\ Timeout cmd = 15 * GoTime.Second
    /\ Contains (Stdin cmd) (format_f2 (TempThreshold cfg))
    /\ Contains (Stdin cmd) (format_f2 reading)
    /\ Contains (Stdin cmd) (Now_RFC1123 E (instant w1)).
Proof.
  intros H Hgt Hr. pose proof (getCPUTemperature_inv E w w1 _ H) as Hw1.
  destruct (compareTemperatures_alert_sent E cfg w w1 reading H Hgt Hr)
    as (w' & Hrun & Hst & _ & lines & Hout).
  exists w', (alert_cmd cfg (alert_subject E cfg reading)
                (alert_body E cfg reading (Now_RFC1123 E (instant w1)))).
  split; [exact Hrun |]. split.
  { unfold cycle_decision. rewrite Hout. subst w1. cbn [observed output].
    rewrite skipn_length_app. cbn [existsb alert_logged].
    rewrite current_line_not_alert, alert_line_is_alert. reflexivity. }
  split; [rewrite Hst; subst w1; reflexivity |].
  split; [reflexivity |].
  split.
  { unfold alert_cmd, mail_cmd. cbn [Args].
    rewrite alert_subject_sanitized. reflexivity. }
  split; [reflexivity |].
  unfold alert_cmd, mail_cmd. cbn [Stdin]. rewrite alert_body_text.
  repeat split.
  - exists (("Warning: CPU temperature on " ++ Hostname cfg)
            ++ (" has exceeded threshold" ++ LF ++ "Threshold temp: ")),
           (("°C" ++ LF ++ "Current temp: ") ++ format_f2 reading
            ++ ("°C" ++ LF ++ "Timestamp: ") ++ Now_RFC1123 E (instant w1)).
    rewrite !append_assoc. reflexivity.
  - exists (("Warning: CPU temperature on " ++ Hostname cfg)
            ++ (" has exceeded threshold" ++ LF ++ "Threshold temp: ")
            ++ format_f2 (TempThreshold cfg) ++ ("°C" ++ LF ++ "Current temp: ")),
           (("°C" ++ LF ++ "Timestamp: ") ++ Now_RFC1123 E (instant w1)).
    rewrite !append_assoc. reflexivity.
  - exists (("Warning: CPU temperature on " ++ Hostname cfg)
            ++ (" has exceeded threshold" ++ LF ++ "Threshold temp: ")
            ++ format_f2 (TempThreshold cfg) ++ ("°C" ++ LF ++ "Current temp: ")
            ++ format_f2 reading ++ ("°C" ++ LF ++ "Timestamp: ")), "".
    rewrite !append_assoc, append_empty_r. reflexivity.
Qed.

Lemma alert_with_recipient_sends_one_mail_witness :
  getCPUTemperature env_hot world0 = Done (reading_65, None) (observed world0)
  /\ Float64.gt reading_65 (TempThreshold config_pi) = true
  /\ EmailRecipient config_pi <> noEmailRecipient
  /\ exists w' cmd,
      compareTemperatures env_hot config_pi world0 = Done tt w'
      /\ cycle_decision world0 w' = Alert
      /\ started w' = (started world0 ++ [cmd])%list
      /\ Path cmd = mailCommand
      /\ Args cmd
         = [mailCommand; "-s";
            "Go-Raspi-Temp-Monitor: CPU Temp Alert ("
            ++ delete_semicolons (Hostname config_pi)
            ++ "): " ++ format_f2 reading_65 ++ "°C";
            delete_semicolons (EmailRecipient config_pi)]
      /\ Timeout cmd = 15 * GoTime.Second
      /\ Contains (Stdin cmd) (format_f2 (TempThreshold config_pi))
      /\ Contains (Stdin cmd) (format_f2 reading_65)
      /\ Contains (Stdin cmd) (Now_RFC1123 env_hot (instant (observed world0))).
Proof.
  assert (H : getCPUTemperature env_hot world0
              = Done (reading_65, None) (observed world0))
    by (vm_compute; reflexivity).
  split; [exact H |]. split; [reflexivity |]. split; [discriminate |].
  apply (alert_with_recipient_sends_one_mail env_hot config_pi world0
           (observed world0) reading_65 H); [reflexivity | discriminate].
Defined.

(** *** What the whole program starts *)

Lemma sent_by_is_mail (cfg : config) (cmd : Cmd) :
  sent_by cfg cmd -> is_mail_for (EmailRecipient cfg) cmd.
Proof.
  intros (subject & body & ->). unfold is_mail_for, alert_cmd, mail_cmd.
  cbn [Path Timeout Args]. repeat split.
  exists (delete_semicolons subject). split; [reflexivity |].
  apply delete_semicolons_clean.
Qed.

(** The commands and the lines that a cycle adds. *)
Lemma compareTemperatures_adds (E : Env) (cfg : config) (w : World) :
  exists w' cmds lines,
    compareTemperatures E cfg w = Done tt w'
    /\ started w' = (started w ++ cmds)%list
    /\ output w' = (output w ++ lines)%list
    /\ (List.length cmds <= 1)%nat
    /\ Forall (sent_by cfg) cmds
    /\ (EmailRecipient cfg = noEmailRecipient -> cmds = []).
Proof.
  destruct (getCPUTemperature_world E w) as ([reading [err |]] & Hread).
  - rewrite (compareTemperatures_read_failed E cfg w _ reading err Hread).
    eexists _, [], [_]. cbn [started output observed].
    rewrite app_nil_r. repeat split; auto.
  - destruct (Float64.gt reading (TempThreshold cfg)) eqn:Hgt.
    + destruct (String.eqb (EmailRecipient cfg) noEmailRecipient) eqn:Hr.
      * apply String.eqb_eq in Hr.
        rewrite (compareTemperatures_alert_unsent E cfg w _ reading Hread Hgt Hr).
        eexists _, [], [_; _; _]. cbn [started output observed].
        rewrite app_nil_r. repeat split; auto.
      * apply String.eqb_neq in Hr.
        destruct (compareTemperatures_alert_sent E cfg w _ reading Hread Hgt Hr)
          as (w' & Hrun & Hst & _ & lines & Hout).
        eexists w', [_], _.
        split; [exact Hrun |]. split; [exact Hst |]. split; [exact Hout |].
        split; [apply Nat.le_refl |]. split.
        -- constructor; [| constructor]. eexists _, _. reflexivity.
        -- intros Hs. contradiction.
    + rewrite (compareTemperatures_below E cfg w _ reading Hread Hgt).
      eexists _, [], [_]. cbn [started output observed].
      rewrite app_nil_r. repeat split; auto.
Qed.

(** The commands and the lines that the loop adds, over the events it
    receives. *)
Lemma tempCheckLoop_for_adds (E : Env) (cfg : config) (events : list Event) :
  forall w,
  exists cmds lines,
    started (final_world (tempCheckLoop_for E cfg events w)) = (started w ++ cmds)%list
    /\ output (final_world (tempCheckLoop_for E cfg events w)) = (output w ++ lines)%list
    /\ (List.length cmds <= ticks_handled events)%nat
    /\ Forall (sent_by cfg) cmds
    /\ (EmailRecipient cfg = noEmailRecipient -> cmds = []).
Proof.
  induction events as [| [| sig] rest IH]; intros w.
  - exists [], []. cbn. rewrite !app_nil_r. repeat split; auto.
  - cbn [tempCheckLoop_for ticks_handled].
    destruct (compareTemperatures_adds E cfg w)
      as (w1 & cmds1 & lines1 & Hrun & Hst1 & Hout1 & Hlen1 & Hall1 & Hnone1).
    unfold bind. rewrite Hrun.
    destruct (IH w1) as (cmds2 & lines2 & Hst2 & Hout2 & Hlen2 & Hall2 & Hnone2).
    exists (cmds1 ++ cmds2)%list, (lines1 ++ lines2)%list.
    rewrite Hst2, Hout2, Hst1, Hout1, <- !app_assoc.
    split; [reflexivity |]. split; [reflexivity |].
    split; [rewrite length_app; lia |].
    split; [apply Forall_app; split; assumption |].
    intros Hs. rewrite (Hnone1 Hs), (Hnone2 Hs). reflexivity.
  - eexists [], [_; _; _]. cbn [tempCheckLoop_for ticks_handled].
    unfold goodbye. run_step. rewrite app_nil_r, <- !app_assoc.
    split; [reflexivity |]. split; [reflexivity |].
    split; [apply Nat.le_refl |]. split; [constructor | reflexivity].
Qed.

Lemma tempCheckLoop_adds (E : Env) (cfg : config) (events : list Event) (w : World) :
  exists cmds lines,
    started (final_world (tempCheckLoop E cfg events w)) = (started w ++ cmds)%list
    /\ output (final_world (tempCheckLoop E cfg events w)) = (output w ++ lines)%list
    /\ (List.length cmds <= ticks_handled events)%nat
    /\ Forall (sent_by cfg) cmds
    /\ (EmailRecipient cfg = noEmailRecipient -> cmds = []).
Proof.
  unfold tempCheckLoop, NewTicker.
  destruct (CheckInterval cfg <=? 0).
  - exists [], []. cbn. rewrite !app_nil_r. repeat split; auto. lia.
  - unfold bind, ret. apply tempCheckLoop_for_adds.
Qed.

(** *** The startup of [main] *)

Lemma validateMailCommand_check (E : Env) (w : World) :
  validateMailCommand E mailCommand w = Done (mail_command_check E) w.
Proof.
  destruct (validateMailCommand_pure E mailCommand) as (r & Hr).
  unfold mail_command_check. rewrite (Hr world0). apply Hr.
Qed.

Lemma showConfiguration_run (E : Env) (cfg : config) (w : World) :
  showConfiguration E cfg w
  = Done (with_sentinel cfg)
      (mkWorld (instant w) (output w ++ config_lines E cfg) (started w)).
Proof.
  unfold showConfiguration, config_lines, with_sentinel. run_step.
  destruct cfg as [recipient threshold interval test host].
  cbn [EmailRecipient TempThreshold CheckInterval TestEmailFlag Hostname].
  unfold Sprintf.
  destruct (String.eqb recipient ""); cbn -[format_f2 GoTime.Duration_String];
    rewrite <- !app_assoc; cbn -[format_f2 GoTime.Duration_String]; reflexivity.
Qed.

(** [main], by the verdict on the mail command and the test flag. *)
Lemma main_unfold (E : Env) (args : CommandLine) (events : list Event) (w : World) :
  main E args events w
  = match mail_command_check E with
    | Some e =>
        Exited 0
          (mkWorld (instant w)
             (output w ++ [hello_line; Log (Error (Quote E) e); goodbye_line])
             (started w))
    | None =>
        if TestEmailFlag (parseFlags args) then
          (err <- sendTestEmail E (with_sentinel (built_config E args)) ;;
           match err with
           | Some err => log_Printf E "Error sending test email: %v" [VError err]
           | None => ret tt
           end ;;
           goodbye E) (configured E args w)
        else
          (log_Println E [VString appPrefix; VString "Monitoring"] ;;
           compareTemperatures E (with_sentinel (built_config E args)) ;;
           tempCheckLoop E (with_sentinel (built_config E args)) events)
            (configured E args w)
    end.
Proof.
  unfold main.
  unfold bind at 1. unfold hello, log_Println at 1. unfold emit at 1.
  unfold bind at 1. unfold getHostname, ret at 1.
  fold (built_config E args).
  unfold bind at 1. rewrite validateMailCommand_check.
  destruct (mail_command_check E) as [e |].
  - unfold goodbye. run_step. unfold Sprintf. cbn. rewrite append_empty_r.
    rewrite <- !app_assoc. reflexivity.
  - unfold bind at 1. unfold ret at 1.
    unfold bind at 1. unfold log_Println at 1. unfold emit at 1.
    unfold bind at 1. rewrite showConfiguration_run.
    cbn [instant output started].
    replace (mkWorld (instant w)
               (((output w
                  ++ [Log (Sprintln (Quote E)
                             [VString appPrefix; VString "Starting"; VString appName;
                              VString appVersion])])
                 ++ [Log (Sprintln (Quote E)
                            [VString appPrefix; VString "Configuration"])])
                ++ config_lines E (built_config E args)) (started w))
      with (configured E args w)
      by (unfold configured; rewrite <- !app_assoc; reflexivity).
    change (TestEmailFlag (with_sentinel (built_config E args)))
      with (TestEmailFlag (parseFlags args)).
    destruct (TestEmailFlag (parseFlags args)).
    + destruct (sendTestEmail_returns E (with_sentinel (built_config E args))
                  (configured E args w)) as (r & w2 & Hsend).
      unfold bind. rewrite Hsend. destruct r; reflexivity.
    + unfold bind at 1. unfold ret at 1. reflexivity.
Qed.

Lemma sendTestEmail_without_recipient (E : Env) (cfg : config) (w : World) :
  EmailRecipient cfg = noEmailRecipient ->
  sendTestEmail E cfg w = Done (Some errTestEmailRequiresRecipient) w.
Proof. intros H. unfold sendTestEmail. rewrite H. reflexivity. Qed.

(** The commands and the lines that [sendTestEmail] adds. *)
Lemma sendTestEmail_adds (E : Env) (cfg : config) (w : World) :
  exists r w' cmds lines,
    sendTestEmail E cfg w = Done r w'
    /\ started w' = (started w ++ cmds)%list
    /\ output w' = (output w ++ lines)%list
    /\ (List.length cmds <= 1)%nat
    /\ Forall (sent_by cfg) cmds
    /\ (EmailRecipient cfg = noEmailRecipient -> cmds = []).
Proof.
  destruct (String.eqb (EmailRecipient cfg) noEmailRecipient) eqn:Hr.
  - apply String.eqb_eq in Hr. rewrite (sendTestEmail_without_recipient E cfg w Hr).
    eexists _, _, [], []. rewrite !app_nil_r. repeat split; auto.
  - pose proof Hr as Hr'. apply String.eqb_neq in Hr'.
    unfold sendTestEmail. rewrite Hr.
    destruct (getCPUTemperature_world E w) as ([reading [err |]] & Hread);
      unfold bind at 1; rewrite Hread.
    + eexists _, _, [], []. cbn [ret started output observed].
      rewrite !app_nil_r. repeat split; auto.
    + unfold bind at 1. unfold observe at 1. unfold bind.
      match goal with
      | |- context [sendEmail E cfg ?s ?b ?w0] =>
          destruct (sendEmail_returns E cfg s b w0 Hr')
            as (w2 & Hsend & Hst & _ & lines & Hout)
      end.
      rewrite Hsend. cbn [started output observed instant] in Hst, Hout.
      destruct (send_error _ _); eexists _, w2, [_], (map Log lines);
        (split; [reflexivity |]); (split; [exact Hst |]); (split; [exact Hout |]);
        (split; [apply Nat.le_refl |]);
        (split; [constructor; [eexists _, _; reflexivity | constructor]
                | intros Hs; contradiction]).
Qed.

(** The commands that a run of [main] adds. *)
Lemma main_adds (E : Env) (args : CommandLine) (events : list Event) (w : World) :
  exists cmds,
    started (final_world (main E args events w)) = (started w ++ cmds)%list
    /\ (List.length cmds <= S (ticks_handled events))%nat
    /\ Forall (sent_by (with_sentinel (built_config E args))) cmds
    /\ (EmailRecipient (with_sentinel (built_config E args)) = noEmailRecipient ->
        cmds = []).
Proof.
  rewrite main_unfold.
  destruct (mail_command_check E) as [e |].
  { exists []. cbn. rewrite app_nil_r. repeat split; auto. lia. }
  set (cfg := with_sentinel (built_config E args)).
  destruct (TestEmailFlag (parseFlags args)).
  - destruct (sendTestEmail_adds E cfg (configured E args w))
      as (r & w' & cmds & lines & Hrun & Hst & _ & Hlen & Hall & Hnone).
    exists cmds. unfold bind. rewrite Hrun.
    destruct r as [err |]; unfold goodbye; run_step; rewrite Hst;
      (split; [reflexivity |]); (split; [lia |]); split; assumption.
  - unfold bind at 1. unfold log_Println at 1. unfold emit at 1.
    destruct (compareTemperatures_adds E cfg
                (mkWorld (instant (configured E args w))
                   (output (configured E args w)
                    ++ [Log (Sprintln (Quote E)
                               [VString appPrefix; VString "Monitoring"])])
                   (started (configured E args w))))
      as (w1 & cmds1 & lines1 & Hrun & Hst1 & _ & Hlen1 & Hall1 & Hnone1).
    unfold bind. rewrite Hrun.
    destruct (tempCheckLoop_adds E cfg events w1)
      as (cmds2 & lines2 & Hst2 & _ & Hlen2 & Hall2 & Hnone2).
    exists (cmds1 ++ cmds2)%list. rewrite Hst2, Hst1. cbn [started configured].
    rewrite <- app_assoc.
    split; [reflexivity |]. split; [rewrite length_app; lia |].
    split; [apply Forall_app; split; assumption |].
    intros Hs. rewrite (Hnone1 Hs), (Hnone2 Hs). reflexivity.
Qed.





(** X6: test mode without a recipient (no [-recipient] flag, or an empty
    one) and with a valid mail command: [main] shows the configuration, logs
    that the test needs a recipient and exits with status 0; the sensor is
    not read and nothing is started. *)
Theorem test_mode_requires_recipient (E : Env) (args : CommandLine)
  (events : list Event) (w : World) :
  ~ mail_command_invalid E ->
  TestEmailFlag (parseFlags args) = true ->
  EmailRecipient (parseFlags args) = EmptyString ->
  main E args events w
  = Exited 0
      (mkWorld (instant w)
         (output (configured E args w)
          ++ [Log ("Error sending test email: "
                   ++ "'-test-email' flag requires '-recipient' flag to be set");
              goodbye_line])
         (started w)).
Proof.
  intros Hv Ht Hr. rewrite main_unfold, Ht.
  destruct (mail_command_check E) as [e |] eqn:Hc.
  { exfalso. apply Hv. exists e. rewrite validateMailCommand_check, Hc. reflexivity. }
  assert (Hs : EmailRecipient (with_sentinel (built_config E args)) = noEmailRecipient).
  { unfold with_sentinel. cbn [EmailRecipient built_config]. rewrite Hr. reflexivity. }
  unfold bind at 1. rewrite (sendTestEmail_without_recipient E _ _ Hs).
  unfold goodbye. run_step. rewrite <- !app_assoc. reflexivity.
Qed.

Lemma test_mode_requires_recipient_witness :
  ~ mail_command_invalid env_hot
  /\ TestEmailFlag (parseFlags args_test) = true
  /\ EmailRecipient (parseFlags args_test) = EmptyString
  /\ main env_hot args_test [Tick] world0
     = Exited 0
         (mkWorld (instant world0)
            (output (configured env_hot args_test world0)
             ++ [Log ("Error sending test email: "
                      ++ "'-test-email' flag requires '-recipient' flag to be set");
                 goodbye_line])
            (started world0)).
Proof.
  assert (H : ~ mail_command_invalid env_hot).
  { intros (e & He). vm_compute in He. discriminate He. }
  split; [exact H |]. split; [reflexivity |]. split; [reflexivity |].
  apply (test_mode_requires_recipient env_hot args_test [Tick] world0 H);
    reflexivity.
Defined.

(** X7: without a recipient (no [-recipient] flag, an empty one, or the
    sentinel itself) the program never starts a command, in test mode and in
    monitoring mode, whatever the sensor shows and for however many ticks. *)
Theorem no_recipient_never_sends (E : Env) (args : CommandLine)
  (events : list Event) (w : World) :
  EmailRecipient (parseFlags args) = EmptyString
  \/ EmailRecipient (parseFlags args) = noEmailRecipient ->
  started (final_world (main E args events w)) = started w.
Proof.
  intros Hr.
  destruct (main_adds E args events w) as (cmds & Hst & _ & _ & Hnone).
  rewrite Hst, Hnone; [apply app_nil_r |].
  unfold with_sentinel. cbn [EmailRecipient built_config].
  destruct Hr as [Hr | Hr]; rewrite Hr; reflexivity.
Qed.

Lemma no_recipient_never_sends_witness :
  (EmailRecipient (parseFlags args_plain) = EmptyString
   \/ EmailRecipient (parseFlags args_plain) = noEmailRecipient)
  /\ started (final_world (main env_hot args_plain [Tick; Tick; Tick] world0))
     = started world0.
Proof.
  split; [left; reflexivity |].
  apply (no_recipient_never_sends env_hot args_plain [Tick; Tick; Tick] world0).
  left. reflexivity.
Defined.

(** X8: the only commands the program ever starts are mails to the
    configured recipient: the mail program, with [-s], a subject and the
    recipient, both without [;], each under the 15 s timeout; and at most one
    for the initial check and one for each tick handled. *)
Theorem program_only_runs_mail (E : Env) (args : CommandLine)
  (events : list Event) (w : World) :
  exists cmds,
    started (final_world (main E args events w)) = (started w ++ cmds)%list
    /\ (List.length cmds <= S (ticks_handled events))%nat
    /\ Forall (is_mail_for (EmailRecipient (parseFlags args))) cmds.
Proof.
  destruct (main_adds E args events w) as (cmds & Hst & Hlen & Hall & Hnone).
  exists cmds. split; [exact Hst |]. split; [exact Hlen |].
  destruct (String.eqb (EmailRecipient (parseFlags args)) EmptyString) eqn:Hempty.
  - rewrite Hnone; [constructor |].
    unfold with_sentinel. cbn [EmailRecipient built_config].
    rewrite Hempty. reflexivity.
  - eapply Forall_impl; [| exact Hall].
    intros cmd Hc. apply sent_by_is_mail in Hc.
    unfold with_sentinel in Hc. cbn [EmailRecipient built_config] in Hc.
    rewrite Hempty in Hc. exact Hc.
Qed.

(** *** The loop *)

(** X9: alerts are not suppressed: with a recipient, while every reading is
    above the threshold each tick handled starts one more mail, however the
    mails before it fared. *)
Theorem alerts_repeat_every_tick (E : Env) (cfg : config) (events : list Event)
  (w : World) :
  EmailRecipient cfg <> noEmailRecipient ->
  (forall w0, exists reading,
      getCPUTemperature E w0 = Done (reading, None) (observed w0)
      /\ Float64.gt reading (TempThreshold cfg) = true) ->
  exists cmds,
    started (final_world (tempCheckLoop_for E cfg events w)) = (started w ++ cmds)%list
    /\ List.length cmds = ticks_handled events
    /\ Forall (is_mail_for (EmailRecipient cfg)) cmds.
Proof.
  intros Hr Hhot. revert w.
  induction events as [| [| sig] rest IH]; intros w.
  - exists []. cbn. rewrite app_nil_r. repeat split. constructor.
  - cbn [tempCheckLoop_for ticks_handled].
    destruct (Hhot w) as (reading & Hread & Hgt).
    destruct (compareTemperatures_alert_sent E cfg w _ reading Hread Hgt Hr)
      as (w1 & Hrun & Hst & _).
    unfold bind. rewrite Hrun.
    destruct (IH w1) as (cmds & Hst2 & Hlen & Hall).
    eexists (_ :: cmds). rewrite Hst2, Hst. cbn [started observed].
    rewrite <- app_assoc. split; [reflexivity |].
    split; [cbn; rewrite Hlen; reflexivity |].
    constructor; [| exact Hall].
    apply sent_by_is_mail. eexists _, _. reflexivity.
  - exists []. cbn [tempCheckLoop_for ticks_handled]. unfold goodbye. run_step.
    rewrite app_nil_r. repeat split. constructor.
Qed.

Lemma alerts_repeat_every_tick_witness :
  EmailRecipient config_pi <> noEmailRecipient
  /\ (forall w0, exists reading,
         getCPUTemperature env_hot_failing_mail w0 = Done (reading, None) (observed w0)
         /\ Float64.gt reading (TempThreshold config_pi) = true)
  /\ exists cmds,
      started (final_world
                 (tempCheckLoop_for env_hot_failing_mail config_pi
                    [Tick; Tick; Tick] world0))
      = (started world0 ++ cmds)%list
      /\ List.length cmds = ticks_handled [Tick; Tick; Tick]
      /\ Forall (is_mail_for (EmailRecipient config_pi)) cmds.
Proof.
  assert (Hhot : forall w0, exists reading,
             getCPUTemperature env_hot_failing_mail w0
             = Done (reading, None) (observed w0)
             /\ Float64.gt reading (TempThreshold config_pi) = true).
  { intros w0. exists reading_65.
    rewrite (getCPUTemperature_readable env_hot_failing_mail w0 ("65500" ++ LF) eq_refl).
    split; vm_compute; reflexivity. }
  split; [discriminate |]. split; [exact Hhot |].
  apply (alerts_repeat_every_tick env_hot_failing_mail config_pi
           [Tick; Tick; Tick] world0); [discriminate | exact Hhot].
Defined.

Lemma Sprintf_signal Q sig :
  Sprintf Q "Received signal %s: shutting down" [VSignal sig]
  = "Received signal " ++ Signal_String sig ++ ": shutting down".
Proof. reflexivity. Qed.

(** X10: a signal ends the loop after the cycle in progress: the ticks
    received before it are handled as without it, then the loop clears the
    terminal line, logs the signal and the goodbye line and exits with status
    0; no command is started for the shutdown and the events after the signal
    are never handled. *)
Theorem signal_ends_loop (E : Env) (cfg : config) (n : nat) (sig : Signal)
  (later : list Event) (w : World) :
  exists w1,
    tempCheckLoop_for E cfg (repeat Tick n) w = Waiting w1
    /\ tempCheckLoop_for E cfg (repeat Tick n ++ Sig sig :: later) w
       = Exited 0
           (mkWorld (instant w1)
              (output w1
               ++ [Stdout CR;
                   Log ("Received signal " ++ Signal_String sig ++ ": shutting down");
                   goodbye_line])
              (started w1)).
Proof.
  revert w. induction n as [| n IH]; intros w.
  - exists w. split; [reflexivity |].
    cbn [repeat app tempCheckLoop_for]. unfold goodbye. run_step.
    rewrite Sprintf_signal, <- !app_assoc. reflexivity.
  - cbn [repeat app tempCheckLoop_for].
    destruct (compareTemperatures_returns E cfg w) as (w0 & Hrun).
    unfold bind. rewrite Hrun. apply IH.
Qed.

(** *** Trimming ASCII white space *)

Lemma to_bytes_app (a b : string) : to_bytes (a ++ b) = (to_bytes a ++ to_bytes b)%list.
Proof.
  induction a as [| c a IH]; [reflexivity |]. cbn. f_equal. exact IH.
Qed.

Lemma asciiSpace_below_RuneSelf (c : ascii) :
  GoStrings.asciiSpace c = true -> (Utf8.RuneSelf <=? byte_val c) = false.
Proof.
  unfold GoStrings.asciiSpace, Utf8.RuneSelf. intros H. apply Z.leb_gt.
  apply orb_prop in H. destruct H as [H | H].
  - apply andb_prop in H. destruct H as [_ H]. apply Z.leb_le in H. lia.
  - apply Z.eqb_eq in H. lia.
Qed.

Lemma graphic_inv (c : ascii) :
  graphic c = true ->
  (Utf8.RuneSelf <=? byte_val c) = false /\ GoStrings.asciiSpace c = false.
Proof.
  unfold graphic. intros H. apply andb_prop in H. destruct H as [Hlt Hsp].
  apply Z.ltb_lt in Hlt. split; [apply Z.leb_gt; exact Hlt |].
  destruct (GoStrings.asciiSpace c); [discriminate Hsp | reflexivity].
Qed.

Lemma trim_start_blank (pre : string) (l : bytes) :
  blank pre = true ->
  GoStrings.trim_start (to_bytes pre ++ l)%list = GoStrings.trim_start l.
Proof.
  induction pre as [| c pre IH]; intros H; [reflexivity |].
  cbn in H. apply andb_prop in H. destruct H as [Hc Hpre].
  cbn [to_bytes list_ascii_of_string app GoStrings.trim_start].
  rewrite (asciiSpace_below_RuneSelf c Hc), Hc. apply IH, Hpre.
Qed.

Lemma trim_stop_blank (post : string) (l : bytes) :
  blank post = true ->
  GoStrings.trim_stop (rev (to_bytes post) ++ l)%list = GoStrings.trim_stop l.
Proof.
  revert l. induction post as [| c post IH]; intros l H; [reflexivity |].
  cbn in H. apply andb_prop in H. destruct H as [Hc Hpost].
  cbn [to_bytes list_ascii_of_string rev]. rewrite <- app_assoc.
  rewrite (IH _ Hpost). cbn [app GoStrings.trim_stop].
  rewrite (asciiSpace_below_RuneSelf c Hc), Hc. reflexivity.
Qed.

Lemma trim_stop_graphic (c : ascii) (l : bytes) :
  graphic c = true -> GoStrings.trim_stop (c :: l) = c :: l.
Proof.
  intros H. destruct (graphic_inv c H) as [Hlt Hsp].
  cbn [GoStrings.trim_stop]. rewrite Hlt, Hsp. reflexivity.
Qed.

Lemma last_cons {A} (d c : A) (rest : list A) : last (d :: rest) c = last rest d.
Proof.
  revert d c. induction rest as [| a rest IH]; intros d c; [reflexivity |].
  change (last (d :: a :: rest) c) with (last (a :: rest) c).
  rewrite (IH a c), (IH a d). reflexivity.
Qed.

Lemma rev_last_head {A} (c : A) (rest : list A) :
  exists l, rev (c :: rest) = last rest c :: l.
Proof.
  revert c. induction rest as [| d rest IH]; intros c.
  - exists []. reflexivity.
  - destruct (IH d) as (l & Hl).
    exists (l ++ [c])%list.
    change (rev (c :: d :: rest)) with (rev (d :: rest) ++ [c])%list.
    rewrite Hl, last_cons. reflexivity.
Qed.

(** [TrimSpace] removes ASCII white space around a text whose ends are ASCII
    and not white space, and nothing else. *)
Lemma TrimSpace_ascii (pre core post : string) :
  blank pre = true -> blank post = true -> solid_ends core = true ->
  GoStrings.TrimSpace (pre ++ core ++ post) = core.
Proof.
  intros Hpre Hpost Hcore. unfold GoStrings.TrimSpace.
  rewrite !to_bytes_app, (trim_start_blank pre _ Hpre).
  unfold solid_ends in Hcore.
  destruct (to_bytes core) as [| c rest] eqn:Hb; [discriminate Hcore |].
  apply andb_prop in Hcore. destruct Hcore as [Hfirst Hlast].
  destruct (graphic_inv c Hfirst) as [Hlt Hsp].
  cbn [app GoStrings.trim_start]. rewrite Hlt, Hsp.
  change (c :: (rest ++ to_bytes post)%list) with ((c :: rest) ++ to_bytes post)%list.
  rewrite rev_app_distr, (trim_stop_blank post _ Hpost).
  destruct (rev_last_head c rest) as (l & Hl).
  rewrite Hl, (trim_stop_graphic _ l Hlast), <- Hl, rev_involutive, <- Hb.
  apply string_of_list_ascii_of_string.
Qed.

Lemma TrimSpace_blank (s : string) :
  blank s = true -> GoStrings.TrimSpace s = EmptyString.
Proof.
  intros H. unfold GoStrings.TrimSpace.
  replace (to_bytes s) with (to_bytes s ++ [])%list by apply app_nil_r.
  rewrite (trim_start_blank s [] H). reflexivity.
Qed.

(** *** The sensor file *)

Lemma digits_value_all_digits (s : string) (acc v : Z) :
  digits_value acc s = Some v -> Forall (fun c => is_digit c = true) (to_bytes s).
Proof.
  revert acc. induction s as [| c s IH]; intros acc H; [constructor |].
  cbn in H. destruct (is_digit c) eqn:Hc; [| discriminate H].
  constructor; [exact Hc | exact (IH _ H)].
Qed.

Lemma digit_graphic (c : ascii) : is_digit c = true -> graphic c = true.
Proof.
  destruct c as [[] [] [] [] [] [] [] []]; intros H; try discriminate H; reflexivity.
Qed.

Lemma last_in {A} (c : A) (rest : list A) : In (last rest c) (c :: rest).
Proof.
  revert c. induction rest as [| d rest IH]; intros c; [left; reflexivity |].
  rewrite last_cons. right. apply IH.
Qed.

(** The decimal representation of an integer starts and ends with an ASCII
    byte that is not white space. *)
Lemma Itoa_solid_ends (m : Z) : solid_ends (Itoa m) = true.
Proof.
  unfold Itoa, solid_ends. destruct (m <? 0) eqn:Hneg.
  - apply Z.ltb_lt in Hneg.
    destruct (utoa_value (- m)) as (c & rest & Hs & _ & Hv); [lia |].
    pose proof (digits_value_all_digits _ _ _ Hv) as Hall.
    rewrite Hs in *. cbn [to_bytes list_ascii_of_string] in *.
    change (graphic "-") with true. cbn [andb].
    rewrite last_cons. apply digit_graphic.
    rewrite Forall_forall in Hall. apply Hall, last_in.
  - apply Z.ltb_ge in Hneg.
    destruct (utoa_value m Hneg) as (c & rest & Hs & Hd & Hv).
    pose proof (digits_value_all_digits _ _ _ Hv) as Hall.
    rewrite Hs in *. cbn [to_bytes list_ascii_of_string] in *.
    rewrite (digit_graphic c Hd). cbn [andb].
    apply digit_graphic. rewrite Forall_forall in Hall. apply Hall, last_in.
Qed.

(** X11: a sensor file that holds the decimal representation of a 64-bit
    integer [m] between any ASCII white space (as the kernel writes it: the
    digits and a line feed) is read as [float64(m) / 1000.0]. *)
Theorem sensor_file_with_white_space (E : Env) (w : World) (pre post : string)
  (m : Z) :
  blank pre = true -> blank post = true ->
  ReadFile E (instant w) cpuTempFilePath = inl (pre ++ Itoa m ++ post) ->
  - 2 ^ 63 <= m < 2 ^ 63 ->
  getCPUTemperature E w
  = Done (Float64.div (Float64.of_Z m) (Float64.of_Z 1000), None) (observed w).
Proof.
  intros Hpre Hpost Hread Hm.
  rewrite (getCPUTemperature_integer_any E w _ m Hread
             (TrimSpace_ascii pre (Itoa m) post Hpre Hpost (Itoa_solid_ends m))).
  rewrite (of_Z_int64_finite m Hm). reflexivity.
Qed.

Lemma sensor_file_with_white_space_witness :
  blank " " = true /\ blank (CR ++ LF) = true
  /\ ReadFile (example_env (inl (" " ++ Itoa (-1500) ++ CR ++ LF)) mail_ok process_ok)
       (instant world0) cpuTempFilePath
     = inl (" " ++ Itoa (-1500) ++ CR ++ LF)
  /\ - 2 ^ 63 <= -1500 < 2 ^ 63
  /\ getCPUTemperature
       (example_env (inl (" " ++ Itoa (-1500) ++ CR ++ LF)) mail_ok process_ok) world0
     = Done (Float64.div (Float64.of_Z (-1500)) (Float64.of_Z 1000), None)
         (observed world0).
Proof.
  split; [reflexivity |]. split; [reflexivity |]. split; [reflexivity |].
  split; [lia |].
  apply (sensor_file_with_white_space
           (example_env (inl (" " ++ Itoa (-1500) ++ CR ++ LF)) mail_ok process_ok)
           world0 " " (CR ++ LF) (-1500));
    [reflexivity | reflexivity | reflexivity | lia].
Defined.

(** X12: an empty sensor file, or one with ASCII white space only, is a
    parse error: the reading is 0 with an error that wraps
    [strconv.ErrSyntax]. *)
Theorem blank_sensor_file_is_syntax_error (E : Env) (w : World) (content : string) :
  blank content = true ->
  ReadFile E (instant w) cpuTempFilePath = inl content ->
  exists err,
    getCPUTemperature E w = Done (Float64.zero, Some err) (observed w)
    /\ Is err ErrSyntax = true
    /\ AsNumError err = true
    /\ Error (Quote E) err
       = "failed to parse temperature value '': strconv.ParseFloat: parsing "
         ++ Quote E "" ++ ": invalid syntax".
Proof.
  intros Hb Hread.
  rewrite (getCPUTemperature_readable E w content Hread), (TrimSpace_blank content Hb).
  cbn [ParseFloat special readFloat]. rewrite Errorf_parse_wraps.
  eexists. split; [reflexivity |]. repeat split.
Qed.

Lemma blank_sensor_file_is_syntax_error_witness :
  blank LF = true
  /\ ReadFile (example_env (inl LF) mail_ok process_ok) (instant world0) cpuTempFilePath
     = inl LF
  /\ exists err,
      getCPUTemperature (example_env (inl LF) mail_ok process_ok) world0
      = Done (Float64.zero, Some err) (observed world0)
      /\ Is err ErrSyntax = true
      /\ AsNumError err = true
      /\ Error (Quote (example_env (inl LF) mail_ok process_ok)) err
         = "failed to parse temperature value '': strconv.ParseFloat: parsing "
           ++ Quote (example_env (inl LF) mail_ok process_ok) ""
           ++ ": invalid syntax".
Proof.
  split; [reflexivity |]. split; [reflexivity |].
  apply (blank_sensor_file_is_syntax_error (example_env (inl LF) mail_ok process_ok)
           world0 LF); reflexivity.
Defined.

Lemma Errorf_read_wraps Q path err :
  Errorf Q "failed to read temperature file %s: %w" [VString path; VError err]
  = WrapError ("failed to read temperature file " ++ path ++ ": " ++ Error Q err) err.
Proof. unfold Errorf. cbn. rewrite append_empty_r. reflexivity. Qed.

(** X13: when the sensor file cannot be read, the reading is 0 with an error
    that wraps the error of [os.ReadFile]: [errors.Is] finds in it what it
    finds in that error, and its text is that error's text after the path of
    the sensor file. *)
Theorem read_error_is_wrapped (E : Env) (w : World) (e : error) :
  ReadFile E (instant w) cpuTempFilePath = inr e ->
  exists err,
    getCPUTemperature E w = Done (Float64.zero, Some err) (observed w)
    /\ (forall target, Is err target = Is e target)
    /\ AsNumError err = AsNumError e
    /\ Error (Quote E) err
       = "failed to read temperature file /sys/class/thermal/thermal_zone0/temp: "
         ++ Error (Quote E) e.
Proof.
  intros Hread. unfold getCPUTemperature. run_step. rewrite Hread.
  rewrite Errorf_read_wraps. eexists. split; [reflexivity |].
  split; [intros target; destruct target; reflexivity |].
  split; reflexivity.
Qed.

Lemma read_error_is_wrapped_witness :
  exists e,
    ReadFile env_no_sensor (instant world0) cpuTempFilePath = inr e
    /\ Is e ErrNotExist = true
    /\ exists err,
        getCPUTemperature env_no_sensor world0
        = Done (Float64.zero, Some err) (observed world0)
        /\ (forall target, Is err target = Is e target)
        /\ AsNumError err = AsNumError e
        /\ Error (Quote env_no_sensor) err
           = "failed to read temperature file /sys/class/thermal/thermal_zone0/temp: "
             ++ Error (Quote env_no_sensor) e.
Proof.
  eexists. split; [reflexivity |]. split; [reflexivity |].
  apply (read_error_is_wrapped env_no_sensor world0). reflexivity.
Defined.

Lemma ParseFloat_error_kinds (s : string) (f : float64) (err : error) :
  ParseFloat s = (f, Some err) ->
  (f = Float64.zero /\ err = syntaxError "ParseFloat" s)
  \/ (Float64.is_inf f = true /\ err = rangeError "ParseFloat" s).
Proof.
  unfold ParseFloat. intros H.
  destruct (special s) as [[val n] |].
  - destruct (n =? String.length s)%nat; [discriminate H |].
    injection H as <- <-. left. split; reflexivity.
  - destruct (readFloat s) as [p |].
    + destruct (p_rest p).
      * destruct (Float64.is_inf _) eqn:Hinf; [| discriminate H].
        injection H as <- <-. right. split; [exact Hinf | reflexivity].
      * injection H as <- <-. left. split; reflexivity.
    + injection H as <- <-. left. split; reflexivity.
Qed.

Lemma HasPrefix_append3 (a t b x : string) :
  GoStrings.HasPrefix (a ++ t ++ b ++ x) (a ++ t ++ b) = true.
Proof.
  replace (a ++ t ++ b ++ x) with ((a ++ t ++ b) ++ x)
    by (rewrite !append_assoc; reflexivity).
  apply HasPrefix_append.
Qed.

(** X14: on a readable sensor file the reading either succeeds, with the
    number that [ParseFloat] finds in the trimmed content divided by 1000, or
    is 0 with a parse error, which wraps [strconv.ErrSyntax] or
    [strconv.ErrRange] and names the trimmed content; it is never an I/O
    error. *)
Theorem readable_sensor_file_outcomes (E : Env) (w : World) (content : string) :
  ReadFile E (instant w) cpuTempFilePath = inl content ->
  (exists f,
      ParseFloat (GoStrings.TrimSpace content) = (f, None)
      /\ getCPUTemperature E w
         = Done (Float64.div f (Float64.of_Z 1000), None) (observed w))
  \/ (exists err,
        getCPUTemperature E w = Done (Float64.zero, Some err) (observed w)
        /\ AsNumError err = true
        /\ AsPathError err = false
        /\ (Is err ErrSyntax = true \/ Is err ErrRange = true)
        /\ GoStrings.HasPrefix (Error (Quote E) err)
             ("failed to parse temperature value '" ++ GoStrings.TrimSpace content
              ++ "': ") = true).
Proof.
  intros Hread. rewrite (getCPUTemperature_readable E w content Hread).
  set (text := GoStrings.TrimSpace content).
  destruct (ParseFloat text) as [f [err |]] eqn:Hp.
  - right. rewrite Errorf_parse_wraps. eexists. split; [reflexivity |].
    cbn [AsNumError AsPathError Error].
    destruct (ParseFloat_error_kinds text f err Hp) as [[_ ->] | [_ ->]];
      (split; [reflexivity |]); (split; [reflexivity |]);
      (split; [(left; reflexivity) || (right; reflexivity) |]);
      apply HasPrefix_append3.
  - left. exists f. split; reflexivity.
Qed.

Lemma readable_sensor_file_outcomes_witness :
  ReadFile (example_env (inl ("n/a" ++ LF)) mail_ok process_ok) (instant world0)
    cpuTempFilePath = inl ("n/a" ++ LF)
  /\ ((exists f,
          ParseFloat (GoStrings.TrimSpace ("n/a" ++ LF)) = (f, None)
          /\ getCPUTemperature (example_env (inl ("n/a" ++ LF)) mail_ok process_ok) world0
             = Done (Float64.div f (Float64.of_Z 1000), None) (observed world0))
      \/ (exists err,
            getCPUTemperature (example_env (inl ("n/a" ++ LF)) mail_ok process_ok) world0
            = Done (Float64.zero, Some err) (observed world0)
            /\ AsNumError err = true
            /\ AsPathError err = false
            /\ (Is err ErrSyntax = true \/ Is err ErrRange = true)
            /\ GoStrings.HasPrefix
                 (Error (Quote (example_env (inl ("n/a" ++ LF)) mail_ok process_ok)) err)
                 ("failed to parse temperature value '"
                  ++ GoStrings.TrimSpace ("n/a" ++ LF) ++ "': ") = true)).
Proof.
  split; [reflexivity |].
  apply (readable_sensor_file_outcomes
           (example_env (inl ("n/a" ++ LF)) mail_ok process_ok) world0 ("n/a" ++ LF)).
  reflexivity.
Defined.






Lemma land_pow2_eqb (m n : Z) :
  0 <= n -> (Z.land m (2 ^ n) =? 0) = negb (Z.testbit m n).
Proof.
  intros Hn. destruct (Z.testbit m n) eqn:Hb; cbn [negb].
  - apply Z.eqb_neq. intros H0.
    assert (Ht : Z.testbit (Z.land m (2 ^ n)) n = true).
    { rewrite Z.land_spec, Hb, Z.pow2_bits_eqb, Z.eqb_refl by exact Hn. reflexivity. }
    rewrite H0, Z.bits_0 in Ht. discriminate Ht.
  - apply Z.eqb_eq. apply Z.bits_inj'. intros k Hk.
    rewrite Z.land_spec, Z.bits_0, Z.pow2_bits_eqb by exact Hn.
    destruct (n =? k) eqn:Hnk; [| apply andb_false_r].
    apply Z.eqb_eq in Hnk. subst k. rewrite Hb. reflexivity.
Qed.

Lemma IsDir_bit (info : FileInfo) : IsDir info = Z.testbit (Mode info) 31.
Proof.
  unfold IsDir, ModeDir. change (Z.shiftl 1 31) with (2 ^ 31).
  rewrite land_pow2_eqb by lia. apply negb_involutive.
Qed.

Lemma perm_exec_bits (m : Z) :
  (Z.land m perm_exec =? 0)
  = negb (Z.testbit m 6 || Z.testbit m 3 || Z.testbit m 0).
Proof.
  change perm_exec with (Z.lor (Z.lor (2 ^ 6) (2 ^ 3)) (2 ^ 0)).
  rewrite !Z.land_lor_distr_r.
  pose proof (land_pow2_eqb m 6 ltac:(lia)) as H6.
  pose proof (land_pow2_eqb m 3 ltac:(lia)) as H3.
  pose proof (land_pow2_eqb m 0 ltac:(lia)) as H0.
  destruct (Z.testbit m 6), (Z.testbit m 3), (Z.testbit m 0);
    cbn [negb orb] in *;
    repeat match goal with
           | H : (_ =? 0) = true |- _ => apply Z.eqb_eq in H; rewrite H
           | H : (_ =? 0) = false |- _ => apply Z.eqb_neq in H
           end;
    try reflexivity;
    apply Z.eqb_neq; intros Hz;
    repeat (apply Z.lor_eq_0_iff in Hz; destruct Hz as [Hz ?]);
    congruence.
Qed.

(** X17: [validateMailCommand] accepts a path exactly when [os.Stat]
    succeeds, the directory bit (bit 31 of the mode) is clear and one of the
    three executable bits (owner, group, other: bits 6, 3, 0) is set; no
    other type bit is looked at, so an executable device or socket is
    accepted too.  The check leaves the world as it is. *)
Theorem validateMailCommand_accepts_iff (E : Env) (path : string) (w : World) :
  (validateMailCommand E path w = Done None w
   <-> exists info,
        Stat E path = inl info
        /\ Z.testbit (Mode info) 31 = false
        /\ (Z.testbit (Mode info) 6 || Z.testbit (Mode info) 3
            || Z.testbit (Mode info) 0) = true)
  /\ exists r, validateMailCommand E path w = Done r w.
Proof.
  split; [| destruct (validateMailCommand_pure E path) as (r & Hr);
            exists r; apply Hr].
  unfold validateMailCommand.
  destruct (Stat E path) as [info | err].
  - rewrite IsDir_bit, perm_exec_bits.
    destruct (Z.testbit (Mode info) 31) eqn:Hd.
    + split; [intros H; discriminate H |].
      intros (i & Hi & Hd' & _). injection Hi as <-. congruence.
    + destruct (Z.testbit (Mode info) 6 || Z.testbit (Mode info) 3
                || Z.testbit (Mode info) 0) eqn:Hx; cbn [negb].
      * split; [intros _; exists info; repeat split; assumption | reflexivity].
      * split; [intros H; discriminate H |].
        intros (i & Hi & _ & Hx'). injection Hi as <-. congruence.
  - split.
    + destruct (Is err ErrNotExist); intros H; discriminate H.
    + intros (i & Hi & _). discriminate Hi.
Qed.

Lemma Errorf_stat_error Q err :
  Errorf Q "Error: %w" [VError err] = WrapError ("Error: " ++ Error Q err) err.
Proof. unfold Errorf. cbn. rewrite ?append_empty_r. reflexivity. Qed.

(** X18: a failure of [os.Stat] other than "does not exist" (permission
    denied on a parent directory, say) is handed on: the error returned
    reads [Error: ] followed by the text of the stat error and matches
    exactly the targets the stat error matches, so it is not reported as a
    missing file. *)
Theorem validateMailCommand_other_stat_error (E : Env) (path : string) (w : World)
  (err : error) :
  Stat E path = inr err ->
  Is err ErrNotExist = false ->
  exists e,
    validateMailCommand E path w = Done (Some e) w
    /\ Error (Quote E) e = "Error: " ++ Error (Quote E) err
    /\ (forall target, Is e target = Is err target)
    /\ Is e ErrNotExist = false.
Proof.
  intros Hs Hn. unfold validateMailCommand. rewrite Hs, Hn.
  rewrite Errorf_stat_error. eexists. split; [reflexivity |].
  split; [reflexivity |]. split; [intros target; reflexivity | exact Hn].
Qed.

Lemma validateMailCommand_other_stat_error_witness :
  Stat env_mail_no_access mailCommand = inr stat_permission_denied
  /\ Is stat_permission_denied ErrNotExist = false
  /\ exists e,
      validateMailCommand env_mail_no_access mailCommand world0 = Done (Some e) world0
      /\ Error (Quote env_mail_no_access) e
         = "Error: " ++ Error (Quote env_mail_no_access) stat_permission_denied
      /\ (forall target, Is e target = Is stat_permission_denied target)
      /\ Is e ErrNotExist = false.
Proof.
  split; [reflexivity |]. split; [reflexivity |].
  apply (validateMailCommand_other_stat_error env_mail_no_access mailCommand world0
           stat_permission_denied); reflexivity.
Defined.

Lemma Sprintf_attempting Q recipient :
  Sprintf Q "Attempting to send email to %s" [VString recipient]
  = "Attempting to send email to " ++ recipient.
Proof. cbn. rewrite ?append_empty_r. reflexivity. Qed.

Lemma sendEmail_log E cfg subject body w :
  EmailRecipient cfg <> noEmailRecipient ->
  exists r line,
    sendEmail E cfg subject body w
    = Done r (mkWorld (S (instant w))
                (output w ++ [Log ("Attempting to send email to " ++ EmailRecipient cfg);
                              Log line])%list
                (started w ++ [alert_cmd cfg subject body])%list).
Proof.
  intros H. apply String.eqb_neq in H.
  unfold sendEmail. rewrite H. rewrite !ReplaceAll_semicolon.
  fold (mail_cmd (delete_semicolons subject) (delete_semicolons (EmailRecipient cfg)) body).
  fold (alert_cmd cfg subject body).
  run_step. unfold Run. cbn [instant output started].
  rewrite Sprintf_attempting.
  destruct (run_result _ _) as [[[err |] stderr] ctxErr].
  - destruct (errors_Is ctxErr DeadlineExceeded);
      cbn [instant output started]; rewrite <- app_assoc;
      eexists _, _; reflexivity.
  - cbn [instant output started]. rewrite <- app_assoc.
    eexists _, _. reflexivity.
Qed.

Lemma send_error_some Q err stderr ctxErr :
  send_error Q (Some err, stderr, ctxErr) <> None.
Proof.
  unfold send_error. destruct (errors_Is ctxErr DeadlineExceeded); discriminate.
Qed.

Lemma send_error_done Q err stderr ctxErr (w1 w' : World) :
  Done (send_error Q (Some err, stderr, ctxErr)) w1 = Done None w' -> False.
Proof.
  intros H. apply (send_error_some Q err stderr ctxErr). congruence.
Qed.

(** X19: [sendEmail] returns nil in two cases only: the recipient is the
    sentinel, or the mail command could be started, ended within the 15 s of
    its context and exited with status 0. *)
Theorem sendEmail_succeeds_iff (E : Env) (cfg : config) (subject body : string)
  (w : World) :
  (exists w', sendEmail E cfg subject body w = Done None w')
  <-> EmailRecipient cfg = noEmailRecipient
      \/ (start_error (Start E (instant w) (alert_cmd cfg subject body)) = None
          /\ run_time (Start E (instant w) (alert_cmd cfg subject body))
             <= 15 * GoTime.Second
          /\ exit_state (Start E (instant w) (alert_cmd cfg subject body)) = None).
Proof.
  destruct (String.eqb_spec (EmailRecipient cfg) noEmailRecipient) as [Hr | Hr].
  - split; [intros _; left; exact Hr |].
    intros _. rewrite (sendEmail_no_recipient E cfg subject body w Hr).
    eexists. reflexivity.
  - destruct (sendEmail_returns E cfg subject body w Hr) as (w1 & Hrun & _).
    rewrite Hrun. clear Hrun.
    set (p := Start E (instant w) (alert_cmd cfg subject body)).
    unfold run_result.
    change (Timeout (alert_cmd cfg subject body)) with (15 * GoTime.Second).
    destruct (start_error p) as [[code text] |] eqn:Hs.
    + split.
      * intros (w' & Hw'). exfalso. exact (send_error_done _ _ _ _ _ _ Hw').
      * intros [Hc | (Hc & _)]; [contradiction | discriminate Hc].
    + destruct (15 * GoTime.Second <? run_time p) eqn:Ht.
      * apply Z.ltb_lt in Ht. split.
        -- intros (w' & Hw'). exfalso. exact (send_error_done _ _ _ _ _ _ Hw').
        -- intros [Hc | (_ & Hc & _)]; [contradiction | lia].
      * apply Z.ltb_ge in Ht. destruct (exit_state p) as [st |] eqn:Hx.
        -- split.
           ++ intros (w' & Hw'). exfalso. exact (send_error_done _ _ _ _ _ _ Hw').
           ++ intros [Hc | (_ & _ & Hc)]; [contradiction | discriminate Hc].
        -- split.
           ++ intros _. right. repeat split. exact Ht.
           ++ intros _. exists w1. reflexivity.
Qed.

Lemma Sprintf_stderr_text Q s :
  Sprintf Q ". Stderr: %s" [VString s] = ". Stderr: " ++ s.
Proof. cbn. rewrite ?append_empty_r. reflexivity. Qed.

(** X20: when the mail command exits in time with a failure status [st],
    the error of [sendEmail] reads
    [failed to send email: st<detail>: st], the status twice, where
    [<detail>] is [. Stderr: ] followed by what the command wrote to its
    standard error, and is missing when it wrote nothing; the same text
    without the final [: st] is logged. *)
Theorem failed_send_reports_stderr (E : Env) (cfg : config) (subject body : string)
  (w : World) (st : string) :
  EmailRecipient cfg <> noEmailRecipient ->
  start_error (Start E (instant w) (alert_cmd cfg subject body)) = None ->
  run_time (Start E (instant w) (alert_cmd cfg subject body)) <= 15 * GoTime.Second ->
  exit_state (Start E (instant w) (alert_cmd cfg subject body)) = Some st ->
  let stderr := stderr_text (Start E (instant w) (alert_cmd cfg subject body)) in
  let detail := if String.eqb stderr "" then "" else ". Stderr: " ++ stderr in
  exists e w',
    sendEmail E cfg subject body w = Done (Some e) w'
    /\ Error (Quote E) e = "failed to send email: " ++ st ++ detail ++ ": " ++ st
    /\ output w'
       = (output w ++ [Log ("Attempting to send email to " ++ EmailRecipient cfg);
                       Log ("failed to send email: " ++ st ++ detail)])%list.
Proof.
  intros H Hs Ht Hx. cbv zeta.
  set (stderr := stderr_text (Start E (instant w) (alert_cmd cfg subject body))).
  set (detail := if String.eqb stderr "" then "" else ". Stderr: " ++ stderr).
  apply String.eqb_neq in H.
  unfold sendEmail. rewrite H. rewrite !ReplaceAll_semicolon.
  fold (mail_cmd (delete_semicolons subject) (delete_semicolons (EmailRecipient cfg)) body).
  fold (alert_cmd cfg subject body).
  run_step. unfold Run. cbn [instant output started].
  rewrite Sprintf_attempting.
  unfold run_result. rewrite Hs, Hx.
  change (Timeout (alert_cmd cfg subject body)) with (15 * GoTime.Second).
  apply Z.ltb_ge in Ht. rewrite Ht.
  fold stderr. cbn [errors_Is].
  rewrite Errorf_send_failed.
  assert (Hmsg : (if (0 <? String.length stderr)%nat
                  then Sprintf (Quote E) "failed to send email: %v" [VError (ExitError st)]
                       ++ Sprintf (Quote E) ". Stderr: %s" [VString stderr]
                  else Sprintf (Quote E) "failed to send email: %v" [VError (ExitError st)])
                 = "failed to send email: " ++ st ++ detail).
  { rewrite Sprintf_failed_prefix, Sprintf_stderr_text. cbn [Error].
    unfold detail. destruct stderr as [| c rest].
    - cbn [String.length Nat.ltb Nat.leb String.eqb]. rewrite append_empty_r.
      reflexivity.
    - cbn [String.length Nat.ltb Nat.leb String.eqb]. rewrite !append_assoc.
      reflexivity. }
  rewrite Hmsg. cbn [instant output started]. rewrite <- app_assoc.
  eexists _, _. split; [reflexivity |].
  cbn [Error output]. split; [| reflexivity].
  rewrite !append_assoc. reflexivity.
Qed.

Lemma failed_send_reports_stderr_witness :
  EmailRecipient config_pi <> noEmailRecipient
  /\ exists e w',
      sendEmail env_hot_failing_mail config_pi "CPU alert" "body" world0
      = Done (Some e) w'
      /\ Error (Quote env_hot_failing_mail) e
         = "failed to send email: exit status 1. Stderr: mail: cannot send message: exit status 1"
      /\ output w'
         = [Log "Attempting to send email to pi@example.org";
            Log "failed to send email: exit status 1. Stderr: mail: cannot send message"].
Proof.
  split; [discriminate |].
  apply (failed_send_reports_stderr env_hot_failing_mail config_pi "CPU alert" "body"
           world0 "exit status 1");
    [discriminate | reflexivity | vm_compute; discriminate | reflexivity].
Defined.

(** X21: only the subject and the recipient are sanitized: the body goes to
    the standard input of the mail command as it is, semicolons included,
    and the log names the recipient as configured, before the command is
    run and whatever becomes of it; one more line reports the result. *)
Theorem sendEmail_body_and_log (E : Env) (cfg : config) (subject body : string)
  (w : World) :
  EmailRecipient cfg <> noEmailRecipient ->
  exists r w' cmd line,
    sendEmail E cfg subject body w = Done r w'
    /\ started w' = (started w ++ [cmd])%list
    /\ Stdin cmd = body
    /\ Timeout cmd = 15 * GoTime.Second
    /\ output w'
       = (output w ++ [Log ("Attempting to send email to " ++ EmailRecipient cfg);
                       Log line])%list.
Proof.
  intros H. destruct (sendEmail_log E cfg subject body w H) as (r & line & Hrun).
  rewrite Hrun. eexists r, _, (alert_cmd cfg subject body), line.
  split; [reflexivity |]. cbn [started output]. repeat split.
Qed.

Lemma sendEmail_body_and_log_witness :
  EmailRecipient (example_config "pi;@example.org") <> noEmailRecipient
  /\ exists r w' cmd line,
      sendEmail env_hot (example_config "pi;@example.org") "subject" "a; b" world0
      = Done r w'
      /\ started w' = (started world0 ++ [cmd])%list
      /\ Stdin cmd = "a; b"
      /\ Timeout cmd = 15 * GoTime.Second
      /\ output w'
         = (output world0
            ++ [Log ("Attempting to send email to "
                     ++ EmailRecipient (example_config "pi;@example.org"));
                Log line])%list.
Proof.
  split; [discriminate |].
  apply (sendEmail_body_and_log env_hot (example_config "pi;@example.org")
           "subject" "a; b" world0).
  discriminate.
Defined.

Lemma Errorf_rewrap Q err :
  Errorf Q "%w" [VError err] = WrapError (Error Q err) err.
Proof. unfold Errorf. cbn. rewrite ?append_empty_r. reflexivity. Qed.

(** X22: when the reading succeeds, [sendTestEmail] returns what [sendEmail]
    returns for the test mail: nil for nil, and for an error one with the
    same text that matches the same targets (a timeout is still a
    [context.DeadlineExceeded]). *)
Theorem test_send_error_is_kept (E : Env) (cfg : config) (w w1 : World)
  (reading : float64) :
  EmailRecipient cfg <> noEmailRecipient ->
  getCPUTemperature E w = Done (reading, None) w1 ->
  exists subject body inner r w',
    sendEmail E cfg subject body (observed w1) = Done inner w'
    /\ sendTestEmail E cfg w = Done r w'
    /\ match inner with
       | None => r = None
       | Some e =>
           exists e', r = Some e'
                      /\ Error (Quote E) e' = Error (Quote E) e
                      /\ forall target, Is e' target = Is e target
       end.
Proof.
  intros Hr Hread.
  pose proof Hr as Hr'. apply String.eqb_neq in Hr'.
  exists (Sprintf (Quote E) "%s: Test Alert (%s)"
            [VString appName; VString (Hostname cfg)]),
         (Sprintf (Quote E)
            ("Warning: this is a test email" ++ LF ++ "Hostname: %s" ++ LF
             ++ "Current CPU temperature: %.2f°C" ++ LF ++ "Timestamp: %s")
            [VString (Hostname cfg); VFloat reading;
             VString (Now_RFC1123 E (instant w1))]).
  match goal with
  | |- context [sendEmail E cfg ?s ?b (observed w1)] =>
      destruct (sendEmail_returns E cfg s b (observed w1) Hr)
        as (w' & Hsend & _)
  end.
  unfold sendTestEmail. rewrite Hr'.
  unfold bind at 1. rewrite Hread.
  unfold bind at 1. unfold observe at 1. fold (observed w1).
  unfold bind. rewrite Hsend.
  destruct (send_error _ _) as [e |].
  - rewrite Errorf_rewrap. eexists (Some e), _, w'.
    split; [reflexivity |]. split; [reflexivity |].
    eexists. split; [reflexivity |]. split; [reflexivity |].
    intros target. reflexivity.
  - exists None, None, w'. repeat split.
Qed.

Lemma test_send_error_is_kept_witness :
  EmailRecipient config_pi <> noEmailRecipient
  /\ getCPUTemperature env_hot_slow_mail world0
     = Done (reading_65, None) (observed world0)
  /\ exists subject body inner r w',
      sendEmail env_hot_slow_mail config_pi subject body (observed (observed world0))
      = Done inner w'
      /\ sendTestEmail env_hot_slow_mail config_pi world0 = Done r w'
      /\ match inner with
         | None => r = None
         | Some e =>
             exists e', r = Some e'
                        /\ Error (Quote env_hot_slow_mail) e'
                           = Error (Quote env_hot_slow_mail) e
                        /\ forall target, Is e' target = Is e target
         end.
Proof.
  assert (H : getCPUTemperature env_hot_slow_mail world0
              = Done (reading_65, None) (observed world0))
    by (vm_compute; reflexivity).
  split; [discriminate |]. split; [exact H |].
  apply (test_send_error_is_kept env_hot_slow_mail config_pi world0 (observed world0)
           reading_65); [discriminate | exact H].
Defined.

(** X23: a non-positive [-interval] is not rejected when the flags are
    read: in monitoring mode with a valid mail command the configuration
    is shown and the initial check runs (and may send its alert), then
    [time.NewTicker] panics; no event is handled. *)
Theorem nonpositive_interval_panics_after_first_check (E : Env) (args : CommandLine)
  (events : list Event) (w : World) :
  ~ mail_command_invalid E ->
  TestEmailFlag (parseFlags args) = false ->
  CheckInterval (parseFlags args) <= 0 ->
  exists reason w1,
    compareTemperatures E (with_sentinel (built_config E args))
      (mkWorld (instant w)
         (output (configured E args w) ++ [Log "----- Monitoring"])
         (started w))
    = Done tt w1
    /\ main E args events w = Panicked reason w1.
Proof.
  intros Hv Ht Hi. rewrite main_unfold, Ht.
  destruct (mail_command_check E) as [e |] eqn:Hc.
  { exfalso. apply Hv. exists e. rewrite validateMailCommand_check, Hc. reflexivity. }
  set (cfg := with_sentinel (built_config E args)).
  unfold bind at 1. unfold log_Println at 1. unfold emit at 1.
  change (Sprintln (Quote E) [VString appPrefix; VString "Monitoring"])
    with "----- Monitoring".
  change (instant (configured E args w)) with (instant w).
  change (started (configured E args w)) with (started w).
  match goal with
  | |- context [compareTemperatures E cfg ?w0] =>
      destruct (compareTemperatures_returns E cfg w0) as (w1 & Hrun)
  end.
  unfold bind. rewrite Hrun.
  unfold tempCheckLoop, NewTicker.
  assert (Hle : (CheckInterval cfg <=? 0) = true).
  { apply Z.leb_le. exact Hi. }
  unfold bind. rewrite Hle.
  eexists _, w1. split; reflexivity.
Qed.

Lemma nonpositive_interval_panics_after_first_check_witness :
  ~ mail_command_invalid env_hot
  /\ TestEmailFlag (parseFlags args_zero_interval) = false
  /\ CheckInterval (parseFlags args_zero_interval) <= 0
  /\ exists reason w1,
      compareTemperatures env_hot (with_sentinel (built_config env_hot args_zero_interval))
        (mkWorld (instant world0)
           (output (configured env_hot args_zero_interval world0)
            ++ [Log "----- Monitoring"])
           (started world0))
      = Done tt w1
      /\ main env_hot args_zero_interval [Tick; Sig SIGTERM] world0
         = Panicked reason w1.
Proof.
  assert (H : ~ mail_command_invalid env_hot).
  { intros (e & He). vm_compute in He. discriminate He. }
  split; [exact H |]. split; [reflexivity |]. split; [vm_compute; discriminate |].
  apply (nonpositive_interval_panics_after_first_check env_hot args_zero_interval
           [Tick; Sig SIGTERM] world0 H); [reflexivity | vm_compute; discriminate].
Defined.
